(** * A shallow embedding of the send pipeline of the text platform

    The development follows the JavaScript sources:
    - [services/compliance/index.js] (the compliance engine and the phone
      normalizer),
    - [services/queue/index.js] (the queue helpers and the two workers),
    - [services/sms/telnyx.js] (the provider adapter and the reconciler),
    - [webhooks/telnyx.js] (the webhook dispatcher),
    - [db/schema.sql] (the tables and their CHECK constraints),
    - [config/index.js] (the defaults).

    Conventions of the embedding.
    - A JavaScript string is a [string] of bytes.  The only character
      classes the code distinguishes are ASCII ones, so a non-ASCII
      character (several bytes, all above 127) is treated like any other
      non-digit.
    - An instant ([Date], [dayjs()]) is the number of milliseconds since the
      epoch, in [Z]; an ISO timestamp string is identified with the instant
      it denotes.
    - A UUID is an abstract identifier, a [nat]; fresh ones come from a
      counter of the world.
    - A nullable SQL column is an [option]; [WHERE] keeps the rows whose
      condition is TRUE, so a NULL comparison drops the row.
    - The row-level policies of the schema apply to the role the pool
      connects with.  [db.queryWithTenant] sets the tenant on its connection
      and sees the rows of that tenant.  [db.query] sets nothing: on a table
      under a policy it sees the rows of the tenant the pooled connection
      still carries from an earlier [queryWithTenant] ([set_config(..., FALSE)]
      outlives the release of the client), and no row on a connection that
      carries none; [global_opt_outs] has no policy and is seen whole.  The
      tenant carried by the connection that serves a [db.query] is an input
      of the function that calls it, [session].
    - A statement is sent without parameter types; the server deduces them
      and rejects a statement whose uses of one parameter disagree.  NOT NULL
      columns and the CHECK constraint on [messages.status] are part of the
      model; foreign keys are not.
    - The clock is read once per operation: every [dayjs()], [Date.now()] and
      SQL [NOW()] of one call sees the instant [now] the function is given.
    - The calls to the logger are recorded with their level and message. *)

From Stdlib Require Import ZArith List String Ascii Bool Lia.
From Stdlib Require Import Numbers.DecimalString.
Import ListNotations.

Open Scope string_scope.
Open Scope Z_scope.

(** ** Phone normalizer ([ComplianceEngine.normalizePhone]) *)

(** The regular expression class [\d]: the ASCII digits. *)
Definition is_digit (c : ascii) : bool :=
  ((48 <=? nat_of_ascii c) && (nat_of_ascii c <=? 57))%nat.

(** [phone.replace(/\D/g, '')] *)
Fixpoint strip_non_digits (s : string) : string :=
  match s with
  | EmptyString => EmptyString
  | String c rest =>
      if is_digit c then String c (strip_non_digits rest)
      else strip_non_digits rest
  end.

Definition normalizePhone (phone : string) : string :=
  let digits := strip_non_digits phone in
  let digits :=
    if (String.length digits =? 10)%nat then "1" ++ digits else digits in
  "+" ++ digits.

(** The wording of the specification, for comparison with the code: the digit
    characters of the input, in order. *)
Definition digit_characters (s : string) : list ascii :=
  filter is_digit (list_ascii_of_string s).


(** ** Values shared by the services *)

Definition uuid := nat.
Definition instant := Z.

(** The two channels of [messages.type] and [opt_out_log.channel]
    ([CHECK (... IN ('sms', 'email'))]); every caller passes one of them. *)
Inductive Channel := sms | email.

(** [campaigns.type]: [CHECK (type IN ('sms', 'email', 'both'))]. *)
Inductive CampaignType := campaign_sms | campaign_email | campaign_both.

Inductive Direction := inbound | outbound.

Definition Channel_eqb (a b : Channel) : bool :=
  match a, b with
  | sms, sms | email, email => true
  | _, _ => false
  end.

Definition Direction_eqb (a b : Direction) : bool :=
  match a, b with
  | inbound, inbound | outbound, outbound => true
  | _, _ => false
  end.

Definition channel_name (c : Channel) : string :=
  match c with sms => "sms" | email => "email" end.

(** JavaScript truthiness of the values the code tests. *)
Definition truthy_bool (b : option bool) : bool :=
  match b with Some true => true | _ => false end.

Definition truthy_string (s : option string) : bool :=
  match s with
  | Some (String _ _) => true
  | _ => false
  end.

Definition is_some {A : Type} (o : option A) : bool :=
  match o with Some _ => true | None => false end.

(** [a || b] on strings that may be null or empty. *)
Definition or_string (a : option string) (b : option string) : option string :=
  if truthy_string a then a else b.

Definition string_of_Z (z : Z) : string := NilZero.string_of_int (Z.to_int z).

Definition mem_string (s : string) (l : list string) : bool :=
  existsb (String.eqb s) l.

Definition mem_uuid (u : uuid) (l : list uuid) : bool :=
  existsb (Nat.eqb u) l.

Definition option_uuid_eqb (a : option uuid) (b : uuid) : bool :=
  match a with Some x => Nat.eqb x b | None => false end.

Definition option_string_eqb (a : option string) (b : string) : bool :=
  match a with Some x => String.eqb x b | None => false end.

(** ** The tables of [db/schema.sql] (the columns the pipeline uses) *)

Module Contact.
Record row := {
  id : uuid;
  tenant_id : uuid;
  phone : option string;
  primary_location_id : option uuid;
  sms_consent : option bool;
  sms_consent_at : option instant;
  sms_opted_out : option bool;
  sms_opted_out_at : option instant;
  email_consent : option bool;
  email_consent_at : option instant;
  email_opted_out : option bool;
  email_opted_out_at : option instant;
  age_verified : option bool;
  date_of_birth : option instant;
  tags : option (list string);
  timezone : option string }.
End Contact.

Module Location.
Record row := {
  id : uuid;
  tenant_id : uuid;
  state : string;
  timezone : option string;
  sms_phone_number : option string }.
End Location.

Module Campaign.
Record row := {
  id : uuid;
  tenant_id : uuid;
  type : CampaignType;
  status : string;
  sms_content : option string;
  target_locations : option (list uuid);
  target_tags : option (list string);
  started_at : option instant;
  completed_at : option instant;
  total_recipients : Z;
  sent_count : Z;
  delivered_count : Z;
  failed_count : Z }.
End Campaign.

Module Message.
Record row := {
  id : uuid;
  tenant_id : uuid;
  campaign_id : option uuid;
  contact_id : option uuid;
  location_id : option uuid;
  type : Channel;
  direction : Direction;
  to_address : string;
  from_address : option string;
  content : string;
  status : string;
  status_updated_at : option instant;
  provider : option string;
  provider_message_id : option string;
  provider_status : option string;
  provider_error : option string;
  consent_verified_at : option instant;
  quiet_hours_checked_at : option instant;
  segments : Z;
  sent_at : option instant;
  delivered_at : option instant;
  created_at : instant }.
End Message.

Module OptOutLog.
Inductive Action := opt_out | opt_in.
Record row := {
  tenant_id : uuid;
  contact_id : option uuid;
  channel : Channel;
  address : string;
  action : Action;
  method : string;
  source_message_id : option uuid;
  created_at : instant }.
End OptOutLog.

Module GlobalOptOut.
Record row := {
  phone : string;
  opted_out_at : instant;
  source_tenant_id : option uuid }.
End GlobalOptOut.

(** ** The queue ([bullmq]) as the code uses it *)

Record JobData := {
  jd_tenantId : uuid;
  jd_contactId : uuid;
  jd_locationId : option uuid;
  jd_content : option string;
  jd_campaignId : option uuid }.

Record JobOptions := {
  delay : Z;
  attempts : Z;
  backoff_type : string;
  backoff_delay : Z;
  removeOnComplete : Z;
  removeOnFail : Z }.

Record Job := {
  job_id : nat;
  job_name : string;
  job_data : JobData;
  job_opts : JobOptions }.

Inductive LogLevel := info | warn | error.

(** ** The world: the store, the SMS queue, the logger output and the
    supply of fresh identifiers *)

Record World := {
  contacts : list Contact.row;
  locations : list Location.row;
  campaigns : list Campaign.row;
  messages : list Message.row;
  opt_out_log : list OptOutLog.row;
  global_opt_outs : list GlobalOptOut.row;
  smsQueue : list Job;
  logger : list (LogLevel * string);
  next_id : nat }.

Definition with_contacts (w : World) (x : list Contact.row) : World :=
  {| contacts := x; locations := locations w; campaigns := campaigns w;
     messages := messages w; opt_out_log := opt_out_log w;
     global_opt_outs := global_opt_outs w; smsQueue := smsQueue w;
     logger := logger w; next_id := next_id w |}.

Definition with_campaigns (w : World) (x : list Campaign.row) : World :=
  {| contacts := contacts w; locations := locations w; campaigns := x;
     messages := messages w; opt_out_log := opt_out_log w;
     global_opt_outs := global_opt_outs w; smsQueue := smsQueue w;
     logger := logger w; next_id := next_id w |}.

Definition with_messages (w : World) (x : list Message.row) : World :=
  {| contacts := contacts w; locations := locations w; campaigns := campaigns w;
     messages := x; opt_out_log := opt_out_log w;
     global_opt_outs := global_opt_outs w; smsQueue := smsQueue w;
     logger := logger w; next_id := next_id w |}.

Definition with_opt_out_log (w : World) (x : list OptOutLog.row) : World :=
  {| contacts := contacts w; locations := locations w; campaigns := campaigns w;
     messages := messages w; opt_out_log := x;
     global_opt_outs := global_opt_outs w; smsQueue := smsQueue w;
     logger := logger w; next_id := next_id w |}.

Definition with_global_opt_outs (w : World) (x : list GlobalOptOut.row) : World :=
  {| contacts := contacts w; locations := locations w; campaigns := campaigns w;
     messages := messages w; opt_out_log := opt_out_log w;
     global_opt_outs := x; smsQueue := smsQueue w;
     logger := logger w; next_id := next_id w |}.

Definition with_smsQueue (w : World) (x : list Job) : World :=
  {| contacts := contacts w; locations := locations w; campaigns := campaigns w;
     messages := messages w; opt_out_log := opt_out_log w;
     global_opt_outs := global_opt_outs w; smsQueue := x;
     logger := logger w; next_id := next_id w |}.

Definition with_logger (w : World) (x : list (LogLevel * string)) : World :=
  {| contacts := contacts w; locations := locations w; campaigns := campaigns w;
     messages := messages w; opt_out_log := opt_out_log w;
     global_opt_outs := global_opt_outs w; smsQueue := smsQueue w;
     logger := x; next_id := next_id w |}.

Definition with_next_id (w : World) (x : nat) : World :=
  {| contacts := contacts w; locations := locations w; campaigns := campaigns w;
     messages := messages w; opt_out_log := opt_out_log w;
     global_opt_outs := global_opt_outs w; smsQueue := smsQueue w;
     logger := logger w; next_id := x |}.

(** ** A state and exception monad for the asynchronous functions

    A function either returns or throws (a rejected promise); the writes made
    before a throw stay, since no function of the pipeline opens a
    transaction. *)

Inductive outcome (A : Type) : Type :=
| Returned (a : A)
| Thrown (message : string).
Arguments Returned {A} a.
Arguments Thrown {A} message.

Definition M (A : Type) : Type := World -> outcome A * World.

Definition ret {A : Type} (a : A) : M A := fun w => (Returned a, w).

Definition throw {A : Type} (message : string) : M A :=
  fun w => (Thrown message, w).

Definition bind {A B : Type} (m : M A) (k : A -> M B) : M B :=
  fun w =>
    match m w with
    | (Returned a, w') => k a w'
    | (Thrown e, w') => (Thrown e, w')
    end.

Definition try_catch {A : Type} (m : M A) (handler : string -> M A) : M A :=
  fun w =>
    match m w with
    | (Returned a, w') => (Returned a, w')
    | (Thrown e, w') => handler e w'
    end.

Definition get : M World := fun w => (Returned w, w).

Definition modify (f : World -> World) : M unit := fun w => (Returned tt, f w).

Definition lift {A : Type} (o : outcome A) : M A := fun w => (o, w).

Notation "x <- m ;; k" := (bind m (fun x => k))
  (at level 61, m at next level, right associativity).
Notation "m ;;; k" := (bind m (fun _ => k))
  (at level 61, right associativity).

Definition log (level : LogLevel) (message : string) : M unit :=
  modify (fun w => with_logger w (logger w ++ [(level, message)])).

Definition fresh_id : M nat :=
  fun w => (Returned (next_id w), with_next_id w (S (next_id w))).

Fixpoint for_each {A : Type} (l : list A) (body : A -> M unit) : M unit :=
  match l with
  | [] => ret tt
  | x :: rest => body x ;;; for_each rest body
  end.

(** ** Configuration ([config/index.js]) and the libraries outside the
    repository *)

Record Config := {
  quietHours_start : string;
  quietHours_end : string;
  maxMessagesPerDayPerRecipient : Z;
  optOutKeywords : list string;
  optInKeywords : list string;
  messagingProfileId : option string }.

(** The values [config/index.js] takes when the environment sets nothing. *)
Definition default_config : Config :=
  {| quietHours_start := "21:00";
     quietHours_end := "08:00";
     maxMessagesPerDayPerRecipient := 3;
     optOutKeywords := ["STOP"; "UNSUBSCRIBE"; "CANCEL"; "END"; "QUIT"];
     optInKeywords := ["START"; "YES"; "SUBSCRIBE"; "UNSTOP"];
     messagingProfileId := None |}.

Record TelnyxParams := {
  tp_to : string;
  tp_text : string;
  tp_from : option string;
  tp_messaging_profile_id : option string }.

Record TelnyxResponse := {
  data_id : string;
  data_parts : option Z }.

(** What the code takes from outside the repository:
    - [knownZone tz]: whether the time zone data of the runtime has the zone
      name [tz]; [dayjs().tz(tz)] throws a RangeError when it has not;
    - [utcOffset tz t]: the offset from UTC, in minutes, that the zone [tz]
      has at the instant [t] (the time zone data behind [dayjs().tz(tz)]),
      read for known zones only;
    - [diff_year a b]: [dayjs(a).diff(dayjs(b), 'year')], whole years;
    - [telnyx_create]: [telnyx.messages.create], which returns a response or
      throws with the provider's error text. *)
Record Env := {
  config : Config;
  knownZone : string -> bool;
  utcOffset : string -> instant -> Z;
  diff_year : instant -> instant -> Z;
  telnyx_create : TelnyxParams -> outcome TelnyxResponse }.

(** ** Wall-clock arithmetic ([dayjs] with the utc and timezone plugins)

    [dayjs().tz(tz)] is the instant together with the zone's offset at that
    instant; its fields are those of the local time [t + offset].  A setter
    changes one field of the local time and keeps the others, milliseconds
    included, as [Date.prototype.setHours] and the like do; the offset stays
    the one read at creation, and [add(1, 'day')] moves the time by 24
    hours. *)

Definition MS_PER_SECOND : Z := 1000.
Definition MS_PER_MINUTE : Z := 60000.
Definition MS_PER_HOUR : Z := 3600000.
Definition MS_PER_DAY : Z := 86400000.

Definition local_hour (l : Z) : Z := (l mod MS_PER_DAY) / MS_PER_HOUR.
Definition local_minute (l : Z) : Z := (l mod MS_PER_HOUR) / MS_PER_MINUTE.
Definition local_second (l : Z) : Z := (l mod MS_PER_MINUTE) / MS_PER_SECOND.

Definition set_hour (l h : Z) : Z := l - local_hour l * MS_PER_HOUR + h * MS_PER_HOUR.
Definition set_minute (l m : Z) : Z := l - local_minute l * MS_PER_MINUTE + m * MS_PER_MINUTE.
Definition set_second (l s : Z) : Z := l - local_second l * MS_PER_SECOND + s * MS_PER_SECOND.

(** Two-digit fields of [format('HH:mm')]. *)
Definition pad2 (n : Z) : string :=
  if n <? 10 then "0" ++ string_of_Z n else string_of_Z n.

Definition format_HHmm (l : Z) : string :=
  pad2 (local_hour l) ++ ":" ++ pad2 (local_minute l).

(** [s.split(':')] *)
Fixpoint split_colon_aux (cur : string) (s : string) : list string :=
  match s with
  | EmptyString => [cur]
  | String c rest =>
      if Ascii.eqb c ":"%char then cur :: split_colon_aux "" rest
      else split_colon_aux (cur ++ String c "") rest
  end.

Definition split_colon (s : string) : list string := split_colon_aux "" s.

Definition digit_value (c : ascii) : Z := Z.of_nat (nat_of_ascii c) - 48.

Fixpoint parse_digits (acc : Z) (s : string) : Z :=
  match s with
  | String c rest =>
      if is_digit c then parse_digits (10 * acc + digit_value c) rest else acc
  | EmptyString => acc
  end.

(** [parseInt(s)] on the fields of an HH:MM value: the leading decimal digits,
    [None] for NaN.  ([parseInt] also skips leading white space and reads a
    sign or a 0x prefix; none occurs in an HH:MM value and the model gives
    NaN for them.)  [parseInt(undefined)] is NaN. *)
Definition parseInt (s : option string) : option Z :=
  match s with
  | Some (String c rest) =>
      if is_digit c then Some (parse_digits 0 (String c rest)) else None
  | _ => None
  end.

(** JavaScript compares strings by code unit; [<] and [>=] on the HH:MM
    strings. *)
Definition str_lt (a b : string) : bool := String.ltb a b.
Definition str_ge (a b : string) : bool := negb (String.ltb a b).
Definition str_gt (a b : string) : bool := String.ltb b a.

(** ** Compliance engine ([services/compliance/index.js]) *)

Record CheckResult := {
  approved : bool;
  reasons : list string;
  retryAfter : option instant }.

Definition check_passed : CheckResult :=
  {| approved := true; reasons := []; retryAfter := None |}.

Definition check_failed (reason : string) : CheckResult :=
  {| approved := false; reasons := [reason]; retryAfter := None |}.

(** The row [checkMessage] selects: [c.*, l.state, l.timezone AS
    location_timezone] over the LEFT JOIN with the contact's location. *)
Record ContactRow := {
  contact : Contact.row;
  state : option string;
  location_timezone : option string }.

Definition checkConsent (c : ContactRow) (messageType : Channel) : CheckResult :=
  match messageType with
  | sms =>
      if negb (truthy_bool (Contact.sms_consent (contact c))) then
        check_failed "No SMS consent on file"
      else if negb (is_some (Contact.sms_consent_at (contact c))) then
        check_failed "SMS consent timestamp missing"
      else check_passed
  | email =>
      if negb (truthy_bool (Contact.email_consent (contact c))) then
        check_failed "No email consent on file"
      else check_passed
  end.

Definition checkOptOut (c : ContactRow) (messageType : Channel) : CheckResult :=
  if Channel_eqb messageType sms && truthy_bool (Contact.sms_opted_out (contact c)) then
    check_failed "Contact has opted out of SMS"
  else if Channel_eqb messageType email && truthy_bool (Contact.email_opted_out (contact c)) then
    check_failed "Contact has opted out of email"
  else check_passed.

Definition checkAgeVerification (env : Env) (now : instant) (c : ContactRow) : CheckResult :=
  if negb (truthy_bool (Contact.age_verified (contact c))) then
    check_failed "Age not verified (21+ required)"
  else
    match Contact.date_of_birth (contact c) with
    | Some dob =>
        if diff_year env now dob <? 21 then check_failed "Contact is under 21"
        else check_passed
    | None => check_passed
    end.

(** [db.query] on [global_opt_outs], a table without a row-level policy:
    every row is seen. *)
Definition checkGlobalOptOut (w : World) (phone : string) : CheckResult :=
  let rows :=
    filter (fun g => String.eqb (GlobalOptOut.phone g) (normalizePhone phone))
           (global_opt_outs w) in
  if (0 <? List.length rows)%nat then
    check_failed "Phone number on global opt-out list"
  else check_passed.

(** [dayjs().tz(tz)] formats the instant with [Intl.DateTimeFormat] in the
    zone; a name the runtime does not know makes it throw. *)
Definition invalid_time_zone (tz : string) : string :=
  "RangeError: Invalid time zone specified: " ++ tz.

(** [getQuietHoursEnd(tz)].  An unknown zone throws at [dayjs().tz(tz)]; an
    hour or minute that does not parse makes the date invalid, and
    [toISOString] of an invalid date throws. *)
Definition getQuietHoursEnd (env : Env) (now : instant) (tz : string) : outcome instant :=
  let parts := split_colon (quietHours_end (config env)) in
  if negb (knownZone env tz) then Thrown (invalid_time_zone tz)
  else
  match parseInt (nth_error parts 0), parseInt (nth_error parts 1) with
  | Some hours, Some minutes =>
      let offset := utcOffset env tz now * MS_PER_MINUTE in
      let endLocal := set_second (set_minute (set_hour (now + offset) hours) minutes) 0 in
      let endTime := endLocal - offset in
      let endTime := if endTime <? now then endTime + MS_PER_DAY else endTime in
      Returned endTime
  | _, _ => Thrown "RangeError: Invalid time value"
  end.

Definition resolve_timezone (c : ContactRow) : string :=
  match or_string (or_string (Contact.timezone (contact c)) (location_timezone c))
                  (Some "America/Los_Angeles") with
  | Some tz => tz
  | None => "America/Los_Angeles"
  end.

Definition inQuietHours (quietStart quietEnd currentTime : string) : bool :=
  if str_gt quietStart quietEnd then
    str_ge currentTime quietStart || str_lt currentTime quietEnd
  else
    str_ge currentTime quietStart && str_lt currentTime quietEnd.

Definition checkQuietHours (env : Env) (now : instant) (c : ContactRow) : outcome CheckResult :=
  let tz := resolve_timezone c in
  if negb (knownZone env tz) then Thrown (invalid_time_zone tz)
  else
  let currentTime := format_HHmm (now + utcOffset env tz now * MS_PER_MINUTE) in
  let quietStart := quietHours_start (config env) in
  let quietEnd := quietHours_end (config env) in
  if inQuietHours quietStart quietEnd currentTime then
    match getQuietHoursEnd env now tz with
    | Returned t =>
        Returned
          {| approved := false;
             reasons := ["Quiet hours in effect (" ++ quietStart ++ " - " ++ quietEnd
                           ++ " " ++ tz ++ ")"];
             retryAfter := Some t |}
    | Thrown e => Thrown e
    end
  else Returned check_passed.

(** [db.queryWithTenant]: the row-level policy shows the rows of the tenant
    set on the connection. *)
Definition visible_message (tenantId : uuid) (m : Message.row) : bool :=
  Nat.eqb (Message.tenant_id m) tenantId.

Definition HOURS_24 : Z := 24 * MS_PER_HOUR.

Definition checkRateLimit (env : Env) (now : instant) (w : World)
    (tenantId contactId : uuid) (messageType : Channel) : CheckResult :=
  let rows :=
    filter (fun m =>
              visible_message tenantId m
              && option_uuid_eqb (Message.contact_id m) contactId
              && Channel_eqb (Message.type m) messageType
              && Direction_eqb (Message.direction m) outbound
              && (now - HOURS_24 <? Message.created_at m))
           (messages w) in
  let count := Z.of_nat (List.length rows) in
  if maxMessagesPerDayPerRecipient (config env) <=? count then
    check_failed ("Rate limit exceeded (" ++ string_of_Z count ++ "/"
                    ++ string_of_Z (maxMessagesPerDayPerRecipient (config env))
                    ++ " messages in 24h)")
  else check_passed.

Definition checkStateRules (state : option string) (messageType : Channel) : CheckResult :=
  check_passed.

Record Checks := {
  consent : bool;
  optOut : bool;
  ageVerification : bool;
  quietHours : bool;
  rateLimit : bool;
  stateRules : bool }.

(** The object [checkMessage] returns; [checks] is absent from the one it
    returns when the contact is not found. *)
Record ComplianceResult := {
  cr_approved : bool;
  cr_reasons : list string;
  cr_contact : option ContactRow;
  cr_checks : option Checks }.

(** [if (!check.approved) reasons.push(...check.reasons)] *)
Definition push_reasons (acc : list string) (check : CheckResult) : list string :=
  if negb (approved check) then acc ++ reasons check else acc.

Definition select_contact (w : World) (tenantId contactId : uuid) : option ContactRow :=
  match find (fun c => Nat.eqb (Contact.tenant_id c) tenantId
                       && Nat.eqb (Contact.id c) contactId) (contacts w) with
  | Some c =>
      let l :=
        match Contact.primary_location_id c with
        | Some lid =>
            find (fun l => Nat.eqb (Location.tenant_id l) tenantId
                           && Nat.eqb (Location.id l) lid) (locations w)
        | None => None
        end in
      Some {| contact := c;
              state := option_map Location.state l;
              location_timezone :=
                match l with Some l => Location.timezone l | None => None end |}
  | None => None
  end.

Definition obind {A B : Type} (o : outcome A) (k : A -> outcome B) : outcome B :=
  match o with
  | Returned a => k a
  | Thrown e => Thrown e
  end.

(** [checkMessage] only reads the store.  The clock reads of one evaluation
    are taken at one instant [now]. *)
Definition checkMessage (env : Env) (now : instant) (w : World)
    (tenantId contactId : uuid) (messageType : Channel) : outcome ComplianceResult :=
  match select_contact w tenantId contactId with
  | None =>
      Returned {| cr_approved := false; cr_reasons := ["Contact not found"];
                  cr_contact := None; cr_checks := None |}
  | Some c =>
      let reasons := [] in
      (* 1. consent *)
      let consentCheck := checkConsent c messageType in
      let reasons := push_reasons reasons consentCheck in
      (* 2. opt-out status *)
      let optOutCheck := checkOptOut c messageType in
      let reasons := push_reasons reasons optOutCheck in
      (* 3. age verification *)
      let ageCheck := checkAgeVerification env now c in
      let reasons := push_reasons reasons ageCheck in
      (* 4. global opt-out (for SMS) *)
      let reasons :=
        match messageType, Contact.phone (contact c) with
        | sms, Some (String a p) =>
            push_reasons reasons (checkGlobalOptOut w (String a p))
        | _, _ => reasons
        end in
      (* 5. quiet hours (for SMS) *)
      obind (match messageType with
             | sms =>
                 obind (checkQuietHours env now c)
                       (fun q => Returned (push_reasons reasons q))
             | email => Returned reasons
             end)
        (fun reasons =>
      (* 6. rate limiting *)
      let rateLimitCheck := checkRateLimit env now w tenantId contactId messageType in
      let reasons := push_reasons reasons rateLimitCheck in
      (* 7. state-specific rules *)
      let stateCheck := checkStateRules (state c) messageType in
      let reasons := push_reasons reasons stateCheck in
      obind (match messageType with
             | sms => obind (checkQuietHours env now c) (fun q => Returned (approved q))
             | email => Returned true
             end)
        (fun quietHoursApproved =>
      Returned
        {| cr_approved := (List.length reasons =? 0)%nat;
           cr_reasons := reasons;
           cr_contact := Some c;
           cr_checks :=
             Some {| consent := approved consentCheck;
                     optOut := approved optOutCheck;
                     ageVerification := approved ageCheck;
                     quietHours := quietHoursApproved;
                     rateLimit := approved rateLimitCheck;
                     stateRules := approved stateCheck |} |}))
  end.

Definition to_lower_char (c : ascii) : ascii :=
  let n := nat_of_ascii c in
  if ((65 <=? n) && (n <=? 90))%nat then ascii_of_nat (n + 32) else c.

(** [toLowerCase] on the ASCII letters. *)
Fixpoint toLowerCase (s : string) : string :=
  match s with
  | EmptyString => EmptyString
  | String c rest => String (to_lower_char c) (toLowerCase rest)
  end.

(** [s.includes(term)] *)
Fixpoint includes (s term : string) : bool :=
  String.prefix term s ||
  match s with
  | EmptyString => false
  | String _ rest => includes rest term
  end.

Definition dquote : string := String (ascii_of_nat 34) EmptyString.

Definition healthClaims : list string :=
  ["cure"; "treat"; "heal"; "medical benefit"; "health benefit";
   "prevents"; "reduces risk"; "therapeutic"].

Definition minorAppealing : list string :=
  ["candy"; "cartoon"; "kid"; "child"; "toy"; "school"].

(** [scanContent(content, state)]: the list of issues; the content is
    approved when there is none. *)
Definition scanContent (content : string) (state : option string) : list string :=
  let contentLower := toLowerCase content in
  map (fun term => "Potential health claim detected: " ++ dquote ++ term ++ dquote)
      (filter (includes contentLower) healthClaims)
  ++ map (fun term => "Term that may appeal to minors: " ++ dquote ++ term ++ dquote)
         (filter (includes contentLower) minorAppealing).

(** ** Queue helpers ([services/queue/index.js]) *)

Definition queueSMS (data : JobData) (delay : Z) : M Job :=
  id <- fresh_id ;;
  let job :=
    {| job_id := id; job_name := "send-sms"; job_data := data;
       job_opts := {| delay := delay; attempts := 3;
                      backoff_type := "exponential"; backoff_delay := 5000;
                      removeOnComplete := 1000; removeOnFail := 5000 |} |} in
  modify (fun w => with_smsQueue w (smsQueue w ++ [job])) ;;;
  log info "SMS queued" ;;;
  ret job.

(** What [queueSMSWithQuietHours] returns: the job, or
    [{ blocked: true, reasons }]. *)
Inductive QueueResult :=
| Queued (job : Job)
| Blocked (reasons : list string).

Definition queueSMSWithQuietHours (env : Env) (now : instant) (data : JobData) : M QueueResult :=
  w <- get ;;
  complianceResult <- lift (checkMessage env now w (jd_tenantId data) (jd_contactId data) sms) ;;
  if negb (cr_approved complianceResult) then
    match cr_checks complianceResult with
    | None => throw "TypeError: Cannot read properties of undefined (reading 'quietHours')"
    | Some checks =>
        match (if negb (quietHours checks) then cr_contact complianceResult else None) with
        | Some c =>
            q <- lift (checkQuietHours env now c) ;;
            match retryAfter q with
            | Some t =>
                job <- queueSMS data (t - now) ;;
                ret (Queued job)
            | None => ret (Blocked (cr_reasons complianceResult))
            end
        | None => ret (Blocked (cr_reasons complianceResult))
        end
    end
  else
    job <- queueSMS data 0 ;;
    ret (Queued job).

(** ** Provider adapter and reconciler ([services/sms/telnyx.js]) *)

(** [UPDATE messages SET <changes> WHERE <cond>] *)
Definition update_messages (cond : Message.row -> bool)
    (change : Message.row -> Message.row) (w : World) : World :=
  with_messages w (map (fun m => if cond m then change m else m) (messages w)).

Definition set_sent (providerId : string) (now : instant) (segs : Z)
    (m : Message.row) : Message.row :=
  {| Message.id := Message.id m; Message.tenant_id := Message.tenant_id m;
     Message.campaign_id := Message.campaign_id m;
     Message.contact_id := Message.contact_id m;
     Message.location_id := Message.location_id m;
     Message.type := Message.type m; Message.direction := Message.direction m;
     Message.to_address := Message.to_address m;
     Message.from_address := Message.from_address m;
     Message.content := Message.content m;
     Message.status := "sent";
     Message.status_updated_at := Message.status_updated_at m;
     Message.provider := Message.provider m;
     Message.provider_message_id := Some providerId;
     Message.provider_status := Message.provider_status m;
     Message.provider_error := Message.provider_error m;
     Message.consent_verified_at := Message.consent_verified_at m;
     Message.quiet_hours_checked_at := Message.quiet_hours_checked_at m;
     Message.segments := segs;
     Message.sent_at := Some now;
     Message.delivered_at := Message.delivered_at m;
     Message.created_at := Message.created_at m |}.

Definition set_failed (err : string) (m : Message.row) : Message.row :=
  {| Message.id := Message.id m; Message.tenant_id := Message.tenant_id m;
     Message.campaign_id := Message.campaign_id m;
     Message.contact_id := Message.contact_id m;
     Message.location_id := Message.location_id m;
     Message.type := Message.type m; Message.direction := Message.direction m;
     Message.to_address := Message.to_address m;
     Message.from_address := Message.from_address m;
     Message.content := Message.content m;
     Message.status := "failed";
     Message.status_updated_at := Message.status_updated_at m;
     Message.provider := Message.provider m;
     Message.provider_message_id := Message.provider_message_id m;
     Message.provider_status := Message.provider_status m;
     Message.provider_error := Some err;
     Message.consent_verified_at := Message.consent_verified_at m;
     Message.quiet_hours_checked_at := Message.quiet_hours_checked_at m;
     Message.segments := Message.segments m;
     Message.sent_at := Message.sent_at m;
     Message.delivered_at := Message.delivered_at m;
     Message.created_at := Message.created_at m |}.

(** The SET list of [updateMessageStatus]:
    [status = $1, provider_status = $2, provider_error = $3,
     status_updated_at = NOW(),
     delivered_at = CASE WHEN $1 = 'delivered' THEN NOW() ELSE delivered_at END] *)
Definition set_status (mappedStatus status : string) (errorMessage : option string)
    (now : instant) (m : Message.row) : Message.row :=
  {| Message.id := Message.id m; Message.tenant_id := Message.tenant_id m;
     Message.campaign_id := Message.campaign_id m;
     Message.contact_id := Message.contact_id m;
     Message.location_id := Message.location_id m;
     Message.type := Message.type m; Message.direction := Message.direction m;
     Message.to_address := Message.to_address m;
     Message.from_address := Message.from_address m;
     Message.content := Message.content m;
     Message.status := mappedStatus;
     Message.status_updated_at := Some now;
     Message.provider := Message.provider m;
     Message.provider_message_id := Message.provider_message_id m;
     Message.provider_status := Some status;
     Message.provider_error := errorMessage;
     Message.consent_verified_at := Message.consent_verified_at m;
     Message.quiet_hours_checked_at := Message.quiet_hours_checked_at m;
     Message.segments := Message.segments m;
     Message.sent_at := Message.sent_at m;
     Message.delivered_at :=
       if String.eqb mappedStatus "delivered" then Some now
       else Message.delivered_at m;
     Message.created_at := Message.created_at m |}.

(** What [sendMessage] returns:
    [{ success: true, messageId, telnyxId, segments }],
    [{ success: false, blocked: true, reasons }] or
    [{ success: false, messageId, error }]. *)
Inductive SendResult :=
| SendSuccess (messageId : uuid) (telnyxId : string) (segs : Z)
| SendBlocked (reasons : list string)
| SendFailure (messageId : uuid) (error : string).

Definition sendMessage (env : Env) (now : instant) (data : JobData) : M SendResult :=
  let tenantId := jd_tenantId data in
  (* 1. compliance checks *)
  w <- get ;;
  complianceResult <- lift (checkMessage env now w tenantId (jd_contactId data) sms) ;;
  if negb (cr_approved complianceResult) then
    log warn "Message blocked by compliance" ;;;
    ret (SendBlocked (cr_reasons complianceResult))
  else
    match cr_contact complianceResult with
    | None => throw "TypeError: Cannot read properties of null (reading 'state')"
    | Some c =>
        (* 2. content scan: logged, never blocking *)
        content <-
          match jd_content data with
          | Some content => ret content
          | None => throw "TypeError: Cannot read properties of null (reading 'toLowerCase')"
          end ;;
        (match scanContent content (state c) with
         | [] => ret tt
         | _ :: _ => log warn "Message content flagged"
         end) ;;;
        (* 3. the location's phone number *)
        let fromNumber :=
          match jd_locationId data with
          | Some lid =>
              match find (fun l => Nat.eqb (Location.tenant_id l) tenantId
                                   && Nat.eqb (Location.id l) lid) (locations w) with
              | Some l => or_string (Location.sms_phone_number l) None
              | None => None
              end
          | None => None
          end in
        (* 4. the message record; [to_address] is NOT NULL *)
        match Contact.phone (contact c) with
        | None => throw "null value in column to_address violates not-null constraint"
        | Some to =>
            messageId <- fresh_id ;;
            modify (fun w =>
              with_messages w
                (messages w ++
                 [{| Message.id := messageId; Message.tenant_id := tenantId;
                     Message.campaign_id := jd_campaignId data;
                     Message.contact_id := Some (jd_contactId data);
                     Message.location_id := jd_locationId data;
                     Message.type := sms; Message.direction := outbound;
                     Message.to_address := to;
                     Message.from_address := fromNumber;
                     Message.content := content;
                     Message.status := "queued";
                     Message.status_updated_at := None;
                     Message.provider := Some "telnyx";
                     Message.provider_message_id := None;
                     Message.provider_status := None;
                     Message.provider_error := None;
                     Message.consent_verified_at := Some now;
                     Message.quiet_hours_checked_at := Some now;
                     Message.segments := 1;
                     Message.sent_at := None;
                     Message.delivered_at := None;
                     Message.created_at := now |}])) ;;;
            (* 5. send, 6. record the response *)
            let own m := visible_message tenantId m && Nat.eqb (Message.id m) messageId in
            try_catch
              (let telnyxParams :=
                 {| tp_to := to; tp_text := content;
                    tp_from := fromNumber;
                    tp_messaging_profile_id :=
                      match fromNumber with
                      | Some _ => None
                      | None => messagingProfileId (config env)
                      end |} in
               response <- lift (telnyx_create env telnyxParams) ;;
               let segs :=
                 match data_parts response with
                 | Some p => if p =? 0 then 1 else p
                 | None => 1
                 end in
               modify (update_messages own (set_sent (data_id response) now segs)) ;;;
               log info "SMS sent successfully" ;;;
               ret (SendSuccess messageId (data_id response) segs))
              (fun e =>
                 modify (update_messages own (set_failed e)) ;;;
                 log error "SMS send failed" ;;;
                 ret (SendFailure messageId e))
        end
    end.

(** The processor of the SMS worker ([startSMSWorker]): a returned value
    completes the job, a throw makes the queue retry it. *)
Definition startSMSWorker_processor (env : Env) (now : instant) (job : Job) : M SendResult :=
  log info "Processing SMS job" ;;;
  result <- sendMessage env now (job_data job) ;;
  match result with
  | SendBlocked reasons =>
      log warn "SMS blocked by compliance" ;;;
      ret result
  | SendFailure _ e =>
      throw (match e with EmptyString => "SMS send failed" | _ => e end)
  | SendSuccess _ _ _ => ret result
  end.

Fixpoint assoc (key : string) (table : list (string * string)) : option string :=
  match table with
  | [] => None
  | (k, v) :: rest => if String.eqb key k then Some v else assoc key rest
  end.

(** The names an object literal inherits from [Object.prototype]: [obj[name]]
    reads a function for them, and the prototype itself for [__proto__]. *)
Definition inherited_names : list string :=
  ["constructor"; "hasOwnProperty"; "isPrototypeOf"; "propertyIsEnumerable";
   "toLocaleString"; "toString"; "valueOf"; "__proto__";
   "__defineGetter__"; "__defineSetter__"; "__lookupGetter__"; "__lookupSetter__"].

(** The values the two lookup tables of the reconciler produce: a string, or
    what the inherited name [name] reads as. *)
Inductive JsValue :=
| JsString (s : string)
| JsInherited (name : string).

(** [table[key]] for a table written as an object literal with string
    values; [None] is [undefined]. *)
Definition property (key : string) (table : list (string * string)) : option JsValue :=
  match assoc key table with
  | Some v => Some (JsString v)
  | None => if mem_string key inherited_names then Some (JsInherited key) else None
  end.

Definition statusMap : list (string * string) :=
  [("queued", "queued"); ("sending", "sending"); ("sent", "sent");
   ("delivered", "delivered"); ("delivery_failed", "failed");
   ("delivery_unconfirmed", "sent")].

(** [statusMap[status] || status]: functions and objects are truthy, the
    empty string and [undefined] are not. *)
Definition mapStatus (status : string) : JsValue :=
  match property status statusMap with
  | Some (JsString EmptyString) | None => JsString status
  | Some v => v
  end.

(** [messages.status]: [CHECK (status IN (...))]. *)
Definition message_statuses : list string :=
  ["queued"; "sending"; "sent"; "delivered"; "failed";
   "bounced"; "complained"; "opened"; "clicked"].

Definition fieldMap : list (string * string) :=
  [("sent", "sent_count"); ("delivered", "delivered_count"); ("failed", "failed_count")].

Definition increment (field : string) (c : Campaign.row) : Campaign.row :=
  let bump name v := if String.eqb field name then v + 1 else v in
  {| Campaign.id := Campaign.id c; Campaign.tenant_id := Campaign.tenant_id c;
     Campaign.type := Campaign.type c; Campaign.status := Campaign.status c;
     Campaign.sms_content := Campaign.sms_content c;
     Campaign.target_locations := Campaign.target_locations c;
     Campaign.target_tags := Campaign.target_tags c;
     Campaign.started_at := Campaign.started_at c;
     Campaign.completed_at := Campaign.completed_at c;
     Campaign.total_recipients := Campaign.total_recipients c;
     Campaign.sent_count := bump "sent_count" (Campaign.sent_count c);
     Campaign.delivered_count := bump "delivered_count" (Campaign.delivered_count c);
     Campaign.failed_count := bump "failed_count" (Campaign.failed_count c) |}.

Definition update_campaigns (cond : Campaign.row -> bool)
    (change : Campaign.row -> Campaign.row) (w : World) : World :=
  with_campaigns w (map (fun c => if cond c then change c else c) (campaigns w)).

(** [updateCampaignStats(tenantId, campaignId, status)].  A status that is not
    a string is turned into its source text to serve as a key, which names no
    property.  The column name is pasted into the statement: a field read
    from an inherited name is not a column name, and the statement does not
    parse. *)
Definition updateCampaignStats (tenantId campaignId : uuid) (status : JsValue) : M unit :=
  let field :=
    match status with
    | JsString s => property s fieldMap
    | JsInherited _ => None
    end in
  match field with
  | None | Some (JsString EmptyString) => ret tt
  | Some (JsString field) =>
      modify (update_campaigns
                (fun c => Nat.eqb (Campaign.tenant_id c) tenantId
                          && Nat.eqb (Campaign.id c) campaignId)
                (increment field))
  | Some (JsInherited _) => throw "syntax error in UPDATE campaigns"
  end.

(** *** The parameter types of a statement

    [pool.query(text, params)] sends the text without parameter types, and
    the server deduces one type for each [$n] from the places it is used in:
    a comparison of the bare parameter with a string literal or with a
    character column gives [text], the assignment to a column gives the type
    of the column.  The uses of a statement are all analysed before it runs;
    when two of them give different types to one parameter the server
    rejects the statement (SQLSTATE 42P08) and no row is read or written. *)
Inductive SqlType := sql_text | sql_varchar.

Definition SqlType_eqb (a b : SqlType) : bool :=
  match a, b with
  | sql_text, sql_text | sql_varchar, sql_varchar => true
  | _, _ => false
  end.

Fixpoint deduce_parameter_types (uses known : list (nat * SqlType)) : outcome unit :=
  match uses with
  | [] => Returned tt
  | (n, t) :: rest =>
      match find (fun k => Nat.eqb (fst k) n) known with
      | Some (_, t') =>
          if SqlType_eqb t t' then deduce_parameter_types rest known
          else Thrown ("inconsistent types deduced for parameter $"
                         ++ string_of_Z (Z.of_nat n))
      | None => deduce_parameter_types rest ((n, t) :: known)
      end
  end.

(** The uses of the parameters in the UPDATE of [updateMessageStatus], in the
    order the server types them: the WHERE clause, the source expressions of
    the SET list, then the assignments to the columns [status VARCHAR(30)],
    [provider_status VARCHAR(50)] and [provider_error TEXT]. *)
Definition update_status_parameters : list (nat * SqlType) :=
  [(4%nat, sql_text);      (* WHERE provider_message_id = $4 *)
   (1%nat, sql_text);      (* CASE WHEN $1 = 'delivered' *)
   (1%nat, sql_varchar);   (* status = $1 *)
   (2%nat, sql_varchar);   (* provider_status = $2 *)
   (3%nat, sql_text)].     (* provider_error = $3 *)

(** The rows a [db.query] sees in a table under a row-level policy: those of
    the tenant the connection carries. *)
Definition session_sees (session : option uuid) (tenantId : uuid) : bool :=
  option_uuid_eqb session tenantId.

(** [updateMessageStatus({ telnyxMessageId, status, errorCode, errorMessage })].
    The UPDATE goes through [db.query]: the server types its parameters, then
    runs it on the rows the connection sees; a row whose new status the
    column cannot hold (the text of a function is longer than 30 characters)
    or the CHECK constraint does not admit makes the statement fail, and no
    row changes.  It returns the [id, tenant_id, campaign_id] of the first
    updated row.  The function never reads [errorCode]. *)
Definition updateMessageStatus (session : option uuid) (now : instant)
    (telnyxMessageId : option string) (status : string) (errorMessage : option string)
    : M (option (uuid * uuid * option uuid)) :=
  let mappedStatus := mapStatus status in
  let hit m :=
    session_sees session (Message.tenant_id m)
    && match telnyxMessageId with
       | Some pid => option_string_eqb (Message.provider_message_id m) pid
       | None => false
       end in
  lift (deduce_parameter_types update_status_parameters []) ;;;
  w <- get ;;
  let rows := filter hit (messages w) in
  match rows with
  | [] => ret None
  | first :: _ =>
      match mappedStatus with
      | JsInherited name =>
          if String.eqb name "__proto__" then
            throw "new row for relation messages violates check constraint messages_status_check"
          else throw "value too long for type character varying(30)"
      | JsString stored =>
          if negb (mem_string stored message_statuses) then
            throw "new row for relation messages violates check constraint messages_status_check"
          else
            modify (update_messages hit (set_status stored status errorMessage now)) ;;;
            (match Message.campaign_id first with
             | Some campaign_id =>
                 updateCampaignStats (Message.tenant_id first) campaign_id mappedStatus
             | None => ret tt
             end) ;;;
            log info "Message status updated" ;;;
            ret (Some (Message.id first, Message.tenant_id first, Message.campaign_id first))
      end
  end.

(** ** Webhook handlers ([webhooks/telnyx.js]); [payload.id] may be absent *)

Definition handleMessageSent (session : option uuid) (now : instant)
    (payload_id : option string) : M (option (uuid * uuid * option uuid)) :=
  updateMessageStatus session now payload_id "sent" None.

Definition handleMessageDelivered (session : option uuid) (now : instant)
    (payload_id : option string) : M (option (uuid * uuid * option uuid)) :=
  updateMessageStatus session now payload_id "delivered" None.

Definition handleMessageFailed (session : option uuid) (now : instant)
    (payload_id : option string) (error_title error_detail : option string)
    : M (option (uuid * uuid * option uuid)) :=
  updateMessageStatus session now payload_id "failed" (or_string error_title error_detail).

(** ** Campaign expansion (the processor of [startCampaignWorker]) *)

(** SQL [col = TRUE] and [col = FALSE] in a WHERE clause. *)
Definition is_true (b : option bool) : bool :=
  match b with Some true => true | _ => false end.

Definition is_false (b : option bool) : bool :=
  match b with Some false => true | _ => false end.

(** [c.primary_location_id = ANY($n)] *)
Definition eq_any (x : option uuid) (l : list uuid) : bool :=
  match x with Some u => mem_uuid u l | None => false end.

(** [c.tags && $n]: the arrays have an element in common. *)
Definition overlap (a : option (list string)) (b : list string) : bool :=
  match a with
  | Some tags => existsb (fun t => mem_string t b) tags
  | None => false
  end.

(** [x && x.length > 0] on an array column of the campaign. *)
Definition non_empty {A : Type} (x : option (list A)) : option (list A) :=
  match x with
  | Some (a :: l) => Some (a :: l)
  | _ => None
  end.

Definition touches_sms (t : CampaignType) : bool :=
  match t with campaign_sms | campaign_both => true | campaign_email => false end.

Definition touches_email (t : CampaignType) : bool :=
  match t with campaign_email | campaign_both => true | campaign_sms => false end.

(** The recipient query, run under the tenant's scope:
    [WHERE c.tenant_id = $1] and the clauses the targeting adds. *)
Definition recipientQuery (w : World) (tenantId : uuid) (campaign : Campaign.row)
    : list Contact.row :=
  filter (fun c =>
            Nat.eqb (Contact.tenant_id c) tenantId
            && (if touches_sms (Campaign.type campaign) then
                  is_true (Contact.sms_consent c) && is_false (Contact.sms_opted_out c)
                else true)
            && (if touches_email (Campaign.type campaign) then
                  is_true (Contact.email_consent c) && is_false (Contact.email_opted_out c)
                else true)
            && is_true (Contact.age_verified c)
            && match non_empty (Campaign.target_locations campaign) with
               | Some locs => eq_any (Contact.primary_location_id c) locs
               | None => true
               end
            && match non_empty (Campaign.target_tags campaign) with
               | Some tags => overlap (Contact.tags c) tags
               | None => true
               end)
         (contacts w).

Definition stamp_sending (total : Z) (now : instant) (c : Campaign.row) : Campaign.row :=
  {| Campaign.id := Campaign.id c; Campaign.tenant_id := Campaign.tenant_id c;
     Campaign.type := Campaign.type c; Campaign.status := "sending";
     Campaign.sms_content := Campaign.sms_content c;
     Campaign.target_locations := Campaign.target_locations c;
     Campaign.target_tags := Campaign.target_tags c;
     Campaign.started_at := Some now;
     Campaign.completed_at := Campaign.completed_at c;
     Campaign.total_recipients := total;
     Campaign.sent_count := Campaign.sent_count c;
     Campaign.delivered_count := Campaign.delivered_count c;
     Campaign.failed_count := Campaign.failed_count c |}.

Definition stamp_sent (now : instant) (c : Campaign.row) : Campaign.row :=
  {| Campaign.id := Campaign.id c; Campaign.tenant_id := Campaign.tenant_id c;
     Campaign.type := Campaign.type c; Campaign.status := "sent";
     Campaign.sms_content := Campaign.sms_content c;
     Campaign.target_locations := Campaign.target_locations c;
     Campaign.target_tags := Campaign.target_tags c;
     Campaign.started_at := Campaign.started_at c;
     Campaign.completed_at := Some now;
     Campaign.total_recipients := Campaign.total_recipients c;
     Campaign.sent_count := Campaign.sent_count c;
     Campaign.delivered_count := Campaign.delivered_count c;
     Campaign.failed_count := Campaign.failed_count c |}.

(** The processor of the campaign worker; it returns
    [{ recipients: recipients.rows.length }]. *)
Definition startCampaignWorker_processor (env : Env) (now : instant)
    (tenantId campaignId : uuid) : M Z :=
  log info "Processing campaign" ;;;
  w <- get ;;
  let own c := Nat.eqb (Campaign.tenant_id c) tenantId && Nat.eqb (Campaign.id c) campaignId in
  match find own (campaigns w) with
  | None => throw "Campaign not found"
  | Some campaign =>
      let recipients := recipientQuery w tenantId campaign in
      let total := Z.of_nat (List.length recipients) in
      log info "Campaign recipients found" ;;;
      modify (update_campaigns own (stamp_sending total now)) ;;;
      for_each recipients (fun recipient =>
        match Campaign.type campaign, truthy_string (Contact.phone recipient) with
        | campaign_sms, true =>
            queueSMSWithQuietHours env now
              {| jd_tenantId := tenantId;
                 jd_contactId := Contact.id recipient;
                 jd_locationId := Contact.primary_location_id recipient;
                 jd_content := Campaign.sms_content campaign;
                 jd_campaignId := Some campaignId |} ;;;
            ret tt
        | _, _ => ret tt
        end) ;;;
      modify (update_campaigns own (stamp_sent now)) ;;;
      ret total
  end.

(** ** Opt-out and opt-in processing ([services/compliance/index.js]) *)

(** [{ success: true, contactId }] or [{ success: false, error }]. *)
Inductive OptResult :=
| OptSuccess (contactId : option uuid)
| OptFailure (error : string).

Definition set_opted_out (channel : Channel) (now : instant) (c : Contact.row) : Contact.row :=
  {| Contact.id := Contact.id c; Contact.tenant_id := Contact.tenant_id c;
     Contact.phone := Contact.phone c;
     Contact.primary_location_id := Contact.primary_location_id c;
     Contact.sms_consent := Contact.sms_consent c;
     Contact.sms_consent_at := Contact.sms_consent_at c;
     Contact.sms_opted_out :=
       match channel with sms => Some true | email => Contact.sms_opted_out c end;
     Contact.sms_opted_out_at :=
       match channel with sms => Some now | email => Contact.sms_opted_out_at c end;
     Contact.email_consent := Contact.email_consent c;
     Contact.email_consent_at := Contact.email_consent_at c;
     Contact.email_opted_out :=
       match channel with sms => Contact.email_opted_out c | email => Some true end;
     Contact.email_opted_out_at :=
       match channel with sms => Contact.email_opted_out_at c | email => Some now end;
     Contact.age_verified := Contact.age_verified c;
     Contact.date_of_birth := Contact.date_of_birth c;
     Contact.tags := Contact.tags c;
     Contact.timezone := Contact.timezone c |}.

Definition set_opted_in (channel : Channel) (now : instant) (c : Contact.row) : Contact.row :=
  {| Contact.id := Contact.id c; Contact.tenant_id := Contact.tenant_id c;
     Contact.phone := Contact.phone c;
     Contact.primary_location_id := Contact.primary_location_id c;
     Contact.sms_consent :=
       match channel with sms => Some true | email => Contact.sms_consent c end;
     Contact.sms_consent_at :=
       match channel with sms => Some now | email => Contact.sms_consent_at c end;
     Contact.sms_opted_out :=
       match channel with sms => Some false | email => Contact.sms_opted_out c end;
     Contact.sms_opted_out_at := Contact.sms_opted_out_at c;
     Contact.email_consent :=
       match channel with sms => Contact.email_consent c | email => Some true end;
     Contact.email_consent_at :=
       match channel with sms => Contact.email_consent_at c | email => Some now end;
     Contact.email_opted_out :=
       match channel with sms => Contact.email_opted_out c | email => Some false end;
     Contact.email_opted_out_at := Contact.email_opted_out_at c;
     Contact.age_verified := Contact.age_verified c;
     Contact.date_of_birth := Contact.date_of_birth c;
     Contact.tags := Contact.tags c;
     Contact.timezone := Contact.timezone c |}.

Definition update_contacts (cond : Contact.row -> bool)
    (change : Contact.row -> Contact.row) (w : World) : World :=
  with_contacts w (map (fun c => if cond c then change c else c) (contacts w)).

(** [SELECT id FROM contacts WHERE phone = $1] under the tenant's scope. *)
Definition contacts_by_phone (w : World) (tenantId : uuid) (normalizedPhone : string)
    : list Contact.row :=
  filter (fun c => Nat.eqb (Contact.tenant_id c) tenantId
                   && option_string_eqb (Contact.phone c) normalizedPhone)
         (contacts w).

(** [INSERT INTO global_opt_outs ... ON CONFLICT (phone) DO NOTHING] *)
Definition insert_global_opt_out (phone : string) (tenantId : uuid) (now : instant)
    (w : World) : World :=
  if existsb (fun g => String.eqb (GlobalOptOut.phone g) phone) (global_opt_outs w) then w
  else with_global_opt_outs w
         (global_opt_outs w ++
          [{| GlobalOptOut.phone := phone; GlobalOptOut.opted_out_at := now;
              GlobalOptOut.source_tenant_id := Some tenantId |}]).

Definition processOptOut (now : instant) (tenantId : uuid) (phone : string)
    (channel : Channel) (method : string) (sourceMessageId : option uuid)
    : M OptResult :=
  let normalizedPhone := normalizePhone phone in
  w <- get ;;
  contactId <-
    match contacts_by_phone w tenantId normalizedPhone with
    | first :: _ =>
        modify (update_contacts
                  (fun c => Nat.eqb (Contact.tenant_id c) tenantId
                            && Nat.eqb (Contact.id c) (Contact.id first))
                  (set_opted_out channel now)) ;;;
        ret (Some (Contact.id first))
    | [] => ret None
    end ;;
  modify (fun w =>
    with_opt_out_log w
      (opt_out_log w ++
       [{| OptOutLog.tenant_id := tenantId; OptOutLog.contact_id := contactId;
           OptOutLog.channel := channel; OptOutLog.address := normalizedPhone;
           OptOutLog.action := OptOutLog.opt_out; OptOutLog.method := method;
           OptOutLog.source_message_id := sourceMessageId;
           OptOutLog.created_at := now |}])) ;;;
  match channel with
  | sms => modify (insert_global_opt_out normalizedPhone tenantId now)
  | email => ret tt
  end ;;;
  log info ("Opt-out processed: " ++ normalizedPhone ++ " from " ++ channel_name channel) ;;;
  ret (OptSuccess contactId).

Definition processOptIn (now : instant) (tenantId : uuid) (phone : string)
    (channel : Channel) (method : string) : M OptResult :=
  let normalizedPhone := normalizePhone phone in
  w <- get ;;
  match contacts_by_phone w tenantId normalizedPhone with
  | [] => ret (OptFailure "Contact not found")
  | first :: _ =>
      let contactId := Contact.id first in
      modify (update_contacts
                (fun c => Nat.eqb (Contact.tenant_id c) tenantId
                          && Nat.eqb (Contact.id c) contactId)
                (set_opted_in channel now)) ;;;
      modify (fun w =>
        with_opt_out_log w
          (opt_out_log w ++
           [{| OptOutLog.tenant_id := tenantId; OptOutLog.contact_id := Some contactId;
               OptOutLog.channel := channel; OptOutLog.address := normalizedPhone;
               OptOutLog.action := OptOutLog.opt_in; OptOutLog.method := method;
               OptOutLog.source_message_id := None;
               OptOutLog.created_at := now |}])) ;;;
      match channel with
      | sms =>
          modify (fun w =>
            with_global_opt_outs w
              (filter (fun g => negb (String.eqb (GlobalOptOut.phone g) normalizedPhone))
                      (global_opt_outs w)))
      | email => ret tt
      end ;;;
      log info ("Opt-in processed: " ++ normalizedPhone ++ " to " ++ channel_name channel) ;;;
      ret (OptSuccess (Some contactId))
  end.

(** ** Inbound keywords ([isOptOutMessage], [isOptInMessage]) *)

(** The ASCII white space [trim] removes: space, tab, line feed, vertical
    tab, form feed and carriage return.  ([trim] and [toUpperCase] also act
    on characters outside ASCII; a text that holds one is never recognised as
    a keyword by the definitions below.) *)
Definition is_space (c : ascii) : bool :=
  let n := nat_of_ascii c in
  ((n =? 32) || ((9 <=? n) && (n <=? 13)))%nat.

Fixpoint trim_start (s : string) : string :=
  match s with
  | EmptyString => EmptyString
  | String c rest => if is_space c then trim_start rest else s
  end.

Fixpoint trim_end (s : string) : string :=
  match s with
  | EmptyString => EmptyString
  | String c rest =>
      match trim_end rest with
      | EmptyString => if is_space c then EmptyString else String c EmptyString
      | kept => String c kept
      end
  end.

Definition trim (s : string) : string := trim_end (trim_start s).

Definition to_upper_char (c : ascii) : ascii :=
  let n := nat_of_ascii c in
  if ((97 <=? n) && (n <=? 122))%nat then ascii_of_nat (n - 32) else c.

Fixpoint toUpperCase (s : string) : string :=
  match s with
  | EmptyString => EmptyString
  | String c rest => String (to_upper_char c) (toUpperCase rest)
  end.

Definition isOptOutMessage (cfg : Config) (text : string) : bool :=
  let normalized := toUpperCase (trim text) in
  mem_string normalized (optOutKeywords cfg).

Definition isOptInMessage (cfg : Config) (text : string) : bool :=
  let normalized := toUpperCase (trim text) in
  mem_string normalized (optInKeywords cfg).

(** ** Inbound messages ([TelnyxService.handleInbound]) *)

Definition opt_out_confirmation_text : string :=
  "You have been unsubscribed and will no longer receive messages. Reply START to re-subscribe.".

Definition opt_in_confirmation_text : string :=
  "You have been re-subscribed to messages. Reply STOP to unsubscribe at any time.".

(** The confirmations go straight to the provider; a provider error is
    logged and swallowed. *)
Definition sendOptOutConfirmation (env : Env) (tenantId : uuid) (to from : string) : M unit :=
  try_catch
    (lift (telnyx_create env
             {| tp_to := to; tp_text := opt_out_confirmation_text;
                tp_from := Some from; tp_messaging_profile_id := None |}) ;;;
     log info "Opt-out confirmation sent")
    (fun _ => log error "Failed to send opt-out confirmation").

Definition sendOptInConfirmation (env : Env) (tenantId : uuid) (to from : string) : M unit :=
  try_catch
    (lift (telnyx_create env
             {| tp_to := to; tp_text := opt_in_confirmation_text;
                tp_from := Some from; tp_messaging_profile_id := None |}) ;;;
     log info "Opt-in confirmation sent")
    (fun _ => log error "Failed to send opt-in confirmation").

(** What [handleInbound] returns:
    [{ success: false, error }],
    [{ success: true, action: 'opt_out' | 'opt_in', messageId }] or
    [{ success: true, action: 'received', messageId, tenantId, contactId }]. *)
Inductive InboundResult :=
| InboundRejected (error : string)
| InboundKeyword (action : OptOutLog.Action) (messageId : uuid)
| InboundReceived (messageId tenantId : uuid) (contactId : option uuid).

Definition inbound_row (messageId tenantId : uuid) (contactId : option uuid)
    (locationId : uuid) (to from text : string) (telnyxMessageId : option string)
    (now : instant) : Message.row :=
  {| Message.id := messageId; Message.tenant_id := tenantId;
     Message.campaign_id := None; Message.contact_id := contactId;
     Message.location_id := Some locationId;
     Message.type := sms; Message.direction := inbound;
     Message.to_address := to; Message.from_address := Some from;
     Message.content := text;
     Message.status := "delivered";
     Message.status_updated_at := None;
     Message.provider := Some "telnyx";
     Message.provider_message_id := telnyxMessageId;
     Message.provider_status := None;
     Message.provider_error := None;
     Message.consent_verified_at := None;
     Message.quiet_hours_checked_at := None;
     Message.segments := 1;
     Message.sent_at := None;
     Message.delivered_at := None;
     Message.created_at := now |}.

(** [handleInbound({ from, to, text, telnyxMessageId })].  The location of
    the destination number is looked up through [db.query]: the policy on
    [locations] shows it the rows of the tenant the connection carries.  The
    other statements go through [db.queryWithTenant]. *)
Definition handleInbound (session : option uuid) (env : Env) (now : instant)
    (from to text : string) (telnyxMessageId : option string) : M InboundResult :=
  let normalizedFrom := normalizePhone from in
  let normalizedTo := normalizePhone to in
  log info "Inbound SMS received" ;;;
  w <- get ;;
  (* the tenant and location of the destination number *)
  match find (fun l => session_sees session (Location.tenant_id l)
                       && option_string_eqb (Location.sms_phone_number l) normalizedTo)
             (locations w) with
  | None =>
      log warn "Inbound SMS to unknown number" ;;;
      ret (InboundRejected "Unknown destination number")
  | Some l =>
      let location_id := Location.id l in
      let tenant_id := Location.tenant_id l in
      let contactId :=
        match contacts_by_phone w tenant_id normalizedFrom with
        | first :: _ => Some (Contact.id first)
        | [] => None
        end in
      messageId <- fresh_id ;;
      modify (fun w =>
        with_messages w
          (messages w ++
           [inbound_row messageId tenant_id contactId location_id
                        normalizedTo normalizedFrom text telnyxMessageId now])) ;;;
      if isOptOutMessage (config env) text then
        processOptOut now tenant_id normalizedFrom sms "keyword_reply" (Some messageId) ;;;
        sendOptOutConfirmation env tenant_id normalizedFrom normalizedTo ;;;
        ret (InboundKeyword OptOutLog.opt_out messageId)
      else if isOptInMessage (config env) text then
        processOptIn now tenant_id normalizedFrom sms "keyword_reply" ;;;
        sendOptInConfirmation env tenant_id normalizedFrom normalizedTo ;;;
        ret (InboundKeyword OptOutLog.opt_in messageId)
      else
        ret (InboundReceived messageId tenant_id contactId)
  end.

(** [handleMessageFinalized]: [payload.to?.[0]?.status || 'unknown'], then
    every final status other than 'delivered' is passed on as 'sent'. *)
Definition handleMessageFinalized (session : option uuid) (now : instant)
    (payload_id : option string) (to_status : option string) (error_title : option string)
    : M (option (uuid * uuid * option uuid)) :=
  let status :=
    match or_string to_status (Some "unknown") with
    | Some s => s
    | None => "unknown"
    end in
  updateMessageStatus session now payload_id
    (if String.eqb status "delivered" then "delivered" else "sent") error_title.

(** The rows [checkRateLimit] counts. *)
Definition recent_outbound (now : instant) (w : World) (tenantId contactId : uuid)
    (messageType : Channel) : Z :=
  Z.of_nat
    (List.length
       (filter (fun m =>
                  visible_message tenantId m
                  && option_uuid_eqb (Message.contact_id m) contactId
                  && Channel_eqb (Message.type m) messageType
                  && Direction_eqb (Message.direction m) outbound
                  && (now - HOURS_24 <? Message.created_at m))
               (messages w))).

(** The pieces of [sendMessage], named for the statements about it: the
    sender number of the job's location, the row inserted before the
    provider is called, and the request sent to the provider. *)
Definition from_number (w : World) (data : JobData) : option string :=
  match jd_locationId data with
  | Some lid =>
      match find (fun l => Nat.eqb (Location.tenant_id l) (jd_tenantId data)
                           && Nat.eqb (Location.id l) lid) (locations w) with
      | Some l => or_string (Location.sms_phone_number l) None
      | None => None
      end
  | None => None
  end.

Definition queued_row (w : World) (data : JobData) (messageId : uuid)
    (to content : string) (now : instant) : Message.row :=
  {| Message.id := messageId; Message.tenant_id := jd_tenantId data;
     Message.campaign_id := jd_campaignId data;
     Message.contact_id := Some (jd_contactId data);
     Message.location_id := jd_locationId data;
     Message.type := sms; Message.direction := outbound;
     Message.to_address := to;
     Message.from_address := from_number w data;
     Message.content := content;
     Message.status := "queued";
     Message.status_updated_at := None;
     Message.provider := Some "telnyx";
     Message.provider_message_id := None;
     Message.provider_status := None;
     Message.provider_error := None;
     Message.consent_verified_at := Some now;
     Message.quiet_hours_checked_at := Some now;
     Message.segments := 1;
     Message.sent_at := None;
     Message.delivered_at := None;
     Message.created_at := now |}.

Definition telnyx_request (env : Env) (w : World) (data : JobData)
    (to content : string) : TelnyxParams :=
  {| tp_to := to; tp_text := content;
     tp_from := from_number w data;
     tp_messaging_profile_id :=
       match from_number w data with
       | Some _ => None
       | None => messagingProfileId (config env)
       end |}.

(** [response.data.parts || 1] *)
Definition billed_segments (response : TelnyxResponse) : Z :=
  match data_parts response with
  | Some p => if p =? 0 then 1 else p
  | None => 1
  end.

(** The configured end of the quiet window has an hour and a minute that
    [parseInt] reads. *)
Definition quiet_end_parses (cfg : Config) : bool :=
  is_some (parseInt (nth_error (split_colon (quietHours_end cfg)) 0))
  && is_some (parseInt (nth_error (split_colon (quietHours_end cfg)) 1)).

(** ** The wording of the specification, for comparison with the code *)

(** The next instant strictly after [now] at which the wall clock of a zone
    [offset] milliseconds ahead of UTC shows [endMinutes] minutes past
    midnight, to the millisecond. *)
Definition next_end_boundary (offset endMinutes now : Z) : instant :=
  let l := now + offset in
  let today := l - l mod MS_PER_DAY + endMinutes * MS_PER_MINUTE in
  (if l <? today then today else today + MS_PER_DAY) - offset.

(** [evaluation] fails on quiet hours only, with [t] the instant computed for
    the retry: the decision DEFER(t) of the specification. *)
Definition defers (env : Env) (now : instant) (evaluation : ComplianceResult)
    (t : instant) : Prop :=
  exists c q,
    cr_contact evaluation = Some c /\
    checkQuietHours env now c = Returned q /\
    approved q = false /\
    retryAfter q = Some t /\
    cr_reasons evaluation = reasons q.

(** The status map in the words of the specification: queued to queued,
    sending to sending, sent to sent, delivered to delivered, delivery_failed
    to failed, delivery_unconfirmed to sent, anything else untranslated. *)
Definition internal_status (provider_status : string) : string :=
  if String.eqb provider_status "queued" then "queued"
  else if String.eqb provider_status "sending" then "sending"
  else if String.eqb provider_status "sent" then "sent"
  else if String.eqb provider_status "delivered" then "delivered"
  else if String.eqb provider_status "delivery_failed" then "failed"
  else if String.eqb provider_status "delivery_unconfirmed" then "sent"
  else provider_status.

(** The HH:MM string of a minute of the day, as the configuration writes the
    window bounds. *)
Definition hhmm (minuteOfDay : Z) : string :=
  pad2 (minuteOfDay / 60) ++ ":" ++ pad2 (minuteOfDay mod 60).

Definition two_digit_values : list Z := map Z.of_nat (seq 0 60).

(** The reasons a check contributes to the caller's list. *)
Definition failed_reasons (check : CheckResult) : list string :=
  if approved check then [] else reasons check.

(** The reasons of an SMS evaluation, check by check. *)
Definition sms_reasons (env : Env) (now : instant) (w : World)
    (tenantId contactId : uuid) (c : ContactRow) (q : CheckResult) : list string :=
  (failed_reasons (checkConsent c sms)
   ++ failed_reasons (checkOptOut c sms)
   ++ failed_reasons (checkAgeVerification env now c)
   ++ match Contact.phone (contact c) with
      | Some (String a p) => failed_reasons (checkGlobalOptOut w (String a p))
      | _ => []
      end
   ++ failed_reasons q
   ++ failed_reasons (checkRateLimit env now w tenantId contactId sms)
   ++ failed_reasons (checkStateRules (state c) sms))%list.

(** ** A concrete setting for the examples

    The zone data knows America/Los_Angeles and gives UTC-8 throughout
    (Pacific standard time); the
    contacts of the examples carry no date of birth, so the year difference
    is never consulted; the provider accepts every message. *)

Definition example_env : Env :=
  {| config := default_config;
     knownZone := fun tz => String.eqb tz "America/Los_Angeles";
     utcOffset := fun _ _ => -480;
     diff_year := fun a b => (a - b) / 31556952000;
     telnyx_create := fun _ => Returned {| data_id := "tx-1"; data_parts := Some 1 |} |}.

(** 2024-01-16T06:00:00.500Z, that is 22:00:00.500 on the 15th in the zone. *)
Definition example_night : instant := 1705384800500.

(** 2024-01-16T16:00:00.000Z, that is 08:00:00.000 on the 16th in the zone. *)
Definition example_morning : instant := 1705420800000.

Definition example_contact (consent : bool) : Contact.row :=
  {| Contact.id := 1%nat; Contact.tenant_id := 7%nat;
     Contact.phone := Some "+14155551212";
     Contact.primary_location_id := None;
     Contact.sms_consent := Some consent;
     Contact.sms_consent_at := if consent then Some 1700000000000 else None;
     Contact.sms_opted_out := Some false;
     Contact.sms_opted_out_at := None;
     Contact.email_consent := Some false;
     Contact.email_consent_at := None;
     Contact.email_opted_out := Some false;
     Contact.email_opted_out_at := None;
     Contact.age_verified := Some true;
     Contact.date_of_birth := None;
     Contact.tags := Some [];
     Contact.timezone := Some "America/Los_Angeles" |}.

Definition example_world (consent : bool) : World :=
  {| contacts := [example_contact consent];
     locations := []; campaigns := []; messages := [];
     opt_out_log := []; global_opt_outs := [];
     smsQueue := []; logger := []; next_id := 100%nat |}.

Definition example_data : JobData :=
  {| jd_tenantId := 7%nat; jd_contactId := 1%nat; jd_locationId := None;
     jd_content := Some "hi"; jd_campaignId := None |}.

Definition example_job : Job :=
  {| job_id := 42%nat; job_name := "send-sms"; job_data := example_data;
     job_opts := {| delay := 0; attempts := 3;
                    backoff_type := "exponential"; backoff_delay := 5000;
                    removeOnComplete := 1000; removeOnFail := 5000 |} |}.

(** An outbound message the carrier has reported delivered. *)
Definition example_message : Message.row :=
  {| Message.id := 50%nat; Message.tenant_id := 7%nat;
     Message.campaign_id := None; Message.contact_id := Some 1%nat;
     Message.location_id := None;
     Message.type := sms; Message.direction := outbound;
     Message.to_address := "+14155551212"; Message.from_address := None;
     Message.content := "hi";
     Message.status := "delivered";
     Message.status_updated_at := Some example_morning;
     Message.provider := Some "telnyx";
     Message.provider_message_id := Some "tx-1";
     Message.provider_status := Some "delivered";
     Message.provider_error := None;
     Message.consent_verified_at := Some (example_morning - 5000);
     Message.quiet_hours_checked_at := Some (example_morning - 5000);
     Message.segments := 1;
     Message.sent_at := Some (example_morning - 4000);
     Message.delivered_at := Some example_morning;
     Message.created_at := example_morning - 5000 |}.

Definition example_store : World :=
  with_messages (example_world true) [example_message].

Definition quiet_reason : string :=
  "Quiet hours in effect (21:00 - 08:00 America/Los_Angeles)".

(** Further settings: a provider that rejects every request, a contact with
    consent and no phone number, and a store with a location that owns the
    number +1 619 555 0100. *)
Definition failing_env : Env :=
  {| config := default_config;
     knownZone := fun tz => String.eqb tz "America/Los_Angeles";
     utcOffset := fun _ _ => -480;
     diff_year := fun a b => (a - b) / 31556952000;
     telnyx_create := fun _ => Thrown "Invalid destination number" |}.

Definition example_contact_without_phone : Contact.row :=
  {| Contact.id := 2%nat; Contact.tenant_id := 7%nat;
     Contact.phone := None;
     Contact.primary_location_id := None;
     Contact.sms_consent := Some true;
     Contact.sms_consent_at := Some 1700000000000;
     Contact.sms_opted_out := Some false;
     Contact.sms_opted_out_at := None;
     Contact.email_consent := Some true;
     Contact.email_consent_at := Some 1700000000000;
     Contact.email_opted_out := Some false;
     Contact.email_opted_out_at := None;
     Contact.age_verified := Some true;
     Contact.date_of_birth := None;
     Contact.tags := Some ["vip"];
     Contact.timezone := None |}.

Definition example_location : Location.row :=
  {| Location.id := 3%nat; Location.tenant_id := 7%nat;
     Location.state := "CA";
     Location.timezone := Some "America/Los_Angeles";
     Location.sms_phone_number := Some "+16195550100" |}.

Definition example_shop : World :=
  {| contacts := [example_contact true; example_contact_without_phone];
     locations := [example_location]; campaigns := []; messages := [];
     opt_out_log := []; global_opt_outs := [];
     smsQueue := []; logger := []; next_id := 100%nat |}.

(** A second tenant with a contact that has the phone of the first tenant's
    contact. *)
Definition example_other_tenant_contact : Contact.row :=
  {| Contact.id := 5%nat; Contact.tenant_id := 9%nat;
     Contact.phone := Some "+14155551212";
     Contact.primary_location_id := None;
     Contact.sms_consent := Some true;
     Contact.sms_consent_at := Some 1700000000000;
     Contact.sms_opted_out := Some false;
     Contact.sms_opted_out_at := None;
     Contact.email_consent := Some false;
     Contact.email_consent_at := None;
     Contact.email_opted_out := Some false;
     Contact.email_opted_out_at := None;
     Contact.age_verified := Some true;
     Contact.date_of_birth := None;
     Contact.tags := Some [];
     Contact.timezone := None |}.

Definition example_two_tenants : World :=
  with_contacts (example_world true) [example_contact true; example_other_tenant_contact].

(** A campaign of the tenant, after its expansion, and one of its messages,
    sent and not yet reported delivered. *)
Definition example_campaign : Campaign.row :=
  {| Campaign.id := 20%nat; Campaign.tenant_id := 7%nat;
     Campaign.type := campaign_sms; Campaign.status := "sent";
     Campaign.sms_content := Some "20% off today";
     Campaign.target_locations := Some [];
     Campaign.target_tags := Some ["vip"];
     Campaign.started_at := Some (example_morning - 6000);
     Campaign.completed_at := Some (example_morning - 6000);
     Campaign.total_recipients := 1;
     Campaign.sent_count := 1;
     Campaign.delivered_count := 0;
     Campaign.failed_count := 0 |}.

Definition example_campaign_message : Message.row :=
  {| Message.id := 51%nat; Message.tenant_id := 7%nat;
     Message.campaign_id := Some 20%nat; Message.contact_id := Some 1%nat;
     Message.location_id := None;
     Message.type := sms; Message.direction := outbound;
     Message.to_address := "+14155551212"; Message.from_address := None;
     Message.content := "20% off today";
     Message.status := "sent";
     Message.status_updated_at := None;
     Message.provider := Some "telnyx";
     Message.provider_message_id := Some "tx-2";
     Message.provider_status := None;
     Message.provider_error := None;
     Message.consent_verified_at := Some (example_morning - 5000);
     Message.quiet_hours_checked_at := Some (example_morning - 5000);
     Message.segments := 1;
     Message.sent_at := Some (example_morning - 4000);
     Message.delivered_at := None;
     Message.created_at := example_morning - 5000 |}.

Definition example_campaign_store : World :=
  with_campaigns (with_messages (example_world true) [example_campaign_message])
                 [example_campaign].

(** Two scheduled campaigns of the shop, of kind both and of kind sms. *)
Definition example_campaign_both : Campaign.row :=
  {| Campaign.id := 21%nat; Campaign.tenant_id := 7%nat;
     Campaign.type := campaign_both; Campaign.status := "scheduled";
     Campaign.sms_content := Some "Open late tonight";
     Campaign.target_locations := Some [];
     Campaign.target_tags := Some [];
     Campaign.started_at := None;
     Campaign.completed_at := None;
     Campaign.total_recipients := 0;
     Campaign.sent_count := 0;
     Campaign.delivered_count := 0;
     Campaign.failed_count := 0 |}.

Definition example_campaign_sms : Campaign.row :=
  {| Campaign.id := 22%nat; Campaign.tenant_id := 7%nat;
     Campaign.type := campaign_sms; Campaign.status := "scheduled";
     Campaign.sms_content := Some "Open late tonight";
     Campaign.target_locations := Some [];
     Campaign.target_tags := Some [];
     Campaign.started_at := None;
     Campaign.completed_at := None;
     Campaign.total_recipients := 0;
     Campaign.sent_count := 0;
     Campaign.delivered_count := 0;
     Campaign.failed_count := 0 |}.

Definition example_shop_with_campaigns : World :=
  with_campaigns example_shop [example_campaign_both; example_campaign_sms].

(** A contact whose zone name was dropped from the time zone data (the
    runtime of the examples does not know it), in a store where it comes
    second among the recipients of the campaign of kind sms. *)
Definition example_contact_old_zone : Contact.row :=
  {| Contact.id := 6%nat; Contact.tenant_id := 7%nat;
     Contact.phone := Some "+14155550006";
     Contact.primary_location_id := None;
     Contact.sms_consent := Some true;
     Contact.sms_consent_at := Some 1700000000000;
     Contact.sms_opted_out := Some false;
     Contact.sms_opted_out_at := None;
     Contact.email_consent := Some false;
     Contact.email_consent_at := None;
     Contact.email_opted_out := Some false;
     Contact.email_opted_out_at := None;
     Contact.age_verified := Some true;
     Contact.date_of_birth := None;
     Contact.tags := Some [];
     Contact.timezone := Some "US/Pacific-New" |}.

Definition example_old_zone_shop : World :=
  with_contacts example_shop_with_campaigns
    [example_contact true; example_contact_old_zone; example_contact_without_phone].

Definition example_old_zone_job : Job :=
  {| job_id := 43%nat; job_name := "send-sms";
     job_data := {| jd_tenantId := 7%nat; jd_contactId := 6%nat; jd_locationId := None;
                    jd_content := Some "hi"; jd_campaignId := None |};
     job_opts := {| delay := 0; attempts := 3;
                    backoff_type := "exponential"; backoff_delay := 5000;
                    removeOnComplete := 1000; removeOnFail := 5000 |} |}.

(** ** Theorems *)

(** *** Decision aggregation at enqueue time *)

(** A failed quiet-hours check carries exactly one reason. *)
Lemma checkQuietHours_failed_reason env now c q :
  checkQuietHours env now c = Returned q ->
  approved q = false ->
  exists r, reasons q = [r].
Proof.
  unfold checkQuietHours. intros H Hq.
  destruct (knownZone env _); cbn [negb] in H; [|discriminate].
  destruct (inQuietHours _ _ _).
  - destruct (getQuietHoursEnd _ _ _); [|discriminate].
    injection H as <-. eexists; reflexivity.
  - injection H as <-. discriminate.
Qed.

(** The quiet-hours check returns for the zones the runtime knows only. *)
Lemma checkQuietHours_known_zone env now c q :
  checkQuietHours env now c = Returned q ->
  knownZone env (resolve_timezone c) = true.
Proof.
  unfold checkQuietHours. intros H.
  destruct (knownZone env _); [reflexivity | discriminate].
Qed.

Lemma checkQuietHours_unknown_zone env now c :
  knownZone env (resolve_timezone c) = false ->
  checkQuietHours env now c = Thrown (invalid_time_zone (resolve_timezone c)).
Proof. unfold checkQuietHours. intros ->. reflexivity. Qed.

Lemma push_reasons_app acc check :
  push_reasons acc check = (acc ++ failed_reasons check)%list.
Proof.
  unfold push_reasons, failed_reasons.
  destruct (approved check); cbn [negb]; [now rewrite app_nil_r | reflexivity].
Qed.

(** Whenever the quiet-hours check fails, whatever the other checks say, the
    evaluation is not approved and its [checks] record shows the failure. *)
Lemma checkMessage_quiet_hours_failed env now w tenantId contactId evaluation c q :
  checkMessage env now w tenantId contactId sms = Returned evaluation ->
  cr_contact evaluation = Some c ->
  checkQuietHours env now c = Returned q ->
  approved q = false ->
  cr_approved evaluation = false /\
  exists checks, cr_checks evaluation = Some checks /\ quietHours checks = false.
Proof.
  intros H Hc Hq Ha. unfold checkMessage in H.
  destruct (select_contact w tenantId contactId) as [c0|];
    [|injection H as <-; discriminate].
  cbn [obind] in H.
  destruct (checkQuietHours env now c0) as [q0|] eqn:Hq0; [|discriminate].
  cbn [obind] in H. injection H as <-.
  cbn [cr_contact] in Hc. injection Hc as ->.
  rewrite Hq in Hq0. injection Hq0 as <-.
  cbn [cr_approved cr_checks cr_reasons]. split.
  - rewrite !push_reasons_app.
    destruct (checkQuietHours_failed_reason _ _ _ _ Hq Ha) as [r Hr].
    assert (Hf : failed_reasons q = [r]) by (unfold failed_reasons; now rewrite Ha).
    rewrite Hf, !length_app. cbn [List.length]. apply Nat.eqb_neq. lia.
  - eexists. split; [reflexivity|]. exact Ha.
Qed.

(** The deferral of [queueSMSWithQuietHours] does not look at the other
    checks: a failing quiet-hours check with a retry instant always enqueues
    the job with the delay until that instant. *)
Lemma queueSMSWithQuietHours_quiet_hours_wins env now data w evaluation c q t :
  checkMessage env now w (jd_tenantId data) (jd_contactId data) sms = Returned evaluation ->
  cr_contact evaluation = Some c ->
  checkQuietHours env now c = Returned q ->
  approved q = false ->
  retryAfter q = Some t ->
  exists job w',
    queueSMSWithQuietHours env now data w = (Returned (Queued job), w') /\
    job_data job = data /\
    delay (job_opts job) = t - now /\
    smsQueue w' = (smsQueue w ++ [job])%list.
Proof.
  intros H Hc Hq Ha Ht.
  destruct (checkMessage_quiet_hours_failed _ _ _ _ _ _ _ _ H Hc Hq Ha)
    as (Hn & checks & Hk & Hf).
  unfold queueSMSWithQuietHours, bind, get, lift.
  rewrite H, Hn, Hk, Hf, Hc. cbn [negb]. rewrite Hq, Ht.
  do 2 eexists. split; [reflexivity|]. repeat split.
Qed.

(** For a contact that does not exist, the evaluation carries no [checks]
    record, and reading [checks.quietHours] throws before anything is
    returned. *)
Lemma queueSMSWithQuietHours_unknown_contact env now data w :
  select_contact w (jd_tenantId data) (jd_contactId data) = None ->
  queueSMSWithQuietHours env now data w
  = (Thrown "TypeError: Cannot read properties of undefined (reading 'quietHours')", w).
Proof.
  intros Hnone. unfold queueSMSWithQuietHours, bind, get, lift, checkMessage.
  rewrite Hnone. reflexivity.
Qed.

(** C1: a contact without SMS consent, evaluated at 22:00 in the zone, fails
    the consent check and the quiet-hours check; [queueSMSWithQuietHours]
    nevertheless enqueues a delayed job instead of returning the blocked
    result. *)
Theorem queueSMSWithQuietHours_defers_without_consent :
  exists evaluation job w',
    checkMessage example_env example_night (example_world false) 7%nat 1%nat sms
      = Returned evaluation /\
    cr_reasons evaluation = ["No SMS consent on file"; quiet_reason] /\
    queueSMSWithQuietHours example_env example_night example_data (example_world false)
      = (Returned (Queued job), w') /\
    delay (job_opts job) = 36000000 /\
    smsQueue w' = [job].
Proof.
  do 3 eexists. repeat split; vm_compute; reflexivity.
Qed.

(** *** The second evaluation, at dispatch time *)

Lemma checkMessage_with_logger env now w l tenantId contactId messageType :
  checkMessage env now (with_logger w l) tenantId contactId messageType
  = checkMessage env now w tenantId contactId messageType.
Proof. reflexivity. Qed.

Lemma with_logger_twice w l1 l2 :
  with_logger (with_logger w l1) l2 = with_logger w l2.
Proof. reflexivity. Qed.

(** [approved: reasons.length === 0] *)
Lemma checkMessage_approved env now w tenantId contactId messageType evaluation :
  checkMessage env now w tenantId contactId messageType = Returned evaluation ->
  cr_approved evaluation = (List.length (cr_reasons evaluation) =? 0)%nat.
Proof.
  unfold checkMessage. intros H.
  destruct (select_contact w tenantId contactId) as [c|].
  - unfold obind in H.
    destruct messageType.
    + destruct (checkQuietHours env now c) as [q|]; [|discriminate].
      injection H as <-. reflexivity.
    + injection H as <-. reflexivity.
  - injection H as <-. reflexivity.
Qed.

Lemma defers_not_approved env now w tenantId contactId evaluation t :
  checkMessage env now w tenantId contactId sms = Returned evaluation ->
  defers env now evaluation t ->
  cr_approved evaluation = false.
Proof.
  intros H (c & q & _ & Hq & Ha & _ & Hr).
  rewrite (checkMessage_approved _ _ _ _ _ _ _ H), Hr.
  destruct (checkQuietHours_failed_reason _ _ _ _ Hq Ha) as [r ->].
  reflexivity.
Qed.

(** C2, as the code has it: when the evaluation at dispatch time fails on
    quiet hours only, the worker returns the blocked result with the
    quiet-hours reason; the job completes (nothing is thrown, so the queue
    does not retry it), nothing is enqueued, no [messages] row is written and
    the provider is not called: only three log lines are added. *)
Theorem worker_finalizes_deferral_as_blocked env now job w evaluation t :
  checkMessage env now w (jd_tenantId (job_data job)) (jd_contactId (job_data job)) sms
    = Returned evaluation ->
  defers env now evaluation t ->
  startSMSWorker_processor env now job w
  = (Returned (SendBlocked (cr_reasons evaluation)),
     with_logger w
       (logger w ++ [(info, "Processing SMS job");
                     (warn, "Message blocked by compliance");
                     (warn, "SMS blocked by compliance")])).
Proof.
  intros H D.
  pose proof (defers_not_approved _ _ _ _ _ _ _ H D) as Hn.
  unfold startSMSWorker_processor, sendMessage, bind, log, modify, get, lift, ret.
  rewrite checkMessage_with_logger, H, Hn. cbn [negb].
  rewrite !with_logger_twice. cbn [logger with_logger].
  rewrite <- !app_assoc. reflexivity.
Qed.

Lemma worker_finalizes_deferral_as_blocked_witness :
  exists evaluation t,
    checkMessage example_env example_night (example_world true) 7%nat 1%nat sms
      = Returned evaluation /\
    defers example_env example_night evaluation t /\
    startSMSWorker_processor example_env example_night example_job (example_world true)
    = (Returned (SendBlocked (cr_reasons evaluation)),
       with_logger (example_world true)
         [(info, "Processing SMS job");
          (warn, "Message blocked by compliance");
          (warn, "SMS blocked by compliance")]).
Proof.
  assert (H : exists evaluation,
             checkMessage example_env example_night (example_world true) 7%nat 1%nat sms
             = Returned evaluation /\
             defers example_env example_night evaluation 1705420800500).
  { eexists. split; [vm_compute; reflexivity|].
    unfold defers. do 2 eexists. repeat split; vm_compute; reflexivity. }
  destruct H as (evaluation & H & D).
  exists evaluation, 1705420800500. repeat split; [exact H | exact D |].
  exact (worker_finalizes_deferral_as_blocked
           example_env example_night example_job (example_world true) evaluation _ H D).
Defined.

(** C2 as stated fails: the evaluation at dispatch time fails on quiet hours
    only, a retry instant is computed, and the worker returns the blocked
    result and leaves the queue empty. *)
Lemma worker_reenqueue_counterexample :
  exists evaluation,
    checkMessage example_env example_night (example_world true) 7%nat 1%nat sms
      = Returned evaluation /\
    defers example_env example_night evaluation 1705420800500 /\
    fst (startSMSWorker_processor example_env example_night example_job (example_world true))
      = Returned (SendBlocked [quiet_reason]) /\
    smsQueue (snd (startSMSWorker_processor example_env example_night example_job
                     (example_world true))) = [].
Proof.
  eexists. split; [vm_compute; reflexivity|]. split.
  - unfold defers. do 2 eexists. repeat split; vm_compute; reflexivity.
  - split; vm_compute; reflexivity.
Qed.

(** *** Status reconciliation *)

(** The status map of the code is the map of the specification on every
    status that is not a name inherited from [Object.prototype]. *)
Lemma mapStatus_internal_status status :
  mem_string status inherited_names = false ->
  mapStatus status = JsString (internal_status status).
Proof.
  intros H. unfold mapStatus, property, internal_status, statusMap, assoc.
  repeat match goal with
         | |- context [String.eqb status ?k] => destruct (String.eqb status k)
         end; try reflexivity.
  rewrite H. reflexivity.
Qed.

(** On an inherited name the map gives what the name reads as, not the
    status string. *)
Lemma mapStatus_inherited_name status :
  mem_string status inherited_names = true ->
  mapStatus status = JsInherited status.
Proof.
  intros H. unfold mem_string in H. apply existsb_exists in H.
  destruct H as (name & Hin & Heq). apply String.eqb_eq in Heq. subst name.
  repeat (destruct Hin as [<- | Hin]; [reflexivity|]). destruct Hin.
Qed.

(** C3: a 'sent' webhook that arrives for a row already 'delivered' leaves the
    row as it is, and so does every other status update for its provider id.
    No guard on the current status brings this about: the UPDATE of
    [updateMessageStatus] is rejected when its parameters are typed, on every
    call, and nothing is written. *)
Theorem delivered_row_not_regressed session now pid w i m :
  nth_error (messages w) i = Some m ->
  Message.provider_message_id m = Some pid ->
  Message.status m = "delivered" ->
  (forall r w', handleMessageSent session now (Some pid) w = (r, w') ->
                nth_error (messages w') i = Some m) /\
  (forall status errorMessage r w',
     updateMessageStatus session now (Some pid) status errorMessage w = (r, w') ->
     nth_error (messages w') i = Some m).
Proof.
  intros Hi _ _. split.
  - intros r w' Hrun. unfold handleMessageSent, updateMessageStatus, bind, lift in Hrun.
    cbn in Hrun. injection Hrun as _ <-. exact Hi.
  - intros status errorMessage r w' Hrun.
    unfold updateMessageStatus, bind, lift in Hrun.
    cbn in Hrun. injection Hrun as _ <-. exact Hi.
Qed.

Lemma delivered_row_not_regressed_witness :
  nth_error
    (messages (snd (handleMessageSent (Some 7%nat) (example_morning + 1000) (Some "tx-1")
                                      example_store))) 0
  = Some example_message.
Proof.
  apply (proj1 (delivered_row_not_regressed (Some 7%nat) (example_morning + 1000) "tx-1"
                  example_store 0%nat example_message eq_refl eq_refl eq_refl)
               (fst (handleMessageSent (Some 7%nat) (example_morning + 1000) (Some "tx-1")
                                       example_store))).
  apply surjective_pairing.
Defined.

(** C6: the provider status 'delivered' arrives for a stored message that is
    'sent'.  The map gives 'delivered', as claimed, but nothing is stored: the
    server rejects the UPDATE, whose first parameter is typed [text] by the
    comparison with 'delivered' and [character varying] by the assignment to
    [status]; the row stays 'sent' with no [delivered_at], whatever tenant
    the connection carries. *)
Theorem updateMessageStatus_stores_nothing :
  nth_error (messages example_campaign_store) 0 = Some example_campaign_message /\
  Message.provider_message_id example_campaign_message = Some "tx-2" /\
  Message.status example_campaign_message = "sent" /\
  Message.delivered_at example_campaign_message = None /\
  mapStatus "delivered" = JsString (internal_status "delivered") /\
  internal_status "delivered" = "delivered" /\
  forall session,
    updateMessageStatus session example_morning (Some "tx-2") "delivered" None
                        example_campaign_store
    = (Thrown "inconsistent types deduced for parameter $1", example_campaign_store).
Proof.
  repeat split.
Qed.

(** *** The consent check inside the full evaluation *)

(** C4, as the code has it: for a contact with neither the consent flag nor
    the consent timestamp, the consent check returns at the missing flag and
    contributes that one reason; the six other checks still run, and the
    caller's list is that reason followed by the reasons of every other
    failing check, in the order of the checks. *)
Theorem checkMessage_consent_single_reason env now w tenantId contactId c q :
  select_contact w tenantId contactId = Some c ->
  Contact.sms_consent (contact c) = Some false ->
  Contact.sms_consent_at (contact c) = None ->
  checkQuietHours env now c = Returned q ->
  checkConsent c sms = check_failed "No SMS consent on file" /\
  exists evaluation,
    checkMessage env now w tenantId contactId sms = Returned evaluation /\
    cr_approved evaluation = false /\
    cr_reasons evaluation =
      (["No SMS consent on file"]
       ++ failed_reasons (checkOptOut c sms)
       ++ failed_reasons (checkAgeVerification env now c)
       ++ match Contact.phone (contact c) with
          | Some (String a p) => failed_reasons (checkGlobalOptOut w (String a p))
          | _ => []
          end
       ++ failed_reasons q
       ++ failed_reasons (checkRateLimit env now w tenantId contactId sms)
       ++ failed_reasons (checkStateRules (state c) sms))%list.
Proof.
  intros Hc Hflag _ Hq.
  assert (Hconsent : checkConsent c sms = check_failed "No SMS consent on file").
  { unfold checkConsent. now rewrite Hflag. }
  split; [exact Hconsent|].
  unfold checkMessage. rewrite Hc, Hq, Hconsent. cbn [obind].
  eexists. split; [reflexivity|].
  cbn [cr_approved cr_reasons].
  assert (Hphone :
            match Contact.phone (contact c) with
            | Some (String a p) =>
                push_reasons
                  (push_reasons
                     (push_reasons (push_reasons [] (check_failed "No SMS consent on file"))
                        (checkOptOut c sms)) (checkAgeVerification env now c))
                  (checkGlobalOptOut w (String a p))
            | _ =>
                push_reasons
                  (push_reasons (push_reasons [] (check_failed "No SMS consent on file"))
                     (checkOptOut c sms)) (checkAgeVerification env now c)
            end
            = (["No SMS consent on file"]
               ++ failed_reasons (checkOptOut c sms)
               ++ failed_reasons (checkAgeVerification env now c)
               ++ match Contact.phone (contact c) with
                  | Some (String a p) => failed_reasons (checkGlobalOptOut w (String a p))
                  | _ => []
                  end)%list).
  { destruct (Contact.phone (contact c)) as [[|a p]|];
      rewrite ?push_reasons_app; cbn [failed_reasons approved reasons check_failed app];
      rewrite <- ?app_assoc, ?app_nil_r; reflexivity. }
  rewrite !(push_reasons_app _ (checkStateRules _ _)),
          !(push_reasons_app _ (checkRateLimit _ _ _ _ _ _)),
          !(push_reasons_app _ q).
  rewrite Hphone. cbn [app List.length Nat.eqb].
  split; [reflexivity|]. rewrite <- !app_assoc. reflexivity.
Qed.

Lemma checkMessage_consent_single_reason_witness :
  exists c q,
    select_contact (example_world false) 7%nat 1%nat = Some c /\
    Contact.sms_consent (contact c) = Some false /\
    Contact.sms_consent_at (contact c) = None /\
    checkQuietHours example_env example_night c = Returned q /\
    checkConsent c sms = check_failed "No SMS consent on file" /\
    exists evaluation,
      checkMessage example_env example_night (example_world false) 7%nat 1%nat sms
        = Returned evaluation /\
      cr_approved evaluation = false /\
      cr_reasons evaluation = ["No SMS consent on file"; quiet_reason].
Proof.
  exists {| contact := example_contact false; state := None; location_timezone := None |}.
  eexists.
  assert (Hq : checkQuietHours example_env example_night
                 {| contact := example_contact false; state := None;
                    location_timezone := None |}
               = Returned {| approved := false; reasons := [quiet_reason];
                             retryAfter := Some 1705420800500 |})
    by (vm_compute; reflexivity).
  split; [reflexivity|]. split; [reflexivity|]. split; [reflexivity|].
  split; [exact Hq|].
  destruct (checkMessage_consent_single_reason
              example_env example_night (example_world false) 7%nat 1%nat
              _ _ eq_refl eq_refl eq_refl Hq)
    as (Hconsent & evaluation & Hrun & Happroved & Hreasons).
  split; [exact Hconsent|].
  exists evaluation. repeat split; [exact Hrun | exact Happroved |].
  rewrite Hreasons. vm_compute. reflexivity.
Defined.

(** C4 as stated fails: the contact has neither the flag nor the timestamp;
    the consent check gives one reason, and the caller's list, at 08:00 in
    the zone, holds that reason alone. *)
Lemma consent_reasons_counterexample :
  Contact.sms_consent (example_contact false) = Some false /\
  Contact.sms_consent_at (example_contact false) = None /\
  exists c evaluation,
    select_contact (example_world false) 7%nat 1%nat = Some c /\
    reasons (checkConsent c sms) = ["No SMS consent on file"] /\
    checkMessage example_env example_morning (example_world false) 7%nat 1%nat sms
      = Returned evaluation /\
    cr_reasons evaluation = ["No SMS consent on file"].
Proof.
  split; [reflexivity|]. split; [reflexivity|].
  do 2 eexists. repeat split; vm_compute; reflexivity.
Qed.

(** *** Quiet hours *)

(** The comparison instant of the specification is what its words say: it is
    after [now], the wall clock shows the end of the window there, and no
    earlier instant after [now] does. *)
Lemma next_end_boundary_least offset endMinutes now :
  0 <= endMinutes < 1440 ->
  let t := next_end_boundary offset endMinutes now in
  now < t /\
  (t + offset) mod MS_PER_DAY = endMinutes * MS_PER_MINUTE /\
  forall t', now < t' ->
             (t' + offset) mod MS_PER_DAY = endMinutes * MS_PER_MINUTE ->
             t <= t'.
Proof.
  intros He. unfold next_end_boundary, MS_PER_DAY, MS_PER_MINUTE.
  set (l := now + offset).
  pose proof (Z.mod_pos_bound l 86400000 ltac:(lia)) as Hm.
  pose proof (Z.div_mod l 86400000 ltac:(lia)) as Hd.
  set (r := l mod 86400000) in *. set (d := l / 86400000) in *.
  assert (Hl : l - r = 86400000 * d) by lia.
  cbv zeta.
  destruct (Z.ltb_spec l (l - r + endMinutes * 60000)) as [Hlt|Hge].
  - split; [lia|]. split.
    + replace (l - r + endMinutes * 60000 - offset + offset)
        with (endMinutes * 60000 + d * 86400000) by lia.
      rewrite Z.mod_add by lia. apply Z.mod_small. lia.
    + intros t' Ht' Hmod.
      pose proof (Z.div_mod (t' + offset) 86400000 ltac:(lia)) as Hd'.
      rewrite Hmod in Hd'.
      assert (d <= (t' + offset) / 86400000) by nia.
      nia.
  - split; [lia|]. split.
    + replace (l - r + endMinutes * 60000 + 86400000 - offset + offset)
        with (endMinutes * 60000 + (d + 1) * 86400000) by lia.
      rewrite Z.mod_add by lia. apply Z.mod_small. lia.
    + intros t' Ht' Hmod.
      pose proof (Z.div_mod (t' + offset) 86400000 ltac:(lia)) as Hd'.
      rewrite Hmod in Hd'.
      assert (d + 1 <= (t' + offset) / 86400000) by nia.
      nia.
Qed.

(** On HH:MM strings the order of JavaScript strings is the order of the
    times of day (checked on all pairs of minutes of a day). *)
Lemma compare_append_same_length x1 x2 s1 s2 :
  String.length x1 = String.length x2 ->
  String.compare (x1 ++ s1) (x2 ++ s2)
  = match String.compare x1 x2 with
    | Eq => String.compare s1 s2
    | c => c
    end.
Proof.
  revert x2. induction x1 as [|c1 x1 IH]; intros [|c2 x2] Hlen; try discriminate.
  - reflexivity.
  - cbn. destruct (Ascii.compare c1 c2); try reflexivity.
    apply IH. now injection Hlen.
Qed.

(** [pad2] on the values of an hour or minute field: two characters, ordered
    as the numbers are (checked on all pairs). *)
Lemma pad2_table :
  let table := map (fun a => (a, pad2 a)) two_digit_values in
  forallb (fun p =>
             (String.length (snd p) =? 2)%nat
             && forallb (fun q =>
                           match String.compare (snd p) (snd q), fst p ?= fst q with
                           | Eq, Eq | Lt, Lt | Gt, Gt => true
                           | _, _ => false
                           end) table)
          table = true.
Proof. vm_compute. reflexivity. Qed.

Lemma pad2_facts a b :
  0 <= a < 60 -> 0 <= b < 60 ->
  String.length (pad2 a) = 2%nat /\ String.compare (pad2 a) (pad2 b) = (a ?= b).
Proof.
  intros Ha Hb.
  assert (In_table : forall x, 0 <= x < 60 ->
                               In (x, pad2 x) (map (fun a => (a, pad2 a)) two_digit_values)).
  { intros x Hx. apply in_map_iff. exists x. split; [reflexivity|].
    unfold two_digit_values. apply in_map_iff.
    exists (Z.to_nat x). split; [lia|]. apply in_seq. lia. }
  pose proof pad2_table as T. cbv zeta in T.
  rewrite forallb_forall in T. specialize (T _ (In_table a Ha)).
  apply andb_true_iff in T. destruct T as [Tl Tc].
  split; [now apply Nat.eqb_eq in Tl|].
  rewrite forallb_forall in Tc. specialize (Tc _ (In_table b Hb)).
  cbn [fst snd] in Tc.
  destruct (String.compare (pad2 a) (pad2 b)), (a ?= b); congruence.
Qed.

Lemma hhmm_compare a b :
  0 <= a < 1440 -> 0 <= b < 1440 -> String.compare (hhmm a) (hhmm b) = (a ?= b).
Proof.
  intros Ha Hb. unfold hhmm.
  assert (Hqa : 0 <= a / 60 < 60) by (Z.div_mod_to_equations; lia).
  assert (Hqb : 0 <= b / 60 < 60) by (Z.div_mod_to_equations; lia).
  assert (Hra : 0 <= a mod 60 < 60) by (Z.div_mod_to_equations; lia).
  assert (Hrb : 0 <= b mod 60 < 60) by (Z.div_mod_to_equations; lia).
  destruct (pad2_facts _ _ Hqa Hqb) as [La Cq].
  destruct (pad2_facts _ _ Hqb Hqa) as [Lb _].
  destruct (pad2_facts _ _ Hra Hrb) as [_ Cr].
  rewrite compare_append_same_length by congruence.
  rewrite Cq. cbn [String.append String.compare Ascii.compare].
  change (Ascii.compare ":"%char ":"%char) with Eq. cbv iota. rewrite Cr.
  destruct (Z.compare_spec (a / 60) (b / 60)) as [E|E|E];
    [destruct (Z.compare_spec (a mod 60) (b mod 60)) as [F|F|F] | |];
    symmetry;
    [apply Z.compare_eq_iff | apply Z.compare_lt_iff | apply Z.compare_gt_iff
     | apply Z.compare_lt_iff | apply Z.compare_gt_iff];
    Z.div_mod_to_equations; lia.
Qed.

Lemma hhmm_lt a b :
  0 <= a < 1440 -> 0 <= b < 1440 -> str_lt (hhmm a) (hhmm b) = (a <? b).
Proof.
  intros Ha Hb. unfold str_lt, String.ltb, Z.ltb.
  now rewrite hhmm_compare.
Qed.

Lemma format_HHmm_hhmm l :
  format_HHmm l = hhmm (l mod MS_PER_DAY / MS_PER_MINUTE).
Proof.
  unfold format_HHmm, hhmm, local_hour, local_minute.
  replace (l mod MS_PER_DAY / MS_PER_MINUTE / 60) with (l mod MS_PER_DAY / MS_PER_HOUR).
  2:{ unfold MS_PER_DAY, MS_PER_MINUTE, MS_PER_HOUR. Z.div_mod_to_equations. lia. }
  replace ((l mod MS_PER_DAY / MS_PER_MINUTE) mod 60) with (l mod MS_PER_HOUR / MS_PER_MINUTE).
  2:{ unfold MS_PER_DAY, MS_PER_MINUTE, MS_PER_HOUR. Z.div_mod_to_equations. lia. }
  reflexivity.
Qed.

(** The in-window test on the wall clock: with bounds written HH:MM, a local
    time is inside quiet hours by the wrap rule when the start is after the
    end, and by the plain interval rule otherwise. *)
Lemma inQuietHours_wall_clock start finish l :
  0 <= start < 1440 -> 0 <= finish < 1440 ->
  let current := l mod MS_PER_DAY / MS_PER_MINUTE in
  inQuietHours (hhmm start) (hhmm finish) (format_HHmm l)
  = if finish <? start then (start <=? current) || (current <? finish)
    else (start <=? current) && (current <? finish).
Proof.
  intros Hs Hf current.
  assert (Hc : 0 <= current < 1440).
  { unfold current, MS_PER_DAY, MS_PER_MINUTE. Z.div_mod_to_equations. lia. }
  unfold inQuietHours, str_gt, str_ge.
  rewrite format_HHmm_hhmm. fold current.
  change (String.ltb (hhmm finish) (hhmm start)) with (str_lt (hhmm finish) (hhmm start)).
  change (String.ltb (hhmm current) (hhmm start)) with (str_lt (hhmm current) (hhmm start)).
  rewrite !hhmm_lt by assumption.
  replace (negb (current <? start)) with (start <=? current) by lia.
  reflexivity.
Qed.

(** The three setters leave the day and the milliseconds of the local time
    as they were. *)
Lemma set_fields_value l h m :
  set_second (set_minute (set_hour l h) m) 0
  = l - l mod MS_PER_DAY + h * MS_PER_HOUR + m * MS_PER_MINUTE + l mod MS_PER_SECOND.
Proof.
  unfold set_second, set_minute, set_hour, local_second, local_minute, local_hour,
    MS_PER_DAY, MS_PER_HOUR, MS_PER_MINUTE, MS_PER_SECOND.
  Z.div_mod_to_equations. lia.
Qed.

(** Whenever the wall clock does not show the hour and minute of the window
    end (as is the case inside the window), [getQuietHoursEnd] returns, for
    a zone the runtime knows, the next end boundary plus the milliseconds of
    the clock. *)
Lemma getQuietHoursEnd_general env now tz h m :
  knownZone env tz = true ->
  parseInt (nth_error (split_colon (quietHours_end (config env))) 0) = Some h ->
  parseInt (nth_error (split_colon (quietHours_end (config env))) 1) = Some m ->
  0 <= h < 24 -> 0 <= m < 60 ->
  (local_hour (now + utcOffset env tz now * MS_PER_MINUTE) <> h
   \/ local_minute (now + utcOffset env tz now * MS_PER_MINUTE) <> m) ->
  getQuietHoursEnd env now tz
  = Returned (next_end_boundary (utcOffset env tz now * MS_PER_MINUTE) (h * 60 + m) now
              + (now + utcOffset env tz now * MS_PER_MINUTE) mod MS_PER_SECOND).
Proof.
  intros Hz Hh Hm Rh Rm Hne.
  unfold getQuietHoursEnd. rewrite Hz, Hh, Hm. cbn [negb]. f_equal.
  rewrite set_fields_value.
  unfold next_end_boundary.
  set (offset := utcOffset env tz now * MS_PER_MINUTE) in *.
  set (l := now + offset) in *.
  unfold local_hour, local_minute, MS_PER_DAY, MS_PER_HOUR, MS_PER_MINUTE, MS_PER_SECOND in *.
  assert (Hl : now = l - offset) by (unfold l; lia).
  destruct (Z.ltb_spec
              (l - l mod 86400000 + h * 3600000 + m * 60000 + l mod 1000 - offset) now);
    destruct (Z.ltb_spec l (l - l mod 86400000 + (h * 60 + m) * 60000));
    try lia;
    exfalso; Z.div_mod_to_equations; lia.
Qed.

(** C5: at 22:00:00.500 in a zone eight hours behind UTC, with the window
    21:00 to 08:00, the check is inside quiet hours, and the instant attached
    for the retry is 08:00:00.500 of the next morning, half a second after
    the end boundary: [getQuietHoursEnd] sets the seconds to zero and keeps
    the milliseconds of the clock. *)
Theorem getQuietHoursEnd_keeps_milliseconds :
  exists c q,
    select_contact (example_world true) 7%nat 1%nat = Some c /\
    format_HHmm (example_night + utcOffset example_env (resolve_timezone c) example_night
                                 * MS_PER_MINUTE) = "22:00" /\
    checkQuietHours example_env example_night c = Returned q /\
    approved q = false /\
    retryAfter q = Some (example_morning + 500) /\
    next_end_boundary (-480 * MS_PER_MINUTE) (8 * 60) example_night = example_morning.
Proof.
  do 2 eexists. repeat split; vm_compute; reflexivity.
Qed.

(** *** Campaign expansion *)

Lemma is_true_iff b : is_true b = true <-> b = Some true.
Proof. destruct b as [[|]|]; cbn; split; congruence. Qed.

Lemma is_false_iff b : is_false b = true <-> b = Some false.
Proof. destruct b as [[|]|]; cbn; split; congruence. Qed.

Lemma mem_uuid_In u l : mem_uuid u l = true <-> In u l.
Proof.
  unfold mem_uuid. rewrite existsb_exists. split.
  - intros (x & Hin & Heq). apply Nat.eqb_eq in Heq. now subst.
  - intros Hin. exists u. split; [assumption | apply Nat.eqb_refl].
Qed.

Lemma mem_string_In s l : mem_string s l = true <-> In s l.
Proof.
  unfold mem_string. rewrite existsb_exists. split.
  - intros (x & Hin & Heq). apply String.eqb_eq in Heq. now subst.
  - intros Hin. exists s. split; [assumption | apply String.eqb_refl].
Qed.

Lemma eq_any_iff x l :
  eq_any x l = true <-> exists u, x = Some u /\ In u l.
Proof.
  destruct x as [u|]; cbn.
  - rewrite mem_uuid_In. split.
    + intros H. now exists u.
    + intros (v & [= ->] & H). exact H.
  - split; [discriminate | intros (v & [=] & _)].
Qed.

Lemma overlap_iff a b :
  overlap a b = true <-> exists t ts, a = Some ts /\ In t ts /\ In t b.
Proof.
  destruct a as [ts|]; cbn.
  - rewrite existsb_exists. split.
    + intros (t & Hin & Hm). apply mem_string_In in Hm. now exists t, ts.
    + intros (t & ts' & [= <-] & Hin & Hb). exists t. split; [assumption|].
      now apply mem_string_In.
  - split; [discriminate | intros (t & ts & [=] & _)].
Qed.

Lemma non_empty_iff {A : Type} (x : option (list A)) l :
  non_empty x = Some l <-> x = Some l /\ l <> [].
Proof.
  destruct x as [[|a r]|]; cbn; split; try discriminate.
  - intros [[= <-] H]. congruence.
  - intros [= <-]. split; [reflexivity | discriminate].
  - intros [[= <-] _]. reflexivity.
  - intros [[=] _].
Qed.

Lemma non_empty_none {A : Type} (x : option (list A)) :
  non_empty x = None -> forall l, x = Some l -> l = [].
Proof.
  destruct x as [[|a r]|]; cbn; intros H l E; try discriminate; congruence.
Qed.

(** C7: the recipients of a campaign are exactly the contacts of the tenant
    that are age verified, that have SMS consent and no SMS opt-out when the
    campaign is of kind sms or both, that have email consent and no email
    opt-out when it is of kind email or both, whose primary location is one
    of the target locations when there are any, and that carry one of the
    target tags when there are any. *)
Theorem recipientQuery_exact w tenantId campaign c :
  In c (recipientQuery w tenantId campaign) <->
  In c (contacts w) /\
  Contact.tenant_id c = tenantId /\
  Contact.age_verified c = Some true /\
  (touches_sms (Campaign.type campaign) = true ->
   Contact.sms_consent c = Some true /\ Contact.sms_opted_out c = Some false) /\
  (touches_email (Campaign.type campaign) = true ->
   Contact.email_consent c = Some true /\ Contact.email_opted_out c = Some false) /\
  (forall locs, Campaign.target_locations campaign = Some locs -> locs <> [] ->
                exists l, Contact.primary_location_id c = Some l /\ In l locs) /\
  (forall tags, Campaign.target_tags campaign = Some tags -> tags <> [] ->
                exists t ts, Contact.tags c = Some ts /\ In t ts /\ In t tags).
Proof.
  unfold recipientQuery. rewrite filter_In, !andb_true_iff, Nat.eqb_eq, is_true_iff.
  split.
  - intros (Hin & ((((Ht & Hs) & He) & Ha) & Hl) & Hg).
    split; [assumption|]. split; [assumption|]. split; [assumption|].
    split; [|split; [|split]].
    + intros E. rewrite E in Hs. apply andb_true_iff in Hs.
      now rewrite <- is_true_iff, <- is_false_iff.
    + intros E. rewrite E in He. apply andb_true_iff in He.
      now rewrite <- is_true_iff, <- is_false_iff.
    + intros locs E Hne.
      assert (Hn : non_empty (Campaign.target_locations campaign) = Some locs)
        by now apply non_empty_iff.
      rewrite Hn in Hl. now apply eq_any_iff.
    + intros tags E Hne.
      assert (Hn : non_empty (Campaign.target_tags campaign) = Some tags)
        by now apply non_empty_iff.
      rewrite Hn in Hg. now apply overlap_iff.
  - intros (Hin & Ht & Ha & Hs & He & Hl & Hg).
    split; [assumption|].
    split; [split; [split; [split; [split; [assumption|] |] | assumption] |] |].
    + destruct (touches_sms (Campaign.type campaign)); [|reflexivity].
      destruct (Hs eq_refl) as [H1 H2].
      apply andb_true_iff. split; [now apply is_true_iff | now apply is_false_iff].
    + destruct (touches_email (Campaign.type campaign)); [|reflexivity].
      destruct (He eq_refl) as [H1 H2].
      apply andb_true_iff. split; [now apply is_true_iff | now apply is_false_iff].
    + destruct (non_empty (Campaign.target_locations campaign)) as [locs|] eqn:E;
        [|reflexivity].
      apply non_empty_iff in E. destruct E as [E Hne].
      apply eq_any_iff. now apply Hl.
    + destruct (non_empty (Campaign.target_tags campaign)) as [tags|] eqn:E;
        [|reflexivity].
      apply non_empty_iff in E. destruct E as [E Hne].
      apply overlap_iff. now apply Hg.
Qed.

(** *** Opt-out and opt-in for a phone that matches no contact *)

(** C9, as the code has it: when no contact of the tenant has the normalized
    phone, [processOptOut] reports success with a null contact id after
    adding an audit row with a null contact id and, on the SMS channel,
    making sure the phone is on the global opt-out list (on the email channel
    it leaves that list alone); [processOptIn] returns the failure
    'Contact not found' and changes nothing: no row, no log line, no
    deletion. *)
Theorem opt_out_opt_in_unknown_phone now tenantId phone channel method sourceMessageId w :
  contacts_by_phone w tenantId (normalizePhone phone) = [] ->
  (exists w1,
     processOptOut now tenantId phone channel method sourceMessageId w
       = (Returned (OptSuccess None), w1) /\
     contacts w1 = contacts w /\
     opt_out_log w1 =
       (opt_out_log w ++
        [{| OptOutLog.tenant_id := tenantId; OptOutLog.contact_id := None;
            OptOutLog.channel := channel; OptOutLog.address := normalizePhone phone;
            OptOutLog.action := OptOutLog.opt_out; OptOutLog.method := method;
            OptOutLog.source_message_id := sourceMessageId;
            OptOutLog.created_at := now |}])%list /\
     match channel with
     | sms =>
         (exists g, In g (global_opt_outs w1)
                    /\ GlobalOptOut.phone g = normalizePhone phone) /\
         (forall g, In g (global_opt_outs w) -> In g (global_opt_outs w1))
     | email => global_opt_outs w1 = global_opt_outs w
     end) /\
  processOptIn now tenantId phone channel method w
    = (Returned (OptFailure "Contact not found"), w).
Proof.
  intros Hnone. split.
  - unfold processOptOut, bind, get, ret. rewrite Hnone.
    destruct channel.
    + eexists. split; [reflexivity|].
      unfold insert_global_opt_out. cbn [global_opt_outs with_opt_out_log].
      destruct (existsb _ (global_opt_outs w)) eqn:E;
        (split; [reflexivity|]); (split; [reflexivity|]);
        cbn [global_opt_outs with_logger with_global_opt_outs with_opt_out_log].
      * split; [|auto].
        apply existsb_exists in E. destruct E as (g & Hin & Hg).
        exists g. split; [exact Hin|]. now apply String.eqb_eq in Hg.
      * split.
        -- eexists. split; [apply in_or_app; right; left; reflexivity | reflexivity].
        -- intros g Hin. apply in_or_app. now left.
    + eexists. repeat split.
  - unfold processOptIn, bind, get, ret. now rewrite Hnone.
Qed.

Lemma opt_out_opt_in_unknown_phone_witness :
  contacts_by_phone (example_world true) 7%nat (normalizePhone "(999) 555-0000") = [] /\
  (exists w1,
     processOptOut example_night 7%nat "(999) 555-0000" sms "keyword_reply" None
                   (example_world true)
       = (Returned (OptSuccess None), w1) /\
     map OptOutLog.contact_id (opt_out_log w1) = [None] /\
     map GlobalOptOut.phone (global_opt_outs w1) = ["+19995550000"]) /\
  processOptIn example_night 7%nat "(999) 555-0000" sms "keyword_reply" (example_world true)
    = (Returned (OptFailure "Contact not found"), example_world true).
Proof.
  split; [reflexivity|].
  destruct (opt_out_opt_in_unknown_phone
              example_night 7%nat "(999) 555-0000" sms "keyword_reply" None
              (example_world true) eq_refl)
    as ((w1 & Hrun & _ & _ & _) & Hin).
  split; [|exact Hin].
  exists w1. split; [exact Hrun|].
  assert (E : w1 = snd (processOptOut example_night 7%nat "(999) 555-0000" sms
                          "keyword_reply" None (example_world true)))
    by now rewrite Hrun.
  rewrite E. split; vm_compute; reflexivity.
Defined.

(** C9 as stated fails on the email channel: the opt-out of an address that
    matches no contact writes the audit row and leaves the global opt-out
    list empty. *)
Lemma opt_out_email_channel_counterexample :
  contacts_by_phone (example_world true) 7%nat (normalizePhone "(999) 555-0000") = [] /\
  fst (processOptOut example_night 7%nat "(999) 555-0000" email "manual" None
                     (example_world true))
  = Returned (OptSuccess None) /\
  map OptOutLog.contact_id
      (opt_out_log (snd (processOptOut example_night 7%nat "(999) 555-0000" email "manual"
                                       None (example_world true))))
  = [None] /\
  global_opt_outs (snd (processOptOut example_night 7%nat "(999) 555-0000" email "manual"
                                      None (example_world true)))
  = [].
Proof. repeat split; vm_compute; reflexivity. Qed.

(** *** Phone normalizer *)

Lemma strip_non_digits_filter (s : string) :
  strip_non_digits s = string_of_list_ascii (digit_characters s).
Proof.
  unfold digit_characters.
  induction s as [|c s IH]; simpl; [reflexivity|].
  destruct (is_digit c); simpl; now rewrite IH.
Qed.

Lemma length_string_of_list_ascii (l : list ascii) :
  String.length (string_of_list_ascii l) = List.length l.
Proof. induction l; simpl; congruence. Qed.

(** C8: the normalizer is total and returns '+' followed by the digit
    characters of the input in order, with a '1' put in front when there are
    exactly ten of them. *)
Theorem normalizePhone_spec (s : string) :
  normalizePhone s =
    String "+"%char
      (string_of_list_ascii
         (if (List.length (digit_characters s) =? 10)%nat
          then "1"%char :: digit_characters s
          else digit_characters s)).
Proof.
  unfold normalizePhone.
  rewrite strip_non_digits_filter, length_string_of_list_ascii.
  destruct (List.length (digit_characters s) =? 10)%nat; reflexivity.
Qed.

Lemma strip_non_digits_length (s : string) :
  (String.length (strip_non_digits s) <= String.length s)%nat.
Proof.
  induction s as [|c s IH]; simpl; [lia|].
  destruct (is_digit c); simpl; lia.
Qed.

Lemma strip_non_digits_idem (s : string) :
  strip_non_digits (strip_non_digits s) = strip_non_digits s.
Proof.
  induction s as [|c s IH]; simpl; [reflexivity|].
  destruct (is_digit c) eqn:E; simpl; [rewrite E, IH|]; auto.
Qed.

(** C10: normalizing an already normalized number changes nothing. *)
Theorem normalizePhone_idempotent (s : string) :
  normalizePhone (normalizePhone s) = normalizePhone s.
Proof.
  unfold normalizePhone.
  set (d := strip_non_digits s).
  assert (Hd : strip_non_digits d = d) by apply strip_non_digits_idem.
  destruct (String.length d =? 10)%nat eqn:E.
  - apply Nat.eqb_eq in E.
    change (strip_non_digits ("+" ++ "1" ++ d)) with (String "1"%char (strip_non_digits d)).
    rewrite Hd. simpl String.length. rewrite E. reflexivity.
  - change (strip_non_digits ("+" ++ d)) with (strip_non_digits d).
    rewrite Hd, E. reflexivity.
Qed.

(** ** Further properties of the pipeline *)

(** *** The compliance gate as a whole *)

Lemma failed_reasons_passed : failed_reasons check_passed = [].
Proof. reflexivity. Qed.

Lemma failed_reasons_failed r : failed_reasons (check_failed r) = [r].
Proof. reflexivity. Qed.

Lemma checkMessage_sms_found env now w tenantId contactId c q :
  select_contact w tenantId contactId = Some c ->
  checkQuietHours env now c = Returned q ->
  exists evaluation,
    checkMessage env now w tenantId contactId sms = Returned evaluation /\
    cr_reasons evaluation = sms_reasons env now w tenantId contactId c q /\
    cr_contact evaluation = Some c /\
    cr_approved evaluation
    = (List.length (sms_reasons env now w tenantId contactId c q) =? 0)%nat.
Proof.
  intros Hc Hq. unfold checkMessage. rewrite Hc, Hq. cbn [obind].
  eexists. split; [reflexivity|]. cbn [cr_reasons cr_contact cr_approved].
  assert (E : push_reasons
                (push_reasons
                   (push_reasons
                      match Contact.phone (contact c) with
                      | Some (String a p) =>
                          push_reasons
                            (push_reasons
                               (push_reasons (push_reasons [] (checkConsent c sms))
                                  (checkOptOut c sms)) (checkAgeVerification env now c))
                            (checkGlobalOptOut w (String a p))
                      | _ =>
                          push_reasons
                            (push_reasons (push_reasons [] (checkConsent c sms))
                               (checkOptOut c sms)) (checkAgeVerification env now c)
                      end q)
                   (checkRateLimit env now w tenantId contactId sms))
                (checkStateRules (state c) sms)
              = sms_reasons env now w tenantId contactId c q).
  { unfold sms_reasons.
    destruct (Contact.phone (contact c)) as [[|a p]|];
      rewrite !push_reasons_app; cbn [app]; rewrite <- ?app_assoc, ?app_nil_r;
      reflexivity. }
  rewrite E. repeat split.
Qed.

Lemma checkMessage_sms_inv env now w tenantId contactId evaluation :
  checkMessage env now w tenantId contactId sms = Returned evaluation ->
  (select_contact w tenantId contactId = None /\
   cr_approved evaluation = false /\ cr_reasons evaluation = ["Contact not found"]) \/
  (exists c q,
     select_contact w tenantId contactId = Some c /\
     checkQuietHours env now c = Returned q /\
     cr_contact evaluation = Some c /\
     cr_reasons evaluation = sms_reasons env now w tenantId contactId c q /\
     cr_approved evaluation
     = (List.length (sms_reasons env now w tenantId contactId c q) =? 0)%nat).
Proof.
  intros H.
  destruct (select_contact w tenantId contactId) as [c|] eqn:Hc.
  - right. destruct (checkQuietHours env now c) as [q|e] eqn:Hq.
    + destruct (checkMessage_sms_found _ _ _ _ _ _ _ Hc Hq) as (ev & Hev & Hr & Hk & Ha).
      rewrite Hev in H. injection H as <-. exists c, q. repeat split; assumption.
    + unfold checkMessage in H. rewrite Hc, Hq in H. discriminate.
  - left. unfold checkMessage in H. rewrite Hc in H. injection H as <-. repeat split.
Qed.

Lemma checkConsent_sms_approved c :
  approved (checkConsent c sms) = true <->
  Contact.sms_consent (contact c) = Some true /\ Contact.sms_consent_at (contact c) <> None.
Proof.
  unfold checkConsent.
  destruct (Contact.sms_consent (contact c)) as [[|]|],
           (Contact.sms_consent_at (contact c)); cbn;
    split; intros H; try discriminate; try (destruct H; congruence);
    (split; congruence) || reflexivity.
Qed.

Lemma checkOptOut_sms_approved c :
  approved (checkOptOut c sms) = true <->
  Contact.sms_opted_out (contact c) <> Some true.
Proof.
  unfold checkOptOut.
  destruct (Contact.sms_opted_out (contact c)) as [[|]|]; cbn;
    split; intros H; congruence.
Qed.

Lemma checkAgeVerification_approved env now c :
  approved (checkAgeVerification env now c) = true <->
  Contact.age_verified (contact c) = Some true /\
  (forall dob, Contact.date_of_birth (contact c) = Some dob -> 21 <= diff_year env now dob).
Proof.
  unfold checkAgeVerification.
  destruct (Contact.age_verified (contact c)) as [[|]|]; cbn [truthy_bool negb];
    try (cbn; split; [discriminate | intros [H _]; discriminate]).
  destruct (Contact.date_of_birth (contact c)) as [dob|].
  - destruct (Z.ltb_spec (diff_year env now dob) 21); cbn; split.
    + discriminate.
    + intros [_ H']. specialize (H' dob eq_refl). lia.
    + intros _. split; [reflexivity|]. intros d [= <-]. assumption.
    + reflexivity.
  - cbn. split; [|reflexivity]. intros _. split; [reflexivity|]. discriminate.
Qed.

Lemma checkGlobalOptOut_approved w phone :
  approved (checkGlobalOptOut w phone) = true <->
  forall g, In g (global_opt_outs w) -> GlobalOptOut.phone g <> normalizePhone phone.
Proof.
  unfold checkGlobalOptOut.
  destruct (filter _ (global_opt_outs w)) as [|g rest] eqn:E; cbn; split.
  - intros _ g Hin Hg.
    assert (In g (filter (fun g => String.eqb (GlobalOptOut.phone g) (normalizePhone phone))
                         (global_opt_outs w)))
      by (apply filter_In; split; [assumption | now apply String.eqb_eq]).
    rewrite E in H. exact H.
  - reflexivity.
  - discriminate.
  - intros H. exfalso.
    assert (Hin : In g (g :: rest)) by now left.
    rewrite <- E in Hin. apply filter_In in Hin. destruct Hin as [Hin Hg].
    apply String.eqb_eq in Hg. exact (H g Hin Hg).
Qed.

Lemma checkRateLimit_approved env now w tenantId contactId messageType :
  approved (checkRateLimit env now w tenantId contactId messageType) = true <->
  recent_outbound now w tenantId contactId messageType
  < maxMessagesPerDayPerRecipient (config env).
Proof.
  unfold checkRateLimit, recent_outbound.
  destruct (Z.leb_spec (maxMessagesPerDayPerRecipient (config env))
              (Z.of_nat (List.length
                 (filter (fun m =>
                            visible_message tenantId m
                            && option_uuid_eqb (Message.contact_id m) contactId
                            && Channel_eqb (Message.type m) messageType
                            && Direction_eqb (Message.direction m) outbound
                            && (now - HOURS_24 <? Message.created_at m))
                         (messages w)))));
    cbn [approved check_failed check_passed]; split; intros;
    (discriminate || lia || reflexivity).
Qed.

Lemma checkQuietHours_approved env now c q :
  checkQuietHours env now c = Returned q ->
  (approved q = true <->
   inQuietHours (quietHours_start (config env)) (quietHours_end (config env))
     (format_HHmm (now + utcOffset env (resolve_timezone c) now * MS_PER_MINUTE)) = false).
Proof.
  unfold checkQuietHours. intros H.
  destruct (knownZone env _); cbn [negb] in H; [|discriminate].
  destruct (inQuietHours _ _ _).
  - destruct (getQuietHoursEnd _ _ _); [|discriminate].
    injection H as <-. cbn. split; discriminate.
  - injection H as <-. cbn. split; reflexivity.
Qed.

(** Every check either passes or gives a reason. *)
Lemma failed_reasons_nil_iff check :
  (approved check = false -> reasons check <> []) ->
  (failed_reasons check = [] <-> approved check = true).
Proof.
  unfold failed_reasons. intros H. destruct (approved check); split; auto.
  - intros E. now destruct (H eq_refl).
  - discriminate.
Qed.

Lemma check_shape_consent c ch :
  approved (checkConsent c ch) = false -> reasons (checkConsent c ch) <> [].
Proof.
  unfold checkConsent. destruct ch;
    repeat match goal with |- context [if ?b then _ else _] => destruct b end;
    cbn; congruence.
Qed.

Lemma check_shape_optout c ch :
  approved (checkOptOut c ch) = false -> reasons (checkOptOut c ch) <> [].
Proof.
  unfold checkOptOut.
  repeat match goal with |- context [if ?b then _ else _] => destruct b end;
    cbn; congruence.
Qed.

Lemma check_shape_age env now c :
  approved (checkAgeVerification env now c) = false ->
  reasons (checkAgeVerification env now c) <> [].
Proof.
  unfold checkAgeVerification.
  destruct (negb _); [cbn; congruence|].
  destruct (Contact.date_of_birth (contact c)); [|cbn; congruence].
  destruct (_ <? _); cbn; congruence.
Qed.

Lemma check_shape_global w p :
  approved (checkGlobalOptOut w p) = false -> reasons (checkGlobalOptOut w p) <> [].
Proof.
  unfold checkGlobalOptOut. destruct (_ <? _)%nat; cbn; congruence.
Qed.

Lemma check_shape_rate env now w t cid ch :
  approved (checkRateLimit env now w t cid ch) = false ->
  reasons (checkRateLimit env now w t cid ch) <> [].
Proof.
  unfold checkRateLimit. destruct (_ <=? _); cbn; congruence.
Qed.

Lemma check_shape_quiet env now c q :
  checkQuietHours env now c = Returned q ->
  approved q = false -> reasons q <> [].
Proof.
  intros H Ha. destruct (checkQuietHours_failed_reason _ _ _ _ H Ha) as [r ->].
  discriminate.
Qed.

Lemma app_nil_iff {A : Type} (l l' : list A) :
  (l ++ l')%list = [] <-> l = [] /\ l' = [].
Proof.
  split; [apply app_eq_nil|]. now intros [-> ->].
Qed.

Lemma sms_reasons_nil_iff env now w tenantId contactId c q :
  checkQuietHours env now c = Returned q ->
  (sms_reasons env now w tenantId contactId c q = [] <->
   approved (checkConsent c sms) = true /\
   approved (checkOptOut c sms) = true /\
   approved (checkAgeVerification env now c) = true /\
   (forall p, Contact.phone (contact c) = Some p -> p <> "" ->
              approved (checkGlobalOptOut w p) = true) /\
   approved q = true /\
   approved (checkRateLimit env now w tenantId contactId sms) = true).
Proof.
  intros Hq. unfold sms_reasons.
  rewrite !app_nil_iff.
  rewrite (failed_reasons_nil_iff _ (check_shape_consent c sms)).
  rewrite (failed_reasons_nil_iff _ (check_shape_optout c sms)).
  rewrite (failed_reasons_nil_iff _ (check_shape_age env now c)).
  rewrite (failed_reasons_nil_iff _ (check_shape_quiet _ _ _ _ Hq)).
  rewrite (failed_reasons_nil_iff _ (check_shape_rate env now w tenantId contactId sms)).
  assert (G : match Contact.phone (contact c) with
              | Some (String a p) => failed_reasons (checkGlobalOptOut w (String a p))
              | _ => []
              end = [] <->
              (forall p, Contact.phone (contact c) = Some p -> p <> "" ->
                         approved (checkGlobalOptOut w p) = true)).
  { destruct (Contact.phone (contact c)) as [[|a p]|].
    - split; [|reflexivity]. intros _ p [= <-] Hne. congruence.
    - rewrite (failed_reasons_nil_iff _ (check_shape_global w (String a p))). split.
      + intros H p' [= <-] _. exact H.
      + intros H. apply H; [reflexivity | discriminate].
    - split; [|reflexivity]. intros _ p [=]. }
  rewrite G. cbn [checkStateRules failed_reasons approved check_passed]. tauto.
Qed.

Lemma length_eqb_0 {A : Type} (l : list A) :
  (List.length l =? 0)%nat = true <-> l = [].
Proof. destruct l; cbn; split; congruence. Qed.

(** X1: an SMS evaluation is approved exactly when the contact exists in the
    tenant, has the consent flag and the consent timestamp, is not opted
    out, is age verified (and 21 by the date of birth, when there is one),
    has no phone on the global opt-out list, is outside quiet hours and has
    fewer outbound SMS in the last 24 hours than the daily maximum. *)
Theorem checkMessage_approved_iff env now w tenantId contactId evaluation :
  checkMessage env now w tenantId contactId sms = Returned evaluation ->
  (cr_approved evaluation = true <->
   exists c,
     select_contact w tenantId contactId = Some c /\
     Contact.sms_consent (contact c) = Some true /\
     Contact.sms_consent_at (contact c) <> None /\
     Contact.sms_opted_out (contact c) <> Some true /\
     Contact.age_verified (contact c) = Some true /\
     (forall dob, Contact.date_of_birth (contact c) = Some dob ->
                  21 <= diff_year env now dob) /\
     (forall p g, Contact.phone (contact c) = Some p -> p <> "" ->
                  In g (global_opt_outs w) -> GlobalOptOut.phone g <> normalizePhone p) /\
     inQuietHours (quietHours_start (config env)) (quietHours_end (config env))
       (format_HHmm (now + utcOffset env (resolve_timezone c) now * MS_PER_MINUTE)) = false /\
     recent_outbound now w tenantId contactId sms
     < maxMessagesPerDayPerRecipient (config env)).
Proof.
  intros H.
  destruct (checkMessage_sms_inv _ _ _ _ _ _ H)
    as [(Hnone & Hn & _) | (c & q & Hc & Hq & _ & _ & Ha)].
  - rewrite Hn. split; [discriminate|]. intros (c & Hc & _). congruence.
  - rewrite Ha, length_eqb_0, (sms_reasons_nil_iff _ _ _ _ _ _ _ Hq).
    rewrite checkConsent_sms_approved, checkOptOut_sms_approved,
      checkAgeVerification_approved, (checkQuietHours_approved _ _ _ _ Hq),
      checkRateLimit_approved.
    split.
    + intros ((H1 & H2) & H3 & (H4 & H5) & H6 & H7 & H8).
      exists c. repeat split; try assumption.
      intros p g Hp Hne. now apply checkGlobalOptOut_approved, H6.
    + intros (c' & Hc' & H1 & H2 & H3 & H4 & H5 & H6 & H7 & H8).
      rewrite Hc in Hc'. injection Hc' as <-.
      repeat split; try assumption.
      intros p Hp Hne. apply checkGlobalOptOut_approved. intros g. now apply H6.
Qed.

Lemma checkMessage_approved_iff_witness :
  exists evaluation,
    checkMessage example_env example_morning (example_world true) 7%nat 1%nat sms
      = Returned evaluation /\
    cr_approved evaluation = true /\
    exists c,
      select_contact (example_world true) 7%nat 1%nat = Some c /\
      Contact.sms_consent (contact c) = Some true /\
      recent_outbound example_morning (example_world true) 7%nat 1%nat sms < 3.
Proof.
  assert (H : exists evaluation,
             checkMessage example_env example_morning (example_world true) 7%nat 1%nat sms
             = Returned evaluation /\ cr_approved evaluation = true).
  { eexists. split; vm_compute; reflexivity. }
  destruct H as (evaluation & H & Ha).
  exists evaluation. split; [exact H|]. split; [exact Ha|].
  destruct (proj1 (checkMessage_approved_iff
                     example_env example_morning (example_world true) 7%nat 1%nat
                     evaluation H) Ha)
    as (c & Hc & H1 & _ & _ & _ & _ & _ & _ & H8).
  exists c. repeat split; assumption.
Defined.

(** *** Dispatch *)

(** Whatever makes the evaluation fail, [sendMessage] returns the blocked
    result and adds one log line. *)
Lemma sendMessage_not_approved env now data w evaluation :
  checkMessage env now w (jd_tenantId data) (jd_contactId data) sms = Returned evaluation ->
  cr_approved evaluation = false ->
  sendMessage env now data w
  = (Returned (SendBlocked (cr_reasons evaluation)),
     with_logger w (logger w ++ [(warn, "Message blocked by compliance")])).
Proof.
  intros H Hn. unfold sendMessage, bind, get, lift, log, modify, ret.
  rewrite H, Hn. reflexivity.
Qed.

Lemma worker_not_approved env now job w evaluation :
  checkMessage env now w (jd_tenantId (job_data job)) (jd_contactId (job_data job)) sms
    = Returned evaluation ->
  cr_approved evaluation = false ->
  startSMSWorker_processor env now job w
  = (Returned (SendBlocked (cr_reasons evaluation)),
     with_logger w
       (logger w ++ [(info, "Processing SMS job");
                     (warn, "Message blocked by compliance");
                     (warn, "SMS blocked by compliance")])).
Proof.
  intros H Hn. unfold startSMSWorker_processor, bind, log at 1, modify.
  rewrite (sendMessage_not_approved env now (job_data job) _ evaluation);
    [|rewrite checkMessage_with_logger; exact H | exact Hn].
  unfold log, modify, ret. rewrite !with_logger_twice. cbn [logger with_logger].
  rewrite <- !app_assoc. reflexivity.
Qed.

Lemma select_contact_none w tenantId contactId :
  (forall c, In c (contacts w) -> Contact.id c = contactId ->
             Contact.tenant_id c <> tenantId) ->
  select_contact w tenantId contactId = None.
Proof.
  intros H. unfold select_contact.
  destruct (find _ (contacts w)) as [c|] eqn:E; [|reflexivity].
  apply find_some in E. destruct E as [Hin Hb].
  apply andb_true_iff in Hb. destruct Hb as [Ht Hi].
  apply Nat.eqb_eq in Ht. apply Nat.eqb_eq in Hi.
  now destruct (H c Hin Hi).
Qed.

(** X2: a job that names a contact id no contact of its own tenant has -
    even when another tenant has a contact with that id - is finalized as
    blocked with 'Contact not found'; nothing is written or sent. *)
Theorem worker_ignores_contacts_of_other_tenants env now job w :
  (forall c, In c (contacts w) -> Contact.id c = jd_contactId (job_data job) ->
             Contact.tenant_id c <> jd_tenantId (job_data job)) ->
  startSMSWorker_processor env now job w
  = (Returned (SendBlocked ["Contact not found"]),
     with_logger w
       (logger w ++ [(info, "Processing SMS job");
                     (warn, "Message blocked by compliance");
                     (warn, "SMS blocked by compliance")])).
Proof.
  intros H. apply select_contact_none in H.
  apply (worker_not_approved env now job w
           {| cr_approved := false; cr_reasons := ["Contact not found"];
              cr_contact := None; cr_checks := None |}); [|reflexivity].
  unfold checkMessage. now rewrite H.
Qed.

Lemma worker_ignores_contacts_of_other_tenants_witness :
  startSMSWorker_processor example_env example_morning
    {| job_id := 43%nat; job_name := "send-sms";
       job_data := {| jd_tenantId := 8%nat; jd_contactId := 1%nat; jd_locationId := None;
                      jd_content := Some "hi"; jd_campaignId := None |};
       job_opts := job_opts example_job |}
    (example_world true)
  = (Returned (SendBlocked ["Contact not found"]),
     with_logger (example_world true)
       [(info, "Processing SMS job");
        (warn, "Message blocked by compliance");
        (warn, "SMS blocked by compliance")]).
Proof.
  apply (worker_ignores_contacts_of_other_tenants example_env example_morning
           {| job_id := 43%nat; job_name := "send-sms";
              job_data := {| jd_tenantId := 8%nat; jd_contactId := 1%nat;
                             jd_locationId := None;
                             jd_content := Some "hi"; jd_campaignId := None |};
              job_opts := job_opts example_job |}
           (example_world true)).
  intros c [<-|[]] _. cbn. discriminate.
Defined.

(** [sendMessage] once the evaluation is approved: the row is inserted as
    'queued' under a fresh id, then the provider's answer decides. *)
Lemma sendMessage_approved_run env now data w evaluation c to content :
  checkMessage env now w (jd_tenantId data) (jd_contactId data) sms = Returned evaluation ->
  cr_approved evaluation = true ->
  cr_contact evaluation = Some c ->
  Contact.phone (contact c) = Some to ->
  jd_content data = Some content ->
  let id := next_id w in
  let own m := visible_message (jd_tenantId data) m && Nat.eqb (Message.id m) id in
  let flagged :=
    match scanContent content (state c) with
    | [] => []
    | _ :: _ => [(warn, "Message content flagged")]
    end in
  let inserted := (messages w ++ [queued_row w data id to content now])%list in
  sendMessage env now data w
  = match telnyx_create env (telnyx_request env w data to content) with
    | Returned response =>
        (Returned (SendSuccess id (data_id response) (billed_segments response)),
         with_logger
           (with_messages (with_next_id w (S id))
              (map (fun m => if own m
                             then set_sent (data_id response) now (billed_segments response) m
                             else m) inserted))
           (logger w ++ flagged ++ [(info, "SMS sent successfully")]))
    | Thrown e =>
        (Returned (SendFailure id e),
         with_logger
           (with_messages (with_next_id w (S id))
              (map (fun m => if own m then set_failed e m else m) inserted))
           (logger w ++ flagged ++ [(error, "SMS send failed")]))
    end.
Proof.
  intros H Ha Hc Hp Hk id own flagged inserted.
  unfold sendMessage, bind, get, lift, ret.
  rewrite H, Ha, Hc, Hk. cbn [negb]. rewrite Hp.
  change (match jd_locationId data with
          | Some lid =>
              match find (fun l => Nat.eqb (Location.tenant_id l) (jd_tenantId data)
                                   && Nat.eqb (Location.id l) lid) (locations w) with
              | Some l => or_string (Location.sms_phone_number l) None
              | None => None
              end
          | None => None
          end) with (from_number w data).
  unfold flagged, inserted, own, id, try_catch, fresh_id, modify, log, telnyx_request,
    queued_row, billed_segments, update_messages.
  destruct (scanContent content (state c));
    cbn [modify log];
    match goal with
    | |- context [telnyx_create env ?p] => destruct (telnyx_create env p)
    end;
    cbn; rewrite <- ?app_assoc; reflexivity.
Qed.

Lemma update_messages_fresh (own : Message.row -> bool) (f : Message.row -> Message.row)
    (l : list Message.row) (row : Message.row) :
  (forall m, In m l -> own m = false) -> own row = true ->
  map (fun m => if own m then f m else m) (l ++ [row]) = (l ++ [f row])%list.
Proof.
  intros Hl Hr. rewrite map_app. cbn [map]. rewrite Hr. f_equal.
  rewrite <- (map_id l) at 2. apply map_ext_in. intros m Hin. now rewrite (Hl m Hin).
Qed.

Lemma fresh_id_not_own w tenantId :
  (forall m, In m (messages w) -> Message.id m <> next_id w) ->
  forall m, In m (messages w) ->
            visible_message tenantId m && Nat.eqb (Message.id m) (next_id w) = false.
Proof.
  intros H m Hin. apply andb_false_iff. right. apply Nat.eqb_neq. now apply H.
Qed.

(** X3: when the evaluation approves and the provider accepts the request,
    [sendMessage] reports success and appends exactly one outbound row: the
    status is 'sent', the provider's id and the billed segments are stored
    (one segment when the provider reports none or zero), and the audit
    stamps are the dispatch time.  The content scan plays no part. *)
Theorem sendMessage_success env now data w evaluation c to content response :
  checkMessage env now w (jd_tenantId data) (jd_contactId data) sms = Returned evaluation ->
  cr_approved evaluation = true ->
  cr_contact evaluation = Some c ->
  Contact.phone (contact c) = Some to ->
  jd_content data = Some content ->
  telnyx_create env (telnyx_request env w data to content) = Returned response ->
  (forall m, In m (messages w) -> Message.id m <> next_id w) ->
  exists w' row,
    sendMessage env now data w
    = (Returned (SendSuccess (next_id w) (data_id response) (billed_segments response)), w') /\
    messages w' = (messages w ++ [row])%list /\
    row = set_sent (data_id response) now (billed_segments response)
            (queued_row w data (next_id w) to content now) /\
    Message.status row = "sent" /\
    Message.provider_message_id row = Some (data_id response) /\
    Message.to_address row = to /\
    Message.consent_verified_at row = Some now /\
    Message.sent_at row = Some now /\
    Message.segments row <> 0 /\
    smsQueue w' = smsQueue w /\
    contacts w' = contacts w.
Proof.
  intros H Ha Hc Hp Hk Ht Hfresh.
  rewrite (sendMessage_approved_run _ _ _ _ _ _ _ _ H Ha Hc Hp Hk), Ht.
  do 2 eexists. split; [reflexivity|].
  cbn [messages with_logger with_messages].
  rewrite update_messages_fresh.
  - repeat split.
    cbn [Message.segments set_sent]. unfold billed_segments.
    destruct (data_parts response) as [p|]; [|discriminate].
    destruct (Z.eqb_spec p 0); [discriminate | assumption].
  - apply fresh_id_not_own, Hfresh.
  - cbn. now rewrite !Nat.eqb_refl.
Qed.

Lemma sendMessage_success_witness :
  exists w' row,
    sendMessage example_env example_morning example_data (example_world true)
    = (Returned (SendSuccess 100%nat "tx-1" 1), w') /\
    messages w' = [row] /\
    Message.status row = "sent" /\
    Message.provider_message_id row = Some "tx-1".
Proof.
  assert (H : exists evaluation,
             checkMessage example_env example_morning (example_world true) 7%nat 1%nat sms
             = Returned evaluation /\ cr_approved evaluation = true /\
             cr_contact evaluation
             = Some {| contact := example_contact true; state := None;
                       location_timezone := None |}).
  { eexists. repeat split; vm_compute; reflexivity. }
  destruct H as (evaluation & H & Ha & Hc).
  destruct (sendMessage_success example_env example_morning example_data (example_world true)
              evaluation _ "+14155551212" "hi" {| data_id := "tx-1"; data_parts := Some 1 |}
              H Ha Hc eq_refl eq_refl eq_refl)
    as (w' & row & Hrun & Hm & _ & Hs & Hpid & _).
  - intros m [].
  - exists w', row. repeat split; assumption.
Defined.

(** X4: when the provider throws, the row inserted for the attempt stays,
    with status 'failed' and the provider's error text, and the worker
    throws that text ('SMS send failed' when it is empty), which makes the
    queue retry the job. *)
Theorem worker_rethrows_provider_error env now job w evaluation c to content e :
  checkMessage env now w (jd_tenantId (job_data job)) (jd_contactId (job_data job)) sms
    = Returned evaluation ->
  cr_approved evaluation = true ->
  cr_contact evaluation = Some c ->
  Contact.phone (contact c) = Some to ->
  jd_content (job_data job) = Some content ->
  telnyx_create env (telnyx_request env w (job_data job) to content) = Thrown e ->
  (forall m, In m (messages w) -> Message.id m <> next_id w) ->
  exists w' row,
    startSMSWorker_processor env now job w
    = (Thrown (match e with EmptyString => "SMS send failed" | _ => e end), w') /\
    messages w' = (messages w ++ [row])%list /\
    row = set_failed e (queued_row w (job_data job) (next_id w) to content now) /\
    Message.status row = "failed" /\
    Message.provider_error row = Some e /\
    Message.provider_message_id row = None.
Proof.
  intros H Ha Hc Hp Hk Ht Hfresh.
  unfold startSMSWorker_processor, bind, log at 1, modify.
  rewrite (sendMessage_approved_run env now (job_data job) _ evaluation c to content);
    [| rewrite checkMessage_with_logger; exact H | assumption ..].
  change (telnyx_request env (with_logger w _) (job_data job) to content)
    with (telnyx_request env w (job_data job) to content).
  rewrite Ht. cbn [throw].
  do 2 eexists. split; [reflexivity|].
  cbn [messages with_logger with_messages next_id].
  change (queued_row (with_logger w _) (job_data job) (next_id w) to content now)
    with (queued_row w (job_data job) (next_id w) to content now).
  rewrite update_messages_fresh.
  - repeat split.
  - apply fresh_id_not_own, Hfresh.
  - cbn. now rewrite !Nat.eqb_refl.
Qed.

Lemma worker_rethrows_provider_error_witness :
  exists w' row,
    startSMSWorker_processor failing_env example_morning example_job (example_world true)
    = (Thrown "Invalid destination number", w') /\
    messages w' = [row] /\
    Message.status row = "failed" /\
    Message.provider_error row = Some "Invalid destination number".
Proof.
  assert (H : exists evaluation,
             checkMessage failing_env example_morning (example_world true) 7%nat 1%nat sms
             = Returned evaluation /\ cr_approved evaluation = true /\
             cr_contact evaluation
             = Some {| contact := example_contact true; state := None;
                       location_timezone := None |}).
  { eexists. repeat split; vm_compute; reflexivity. }
  destruct H as (evaluation & H & Ha & Hc).
  destruct (worker_rethrows_provider_error failing_env example_morning example_job
              (example_world true) evaluation _ "+14155551212" "hi"
              "Invalid destination number" H Ha Hc eq_refl eq_refl eq_refl)
    as (w' & row & Hrun & Hm & _ & Hs & He & _).
  - intros m [].
  - exists w', row. repeat split; assumption.
Defined.

(** X5: a contact with consent and no phone number passes the evaluation
    (the global opt-out check is skipped for it), and [sendMessage] then
    throws on the NOT NULL [to_address] before any row is written or the
    provider is called. *)
Theorem sendMessage_without_phone_throws env now data w evaluation c content :
  checkMessage env now w (jd_tenantId data) (jd_contactId data) sms = Returned evaluation ->
  cr_approved evaluation = true ->
  cr_contact evaluation = Some c ->
  Contact.phone (contact c) = None ->
  jd_content data = Some content ->
  exists w',
    sendMessage env now data w
    = (Thrown "null value in column to_address violates not-null constraint", w') /\
    messages w' = messages w /\
    smsQueue w' = smsQueue w /\
    next_id w' = next_id w.
Proof.
  intros H Ha Hc Hp Hk.
  unfold sendMessage, bind, get, lift, ret.
  rewrite H, Ha, Hc, Hk. cbn [negb]. rewrite Hp.
  destruct (scanContent content (state c)); eexists; split; reflexivity || (repeat split).
Qed.

Lemma sendMessage_without_phone_throws_witness :
  exists evaluation w',
    checkMessage example_env example_morning example_shop 7%nat 2%nat sms
      = Returned evaluation /\
    cr_approved evaluation = true /\
    sendMessage example_env example_morning
      {| jd_tenantId := 7%nat; jd_contactId := 2%nat; jd_locationId := None;
         jd_content := Some "hi"; jd_campaignId := None |} example_shop
    = (Thrown "null value in column to_address violates not-null constraint", w') /\
    messages w' = [].
Proof.
  assert (H : exists evaluation,
             checkMessage example_env example_morning example_shop 7%nat 2%nat sms
             = Returned evaluation /\ cr_approved evaluation = true /\
             cr_contact evaluation
             = Some {| contact := example_contact_without_phone; state := None;
                       location_timezone := None |}).
  { eexists. repeat split; vm_compute; reflexivity. }
  destruct H as (evaluation & H & Ha & Hc).
  destruct (sendMessage_without_phone_throws example_env example_morning
              {| jd_tenantId := 7%nat; jd_contactId := 2%nat; jd_locationId := None;
                 jd_content := Some "hi"; jd_campaignId := None |}
              example_shop evaluation _ "hi" H Ha Hc eq_refl eq_refl)
    as (w' & Hrun & Hm & _).
  exists evaluation, w'. repeat split; assumption.
Defined.

(** *** Rate limit accounting *)

Lemma recent_outbound_messages now w w' tenantId contactId ch :
  messages w' = messages w ->
  recent_outbound now w' tenantId contactId ch = recent_outbound now w tenantId contactId ch.
Proof. unfold recent_outbound. now intros ->. Qed.

Lemma filter_length_update {A : Type} (P own : A -> bool) (f : A -> A) (l : list A) :
  (forall x, P (f x) = P x) ->
  List.length (filter P (map (fun x => if own x then f x else x) l))
  = List.length (filter P l).
Proof.
  intros Hf. induction l as [|x l IH]; [reflexivity|].
  cbn [map filter].
  assert (E : P (if own x then f x else x) = P x) by (destruct (own x); auto).
  rewrite E. destruct (P x); cbn [List.length]; now rewrite IH.
Qed.

Lemma filter_length_snoc {A : Type} (P : A -> bool) (l : list A) (x : A) :
  P x = true ->
  List.length (filter P (l ++ [x])) = S (List.length (filter P l)).
Proof.
  intros Hx. rewrite filter_app, length_app. cbn [filter]. rewrite Hx.
  cbn [List.length]. lia.
Qed.

Lemma approved_under_limit env now w tenantId contactId evaluation :
  checkMessage env now w tenantId contactId sms = Returned evaluation ->
  cr_approved evaluation = true ->
  (exists c, cr_contact evaluation = Some c) /\
  recent_outbound now w tenantId contactId sms
  < maxMessagesPerDayPerRecipient (config env).
Proof.
  intros H Ha.
  destruct (checkMessage_sms_inv _ _ _ _ _ _ H)
    as [(_ & Hn & _) | (c & q & _ & Hq & Hk & _ & He)]; [congruence|].
  split; [now exists c|].
  rewrite He in Ha. apply length_eqb_0 in Ha.
  apply (sms_reasons_nil_iff _ _ _ _ _ _ _ Hq) in Ha.
  now apply checkRateLimit_approved.
Qed.

(** X6: dispatch keeps the daily limit.  If a recipient has at most the
    configured maximum of outbound SMS rows in the last 24 hours before
    [sendMessage] runs, the same holds after it, whatever the call returns
    or throws: a row is written only when the count was below the maximum,
    and a failed attempt counts like a sent one. *)
Theorem sendMessage_keeps_rate_limit env now data w r w' :
  sendMessage env now data w = (r, w') ->
  recent_outbound now w (jd_tenantId data) (jd_contactId data) sms
    <= maxMessagesPerDayPerRecipient (config env) ->
  recent_outbound now w' (jd_tenantId data) (jd_contactId data) sms
    <= maxMessagesPerDayPerRecipient (config env).
Proof.
  intros Hrun Hle.
  destruct (checkMessage env now w (jd_tenantId data) (jd_contactId data) sms)
    as [evaluation|e] eqn:H.
  2:{ unfold sendMessage, bind, get, lift in Hrun. rewrite H in Hrun.
      injection Hrun as _ <-. exact Hle. }
  destruct (cr_approved evaluation) eqn:Ha.
  2:{ rewrite (sendMessage_not_approved _ _ _ _ _ H Ha) in Hrun.
      injection Hrun as _ <-. exact Hle. }
  destruct (approved_under_limit _ _ _ _ _ _ H Ha) as ((c & Hc) & Hlt).
  destruct (jd_content data) as [content|] eqn:Hk.
  2:{ unfold sendMessage, bind, get, lift, ret, throw in Hrun.
      rewrite H, Ha, Hc, Hk in Hrun. cbn [negb] in Hrun.
      injection Hrun as _ <-. exact Hle. }
  destruct (Contact.phone (contact c)) as [to|] eqn:Hp.
  2:{ destruct (sendMessage_without_phone_throws _ _ _ _ _ _ _ H Ha Hc Hp Hk)
        as (w1 & Hrun1 & Hm & _).
      rewrite Hrun1 in Hrun. injection Hrun as _ <-.
      now rewrite (recent_outbound_messages _ _ _ _ _ _ Hm). }
  rewrite (sendMessage_approved_run _ _ _ _ _ _ _ _ H Ha Hc Hp Hk) in Hrun.
  assert (Hcount :
            forall f : Message.row -> Message.row,
              (forall m, Message.tenant_id (f m) = Message.tenant_id m
                                 /\ Message.contact_id (f m) = Message.contact_id m
                                 /\ Message.type (f m) = Message.type m
                                 /\ Message.direction (f m) = Message.direction m
                                 /\ Message.created_at (f m) = Message.created_at m) ->
            forall (own : Message.row -> bool) wl,
              recent_outbound now
                (with_logger
                   (with_messages (with_next_id w (S (next_id w)))
                      (map (fun m => if own m then f m else m)
                           (messages w ++ [queued_row w data (next_id w) to content now])))
                   wl)
                (jd_tenantId data) (jd_contactId data) sms
              = recent_outbound now w (jd_tenantId data) (jd_contactId data) sms + 1).
  { intros f Hf own wl. unfold recent_outbound.
    cbn [messages with_logger with_messages].
    rewrite filter_length_update.
    - rewrite filter_length_snoc; [lia|].
      unfold visible_message.
      cbn [queued_row
        Message.tenant_id Message.contact_id Message.type Message.direction
        Message.created_at option_uuid_eqb Channel_eqb Direction_eqb].
      rewrite !Nat.eqb_refl.
      replace (now - HOURS_24 <? now) with true
        by (symmetry; apply Z.ltb_lt; unfold HOURS_24, MS_PER_HOUR; lia).
      reflexivity.
    - intros m. destruct (Hf m) as (E1 & E2 & E3 & E4 & E5).
      unfold visible_message. now rewrite E1, E2, E3, E4, E5. }
  destruct (telnyx_create env (telnyx_request env w data to content)) as [response|e];
    injection Hrun as _ <-; rewrite Hcount; try lia; intros m; repeat split.
Qed.

Lemma sendMessage_keeps_rate_limit_witness :
  recent_outbound example_morning (example_world true) 7%nat 1%nat sms <= 3 /\
  recent_outbound example_morning
    (snd (sendMessage example_env example_morning example_data (example_world true)))
    7%nat 1%nat sms <= 3.
Proof.
  split; [vm_compute; discriminate|].
  apply (sendMessage_keeps_rate_limit example_env example_morning example_data
           (example_world true)
           (fst (sendMessage example_env example_morning example_data (example_world true)))
           (snd (sendMessage example_env example_morning example_data (example_world true)))).
  - apply surjective_pairing.
  - vm_compute. discriminate.
Defined.

(** *** Opt-out and opt-in, end to end *)

Lemma filter_map_preserve {A : Type} (p : A -> bool) (g : A -> A) (l : list A) :
  (forall x, p (g x) = p x) -> filter p (map g l) = map g (filter p l).
Proof.
  intros Hg. induction l as [|x l IH]; [reflexivity|].
  cbn [map filter]. rewrite Hg. destruct (p x); cbn [map]; now rewrite IH.
Qed.

Lemma find_map_preserve {A : Type} (p : A -> bool) (g : A -> A) (l : list A) :
  (forall x, p (g x) = p x) -> find p (map g l) = option_map g (find p l).
Proof.
  intros Hg. induction l as [|x l IH]; [reflexivity|].
  cbn [map find]. rewrite Hg. destruct (p x); [reflexivity | exact IH].
Qed.

Lemma find_of_member {A : Type} (p : A -> bool) (l : list A) (x : A) :
  In x l -> p x = true -> exists y, find p l = Some y /\ p y = true.
Proof.
  intros Hin Hp. destruct (find p l) as [y|] eqn:E.
  - exists y. split; [reflexivity|]. now apply find_some in E.
  - pose proof (find_none _ _ E x Hin). congruence.
Qed.

Lemma checkQuietHours_returns env now c :
  knownZone env (resolve_timezone c) = true ->
  quiet_end_parses (config env) = true ->
  exists q, checkQuietHours env now c = Returned q.
Proof.
  unfold quiet_end_parses, checkQuietHours, getQuietHoursEnd. intros Hz H.
  rewrite Hz. cbn [negb].
  apply andb_true_iff in H. destruct H as [H0 H1].
  destruct (parseInt (nth_error _ 0)); [|discriminate].
  destruct (parseInt (nth_error _ 1)); [|discriminate].
  destruct (inQuietHours _ _ _); eexists; reflexivity.
Qed.

Lemma insert_global_opt_out_listed phone tenantId now w :
  exists g, In g (global_opt_outs (insert_global_opt_out phone tenantId now w))
            /\ GlobalOptOut.phone g = phone.
Proof.
  unfold insert_global_opt_out.
  destruct (existsb _ (global_opt_outs w)) eqn:E.
  - apply existsb_exists in E. destruct E as (g & Hin & Hg).
    exists g. split; [exact Hin | now apply String.eqb_eq].
  - cbn [global_opt_outs with_global_opt_outs]. eexists. split.
    + apply in_or_app. right. left. reflexivity.
    + reflexivity.
Qed.

Lemma insert_global_opt_out_present phone tenantId now w :
  (exists g, In g (global_opt_outs w) /\ GlobalOptOut.phone g = phone) ->
  insert_global_opt_out phone tenantId now w = w.
Proof.
  intros (g & Hin & Hg). unfold insert_global_opt_out.
  replace (existsb _ (global_opt_outs w)) with true; [reflexivity|].
  symmetry. apply existsb_exists. exists g. split; [exact Hin|].
  now apply String.eqb_eq.
Qed.

Lemma insert_global_opt_out_frame phone tenantId now w :
  contacts (insert_global_opt_out phone tenantId now w) = contacts w /\
  locations (insert_global_opt_out phone tenantId now w) = locations w /\
  messages (insert_global_opt_out phone tenantId now w) = messages w /\
  opt_out_log (insert_global_opt_out phone tenantId now w) = opt_out_log w /\
  smsQueue (insert_global_opt_out phone tenantId now w) = smsQueue w /\
  logger (insert_global_opt_out phone tenantId now w) = logger w /\
  next_id (insert_global_opt_out phone tenantId now w) = next_id w.
Proof.
  unfold insert_global_opt_out. destruct (existsb _ _); repeat split.
Qed.

Lemma insert_global_opt_out_only_list phone tenantId now w w' :
  global_opt_outs w' = global_opt_outs w ->
  global_opt_outs (insert_global_opt_out phone tenantId now w')
  = global_opt_outs (insert_global_opt_out phone tenantId now w).
Proof.
  intros E. unfold insert_global_opt_out. rewrite E.
  destruct (existsb _ (global_opt_outs w)); [exact E | reflexivity].
Qed.

(** What a call of [processOptOut] on the SMS channel leaves behind. *)
Lemma processOptOut_sms_run now tenantId phone method sourceMessageId w :
  exists w1,
    processOptOut now tenantId phone sms method sourceMessageId w
    = (Returned (OptSuccess
                   match contacts_by_phone w tenantId (normalizePhone phone) with
                   | first :: _ => Some (Contact.id first)
                   | [] => None
                   end), w1) /\
    contacts w1 =
      match contacts_by_phone w tenantId (normalizePhone phone) with
      | first :: _ =>
          map (fun c => if Nat.eqb (Contact.tenant_id c) tenantId
                           && Nat.eqb (Contact.id c) (Contact.id first)
                        then set_opted_out sms now c else c) (contacts w)
      | [] => contacts w
      end /\
    locations w1 = locations w /\
    messages w1 = messages w /\
    opt_out_log w1 =
      (opt_out_log w ++
       [{| OptOutLog.tenant_id := tenantId;
           OptOutLog.contact_id :=
             match contacts_by_phone w tenantId (normalizePhone phone) with
             | first :: _ => Some (Contact.id first)
             | [] => None
             end;
           OptOutLog.channel := sms; OptOutLog.address := normalizePhone phone;
           OptOutLog.action := OptOutLog.opt_out; OptOutLog.method := method;
           OptOutLog.source_message_id := sourceMessageId;
           OptOutLog.created_at := now |}])%list /\
    global_opt_outs w1
    = global_opt_outs (insert_global_opt_out (normalizePhone phone) tenantId now w) /\
    smsQueue w1 = smsQueue w /\
    next_id w1 = next_id w.
Proof.
  unfold processOptOut, bind, get, ret, modify, log.
  destruct (contacts_by_phone w tenantId (normalizePhone phone)) as [|first rest];
    eexists; (split; [reflexivity|]);
    cbn [contacts locations messages opt_out_log global_opt_outs smsQueue next_id
         with_logger];
    match goal with
    | |- context [insert_global_opt_out ?p ?t ?n ?x] =>
        destruct (insert_global_opt_out_frame p t n x) as (F1 & F2 & F3 & F4 & F5 & F6 & F7);
        rewrite ?F1, ?F2, ?F3, ?F4, ?F5, ?F7
    end;
    (split; [reflexivity|]); (split; [reflexivity|]); (split; [reflexivity|]);
    (split; [reflexivity|]);
    (split; [apply insert_global_opt_out_only_list; reflexivity|]);
    split; reflexivity.
Qed.

Lemma contacts_by_phone_member w tenantId phone first rest :
  contacts_by_phone w tenantId phone = first :: rest ->
  In first (contacts w) /\ Contact.tenant_id first = tenantId
  /\ Contact.phone first = Some phone.
Proof.
  intros H.
  assert (Hin : In first (contacts_by_phone w tenantId phone)) by (rewrite H; now left).
  unfold contacts_by_phone in Hin. apply filter_In in Hin. destruct Hin as [Hin Hb].
  apply andb_true_iff in Hb. destruct Hb as [Ht Hp].
  apply Nat.eqb_eq in Ht. split; [exact Hin|]. split; [exact Ht|].
  destruct (Contact.phone first) as [p|]; [|discriminate].
  cbn in Hp. apply String.eqb_eq in Hp. now subst.
Qed.

(** An evaluation with a failing opt-out check or a failing global check is
    not approved and lists the reason. *)
Lemma sms_reasons_not_approved env now w tenantId contactId c q reason :
  select_contact w tenantId contactId = Some c ->
  checkQuietHours env now c = Returned q ->
  In reason (sms_reasons env now w tenantId contactId c q) ->
  exists evaluation,
    checkMessage env now w tenantId contactId sms = Returned evaluation /\
    cr_approved evaluation = false /\
    In reason (cr_reasons evaluation).
Proof.
  intros Hc Hq Hin.
  destruct (checkMessage_sms_found _ _ _ tenantId contactId _ _ Hc Hq)
    as (evaluation & Hev & Hr & _ & Ha).
  exists evaluation. split; [exact Hev|]. split; [|now rewrite Hr].
  rewrite Ha. destruct (sms_reasons env now w tenantId contactId c q); [destruct Hin|].
  reflexivity.
Qed.

(** X7: once [processOptOut] has run on the SMS channel for the phone of a
    contact whose zone the runtime knows, every later dispatch to that
    contact is finalized as blocked with the reason 'Contact has opted out
    of SMS', at any time of day, and writes no [messages] row. *)
Theorem opt_out_blocks_dispatch env now now' tenantId raw method src w first rest r w1 job :
  contacts_by_phone w tenantId (normalizePhone raw) = first :: rest ->
  processOptOut now tenantId raw sms method src w = (r, w1) ->
  (forall c, select_contact w1 tenantId (Contact.id first) = Some c ->
             knownZone env (resolve_timezone c) = true) ->
  quiet_end_parses (config env) = true ->
  jd_tenantId (job_data job) = tenantId ->
  jd_contactId (job_data job) = Contact.id first ->
  exists reasons w2,
    startSMSWorker_processor env now' job w1 = (Returned (SendBlocked reasons), w2) /\
    In "Contact has opted out of SMS" reasons /\
    messages w2 = messages w /\
    smsQueue w2 = smsQueue w.
Proof.
  intros Hfound Hrun Hzone Hparse Ht Hid.
  destruct (processOptOut_sms_run now tenantId raw method src w)
    as (w1' & Hrun' & Hcs & Hls & Hms & _ & _ & Hqs & _).
  rewrite Hrun' in Hrun. injection Hrun as _ <-.
  rewrite Hfound in Hcs.
  destruct (contacts_by_phone_member _ _ _ _ _ Hfound) as (Hin & Hten & _).
  set (p := fun c => Nat.eqb (Contact.tenant_id c) tenantId
                     && Nat.eqb (Contact.id c) (Contact.id first)).
  set (g := fun c => if p c then set_opted_out sms now c else c).
  assert (Hpg : forall x, p (g x) = p x).
  { intros x. unfold g. destruct (p x) eqn:E; [|exact E]. exact E. }
  destruct (find_of_member p (contacts w) first Hin) as (y & Hy & Hpy).
  { unfold p. now rewrite Hten, !Nat.eqb_refl. }
  assert (Hsel : exists c, select_contact w1' tenantId (Contact.id first) = Some c
                           /\ Contact.sms_opted_out (contact c) = Some true).
  { unfold select_contact. rewrite Hcs, Hls.
    change (find _ (map _ (contacts w))) with (find p (map g (contacts w))).
    rewrite (find_map_preserve p g _ Hpg), Hy. cbn [option_map].
    eexists. split; [reflexivity|]. cbn [contact]. unfold g. rewrite Hpy. reflexivity. }
  destruct Hsel as (c & Hsel & Hflag).
  destruct (checkQuietHours_returns env now' c (Hzone c Hsel) Hparse) as (q & Hq).
  destruct (sms_reasons_not_approved env now' w1' tenantId (Contact.id first) c q
              "Contact has opted out of SMS" Hsel Hq)
    as (evaluation & Hev & Hn & Hr).
  { unfold sms_reasons. apply in_or_app. right. apply in_or_app. left.
    unfold checkOptOut. rewrite Hflag. now left. }
  exists (cr_reasons evaluation). eexists. split.
  - apply worker_not_approved; [rewrite Ht, Hid; exact Hev | exact Hn].
  - split; [exact Hr|]. cbn [messages smsQueue with_logger]. now split.
Qed.

Lemma opt_out_blocks_dispatch_witness :
  exists reasons w2,
    startSMSWorker_processor example_env example_morning example_job
      (snd (processOptOut example_night 7%nat "(415) 555-1212" sms "keyword_reply" None
                          (example_world true)))
    = (Returned (SendBlocked reasons), w2) /\
    In "Contact has opted out of SMS" reasons /\
    messages w2 = [] /\
    smsQueue w2 = [].
Proof.
  apply (opt_out_blocks_dispatch example_env example_night example_morning 7%nat
           "(415) 555-1212" "keyword_reply" None (example_world true)
           (example_contact true) []
           (fst (processOptOut example_night 7%nat "(415) 555-1212" sms "keyword_reply" None
                               (example_world true)))
           _ example_job).
  - reflexivity.
  - apply surjective_pairing.
  - intros c Hc. vm_compute in Hc. injection Hc as <-. reflexivity.
  - reflexivity.
  - reflexivity.
  - reflexivity.
Defined.

(** X8: once [processOptOut] has run on the SMS channel for a phone, the
    evaluation of every contact of every tenant whose phone normalizes to
    the same number, in a zone the runtime knows, is not approved and lists
    'Phone number on global opt-out list' - whether or not the opting-out
    tenant knew the phone. *)
Theorem opt_out_blocks_every_tenant env now now' tenantId raw method src w r w1
    tenant2 contactId c p :
  processOptOut now tenantId raw sms method src w = (r, w1) ->
  quiet_end_parses (config env) = true ->
  select_contact w1 tenant2 contactId = Some c ->
  knownZone env (resolve_timezone c) = true ->
  Contact.phone (contact c) = Some p ->
  p <> "" ->
  normalizePhone p = normalizePhone raw ->
  exists evaluation,
    checkMessage env now' w1 tenant2 contactId sms = Returned evaluation /\
    cr_approved evaluation = false /\
    In "Phone number on global opt-out list" (cr_reasons evaluation).
Proof.
  intros Hrun Hparse Hsel Hzone Hp Hne Hnorm.
  destruct (processOptOut_sms_run now tenantId raw method src w)
    as (w1' & Hrun' & _ & _ & _ & _ & Hg & _).
  rewrite Hrun' in Hrun. injection Hrun as _ <-.
  destruct (checkQuietHours_returns env now' c Hzone Hparse) as (q & Hq).
  apply (sms_reasons_not_approved env now' w1' tenant2 contactId c q _ Hsel Hq).
  unfold sms_reasons. rewrite Hp.
  destruct p as [|a p']; [congruence|].
  do 3 (apply in_or_app; right). apply in_or_app. left.
  assert (Hlisted : approved (checkGlobalOptOut w1' (String a p')) = false).
  { destruct (approved (checkGlobalOptOut w1' (String a p'))) eqn:E; [|reflexivity].
    exfalso. rewrite checkGlobalOptOut_approved in E.
    destruct (insert_global_opt_out_listed (normalizePhone raw) tenantId now w)
      as (g & Hin & Hgp).
    rewrite <- Hg in Hin. apply (E g Hin). congruence. }
  unfold failed_reasons. rewrite Hlisted.
  unfold checkGlobalOptOut in *. destruct (_ <? _)%nat; [now left | discriminate].
Qed.

Lemma opt_out_blocks_every_tenant_witness :
  exists evaluation,
    checkMessage example_env example_morning
      (snd (processOptOut example_night 7%nat "(415) 555-1212" sms "keyword_reply" None
                          example_two_tenants))
      9%nat 5%nat sms = Returned evaluation /\
    cr_approved evaluation = false /\
    In "Phone number on global opt-out list" (cr_reasons evaluation).
Proof.
  apply (opt_out_blocks_every_tenant example_env example_night example_morning 7%nat
           "(415) 555-1212" "keyword_reply" None example_two_tenants
           (fst (processOptOut example_night 7%nat "(415) 555-1212" sms "keyword_reply" None
                               example_two_tenants))
           _ 9%nat 5%nat
           {| contact := example_other_tenant_contact; state := None;
              location_timezone := None |}
           "+14155551212").
  - apply surjective_pairing.
  - reflexivity.
  - vm_compute. reflexivity.
  - reflexivity.
  - reflexivity.
  - discriminate.
  - vm_compute. reflexivity.
Defined.

Lemma processOptIn_sms_run now tenantId phone method w first rest :
  contacts_by_phone w tenantId (normalizePhone phone) = first :: rest ->
  exists w2,
    processOptIn now tenantId phone sms method w
    = (Returned (OptSuccess (Some (Contact.id first))), w2) /\
    contacts w2 =
      map (fun c => if Nat.eqb (Contact.tenant_id c) tenantId
                       && Nat.eqb (Contact.id c) (Contact.id first)
                    then set_opted_in sms now c else c) (contacts w) /\
    locations w2 = locations w /\
    messages w2 = messages w /\
    opt_out_log w2 =
      (opt_out_log w ++
       [{| OptOutLog.tenant_id := tenantId;
           OptOutLog.contact_id := Some (Contact.id first);
           OptOutLog.channel := sms; OptOutLog.address := normalizePhone phone;
           OptOutLog.action := OptOutLog.opt_in; OptOutLog.method := method;
           OptOutLog.source_message_id := None;
           OptOutLog.created_at := now |}])%list /\
    global_opt_outs w2
    = filter (fun g => negb (String.eqb (GlobalOptOut.phone g) (normalizePhone phone)))
             (global_opt_outs w).
Proof.
  intros Hfound. unfold processOptIn, bind, get, ret, modify, log. rewrite Hfound.
  eexists. split; [reflexivity|]. repeat split.
Qed.

Lemma contacts_by_phone_after_update w tenantId phone (g : Contact.row -> Contact.row)
    (own : Contact.row -> bool) cs :
  (forall c, Contact.tenant_id (g c) = Contact.tenant_id c
             /\ Contact.phone (g c) = Contact.phone c) ->
  cs = map (fun c => if own c then g c else c) (contacts w) ->
  filter (fun c => Nat.eqb (Contact.tenant_id c) tenantId
                   && option_string_eqb (Contact.phone c) phone) cs
  = map (fun c => if own c then g c else c) (contacts_by_phone w tenantId phone).
Proof.
  intros Hg ->. unfold contacts_by_phone. apply filter_map_preserve.
  intros c. destruct (own c); [|reflexivity].
  destruct (Hg c) as [-> ->]. reflexivity.
Qed.

(** X9: an opt-out followed by an opt-in for the phone of a contact puts the
    contact back in a sendable state: the opt-out flag is cleared, consent is
    set with the time of the opt-in, no row of the global opt-out list holds
    the phone any more, and the audit log has gained the opt-out row and the
    opt-in row, in that order. *)
Theorem opt_in_undoes_opt_out now now2 tenantId raw method src method2 w first rest
    r1 w1 r2 w2 :
  contacts_by_phone w tenantId (normalizePhone raw) = first :: rest ->
  processOptOut now tenantId raw sms method src w = (r1, w1) ->
  processOptIn now2 tenantId raw sms method2 w1 = (r2, w2) ->
  r2 = Returned (OptSuccess (Some (Contact.id first))) /\
  (forall g, In g (global_opt_outs w2) -> GlobalOptOut.phone g <> normalizePhone raw) /\
  (forall c, In c (contacts w2) -> Contact.tenant_id c = tenantId ->
             Contact.id c = Contact.id first ->
             Contact.sms_opted_out c = Some false /\
             Contact.sms_consent c = Some true /\
             Contact.sms_consent_at c = Some now2) /\
  List.length (contacts w2) = List.length (contacts w) /\
  map OptOutLog.action (opt_out_log w2)
  = (map OptOutLog.action (opt_out_log w) ++ [OptOutLog.opt_out; OptOutLog.opt_in])%list.
Proof.
  intros Hfound Hrun1 Hrun2.
  destruct (processOptOut_sms_run now tenantId raw method src w)
    as (w1' & Hrun1' & Hcs & _ & _ & Hlog & _).
  rewrite Hrun1' in Hrun1. injection Hrun1 as _ <-.
  rewrite Hfound in Hcs.
  assert (Hfound1 : contacts_by_phone w1' tenantId (normalizePhone raw)
                    = map (fun c => if Nat.eqb (Contact.tenant_id c) tenantId
                                       && Nat.eqb (Contact.id c) (Contact.id first)
                                    then set_opted_out sms now c else c)
                          (first :: rest)).
  { rewrite <- Hfound. unfold contacts_by_phone at 1.
    apply contacts_by_phone_after_update; [|exact Hcs]. intros c. split; reflexivity. }
  cbn [map] in Hfound1.
  destruct (contacts_by_phone_member _ _ _ _ _ Hfound) as (_ & Hten & _).
  rewrite Hten, !Nat.eqb_refl in Hfound1. cbn [andb] in Hfound1.
  destruct (processOptIn_sms_run now2 tenantId raw method2 w1' _ _ Hfound1)
    as (w2' & Hrun2' & Hcs2 & _ & _ & Hlog2 & Hg2).
  rewrite Hrun2' in Hrun2. injection Hrun2 as <- <-.
  cbn [set_opted_out Contact.id] in *.
  split; [reflexivity|]. split; [|split; [|split]].
  - intros g Hin. rewrite Hg2 in Hin. apply filter_In in Hin. destruct Hin as [_ Hb].
    apply negb_true_iff in Hb. now apply String.eqb_neq in Hb.
  - intros c Hin Ht Hi. rewrite Hcs2 in Hin. apply in_map_iff in Hin.
    destruct Hin as (c0 & <- & _).
    destruct (Nat.eqb (Contact.tenant_id c0) tenantId
              && Nat.eqb (Contact.id c0) (Contact.id first)) eqn:E.
    + repeat split.
    + apply andb_false_iff in E.
      destruct E as [E|E]; apply Nat.eqb_neq in E; congruence.
  - now rewrite Hcs2, Hcs, !length_map.
  - rewrite Hlog2, Hlog, !map_app. cbn [map OptOutLog.action].
    now rewrite <- app_assoc.
Qed.

Lemma opt_in_undoes_opt_out_witness :
  exists w2,
    processOptIn example_morning 7%nat "(415) 555-1212" sms "keyword_reply"
      (snd (processOptOut example_night 7%nat "(415) 555-1212" sms "keyword_reply" None
                          (example_world true)))
    = (Returned (OptSuccess (Some 1%nat)), w2) /\
    global_opt_outs w2 = [] /\
    map Contact.sms_opted_out (contacts w2) = [Some false] /\
    map OptOutLog.action (opt_out_log w2) = [OptOutLog.opt_out; OptOutLog.opt_in].
Proof.
  destruct (opt_in_undoes_opt_out example_night example_morning 7%nat "(415) 555-1212"
              "keyword_reply" None "keyword_reply" (example_world true)
              (example_contact true) []
              (fst (processOptOut example_night 7%nat "(415) 555-1212" sms "keyword_reply"
                                  None (example_world true)))
              (snd (processOptOut example_night 7%nat "(415) 555-1212" sms "keyword_reply"
                                  None (example_world true)))
              (fst (processOptIn example_morning 7%nat "(415) 555-1212" sms "keyword_reply"
                      (snd (processOptOut example_night 7%nat "(415) 555-1212" sms
                              "keyword_reply" None (example_world true)))))
              (snd (processOptIn example_morning 7%nat "(415) 555-1212" sms "keyword_reply"
                      (snd (processOptOut example_night 7%nat "(415) 555-1212" sms
                              "keyword_reply" None (example_world true))))))
    as (Hr & _ & _ & _ & Hlog).
  - reflexivity.
  - apply surjective_pairing.
  - apply surjective_pairing.
  - eexists. split; [|split; [|split]].
    + rewrite (surjective_pairing (processOptIn _ _ _ _ _ _)), Hr. reflexivity.
    + vm_compute. reflexivity.
    + vm_compute. reflexivity.
    + exact Hlog.
Defined.

(** X10: repeating an opt-out is harmless.  The second call returns what the
    first returned, leaves the global opt-out list and every contact's
    opt-out flag as the first call left them, and adds one more audit row. *)
Theorem opt_out_twice now now2 tenantId raw method src method2 src2 w r1 w1 r2 w2 :
  processOptOut now tenantId raw sms method src w = (r1, w1) ->
  processOptOut now2 tenantId raw sms method2 src2 w1 = (r2, w2) ->
  r2 = r1 /\
  global_opt_outs w2 = global_opt_outs w1 /\
  map Contact.sms_opted_out (contacts w2) = map Contact.sms_opted_out (contacts w1) /\
  map Contact.sms_consent (contacts w2) = map Contact.sms_consent (contacts w) /\
  List.length (opt_out_log w2) = S (S (List.length (opt_out_log w))).
Proof.
  intros Hrun1 Hrun2.
  destruct (processOptOut_sms_run now tenantId raw method src w)
    as (w1' & Hrun1' & Hcs & _ & _ & Hlog & Hg & _).
  rewrite Hrun1' in Hrun1. injection Hrun1 as <- <-.
  destruct (processOptOut_sms_run now2 tenantId raw method2 src2 w1')
    as (w2' & Hrun2' & Hcs2 & _ & _ & Hlog2 & Hg2 & _).
  rewrite Hrun2' in Hrun2. injection Hrun2 as <- <-.
  assert (Hglobal : global_opt_outs w2' = global_opt_outs w1').
  { rewrite Hg2. f_equal. apply insert_global_opt_out_present.
    rewrite Hg. apply insert_global_opt_out_listed. }
  assert (Hlen : List.length (opt_out_log w2') = S (S (List.length (opt_out_log w)))).
  { rewrite Hlog2, Hlog, !length_app. cbn [List.length]. lia. }
  destruct (contacts_by_phone w tenantId (normalizePhone raw)) as [|first rest] eqn:Hfound.
  - assert (Hfound1 : contacts_by_phone w1' tenantId (normalizePhone raw) = []).
    { unfold contacts_by_phone. rewrite Hcs. exact Hfound. }
    rewrite Hfound1 in *. repeat split; try assumption; now rewrite Hcs2, Hcs.
  - set (own := fun c => Nat.eqb (Contact.tenant_id c) tenantId
                         && Nat.eqb (Contact.id c) (Contact.id first)) in *.
    assert (Hfound1 : contacts_by_phone w1' tenantId (normalizePhone raw)
                      = map (fun c => if own c then set_opted_out sms now c else c)
                            (first :: rest)).
    { rewrite <- Hfound. unfold contacts_by_phone at 1.
      apply contacts_by_phone_after_update; [|exact Hcs]. intros c. split; reflexivity. }
    cbn [map] in Hfound1.
    assert (Hid : Contact.id (if own first then set_opted_out sms now first else first)
                  = Contact.id first) by (destruct (own first); reflexivity).
    rewrite Hfound1 in Hcs2 |- *. rewrite Hid in Hcs2 |- *. fold own in Hcs2.
    split; [reflexivity|]. split; [exact Hglobal|]. split; [|split; [|exact Hlen]].
    + rewrite Hcs2, Hcs, !map_map. apply map_ext. intros c.
      unfold own.
      destruct (Nat.eqb (Contact.tenant_id c) tenantId
                && Nat.eqb (Contact.id c) (Contact.id first)) eqn:E;
        cbn [set_opted_out Contact.tenant_id Contact.id]; rewrite ?E; reflexivity.
    + rewrite Hcs2, Hcs, !map_map. apply map_ext. intros c.
      unfold own.
      destruct (Nat.eqb (Contact.tenant_id c) tenantId
                && Nat.eqb (Contact.id c) (Contact.id first)) eqn:E;
        cbn [set_opted_out Contact.tenant_id Contact.id]; rewrite ?E; reflexivity.
Qed.

Lemma opt_out_twice_witness :
  global_opt_outs
    (snd (processOptOut example_morning 7%nat "(415) 555-1212" sms "manual" None
            (snd (processOptOut example_night 7%nat "(415) 555-1212" sms "keyword_reply" None
                                (example_world true)))))
  = global_opt_outs
      (snd (processOptOut example_night 7%nat "(415) 555-1212" sms "keyword_reply" None
                          (example_world true))) /\
  List.length
    (opt_out_log
       (snd (processOptOut example_morning 7%nat "(415) 555-1212" sms "manual" None
               (snd (processOptOut example_night 7%nat "(415) 555-1212" sms "keyword_reply"
                                   None (example_world true))))))
  = 2%nat.
Proof.
  destruct (opt_out_twice example_night example_morning 7%nat "(415) 555-1212"
              "keyword_reply" None "manual" None (example_world true)
              (fst (processOptOut example_night 7%nat "(415) 555-1212" sms "keyword_reply"
                                  None (example_world true)))
              (snd (processOptOut example_night 7%nat "(415) 555-1212" sms "keyword_reply"
                                  None (example_world true)))
              (fst (processOptOut example_morning 7%nat "(415) 555-1212" sms "manual" None
                      (snd (processOptOut example_night 7%nat "(415) 555-1212" sms
                              "keyword_reply" None (example_world true)))))
              (snd (processOptOut example_morning 7%nat "(415) 555-1212" sms "manual" None
                      (snd (processOptOut example_night 7%nat "(415) 555-1212" sms
                              "keyword_reply" None (example_world true))))))
    as (_ & Hg & _ & _ & Hl).
  - apply surjective_pairing.
  - apply surjective_pairing.
  - split; [exact Hg | exact Hl].
Defined.

(** *** The deferred dispatch *)

(** [parseInt] reads back the hour and the minute of an HH:MM value (checked
    on the 1440 minutes of a day). *)
Lemma hhmm_parse_table :
  forallb (fun e =>
             match parseInt (nth_error (split_colon (hhmm e)) 0),
                   parseInt (nth_error (split_colon (hhmm e)) 1) with
             | Some h, Some m => (h =? e / 60) && (m =? e mod 60)
             | _, _ => false
             end)
          (map Z.of_nat (seq 0 1440)) = true.
Proof. vm_compute. reflexivity. Qed.

Lemma hhmm_parse e :
  0 <= e < 1440 ->
  parseInt (nth_error (split_colon (hhmm e)) 0) = Some (e / 60) /\
  parseInt (nth_error (split_colon (hhmm e)) 1) = Some (e mod 60).
Proof.
  intros He. pose proof hhmm_parse_table as T.
  rewrite forallb_forall in T.
  assert (Hin : In e (map Z.of_nat (seq 0 1440))).
  { apply in_map_iff. exists (Z.to_nat e). split; [lia|]. apply in_seq. lia. }
  specialize (T e Hin).
  destruct (parseInt (nth_error (split_colon (hhmm e)) 0)) as [h|]; [|discriminate].
  destruct (parseInt (nth_error (split_colon (hhmm e)) 1)) as [m|]; [|discriminate].
  apply andb_true_iff in T. destruct T as [Th Tm].
  apply Z.eqb_eq in Th. apply Z.eqb_eq in Tm. now subst.
Qed.

(** X11: the instant attached to a deferral is a good time to dispatch.  With
    window bounds written HH:MM, and a zone whose offset is the same at both
    instants, the retry instant lies after now, less than 24 hours ahead, and
    the quiet-hours check passes at that instant. *)
Theorem retry_instant_outside_quiet_hours env now c q t s e :
  quietHours_start (config env) = hhmm s ->
  quietHours_end (config env) = hhmm e ->
  0 <= s < 1440 ->
  0 <= e < 1440 ->
  checkQuietHours env now c = Returned q ->
  retryAfter q = Some t ->
  utcOffset env (resolve_timezone c) t = utcOffset env (resolve_timezone c) now ->
  now < t < now + MS_PER_DAY /\
  checkQuietHours env t c = Returned check_passed.
Proof.
  intros Hs He Rs Re Hq Ht Hoff.
  destruct (hhmm_parse e Re) as [Ph Pm].
  pose proof (checkQuietHours_known_zone _ _ _ _ Hq) as Hz.
  pose proof Hq as Hq'. unfold checkQuietHours in Hq'.
  rewrite Hz in Hq'. cbn [negb] in Hq'.
  set (tz := resolve_timezone c) in *.
  set (offset := utcOffset env tz now * MS_PER_MINUTE) in *.
  destruct (inQuietHours _ _ _) eqn:Hin in Hq';
    [|injection Hq' as <-; discriminate].
  rewrite Hs, He, (inQuietHours_wall_clock s e (now + offset) Rs Re) in Hin.
  cbv zeta in Hin.
  assert (Hcur : (now + offset) mod MS_PER_DAY / MS_PER_MINUTE <> e).
  { intros E. rewrite E in Hin. destruct (Z.ltb_spec e s); lia. }
  assert (Hne : local_hour (now + offset) <> e / 60
                \/ local_minute (now + offset) <> e mod 60).
  { destruct (Z.eq_dec (local_hour (now + offset)) (e / 60)) as [E1|]; [|now left].
    right. intros E2. apply Hcur. revert E1 E2.
    unfold local_hour, local_minute, MS_PER_DAY, MS_PER_HOUR, MS_PER_MINUTE.
    Z.div_mod_to_equations. lia. }
  assert (Rh : 0 <= e / 60 < 24) by (Z.div_mod_to_equations; lia).
  assert (Rm : 0 <= e mod 60 < 60) by (Z.div_mod_to_equations; lia).
  rewrite <- He in Ph, Pm.
  pose proof (getQuietHoursEnd_general env now tz (e / 60) (e mod 60) Hz Ph Pm Rh Rm Hne)
    as G.
  fold offset in G.
  replace (e / 60 * 60 + e mod 60) with e in G by (Z.div_mod_to_equations; lia).
  rewrite G in Hq'. injection Hq' as <-. cbn [retryAfter] in Ht. injection Ht as <-.
  set (t := next_end_boundary offset e now + (now + offset) mod MS_PER_SECOND) in *.
  assert (Harith : now < t < now + MS_PER_DAY
                   /\ (t + offset) mod MS_PER_DAY / MS_PER_MINUTE = e).
  { unfold t, next_end_boundary. revert Hcur.
    unfold MS_PER_DAY, MS_PER_MINUTE, MS_PER_SECOND.
    destruct (Z.ltb_spec (now + offset)
                ((now + offset) - (now + offset) mod 86400000 + e * 60000));
      intros Hcur; Z.div_mod_to_equations; lia. }
  destruct Harith as [Hbound Hcur'].
  split; [exact Hbound|].
  unfold checkQuietHours. fold tz. rewrite Hz, Hoff. cbn [negb]. fold offset.
  rewrite Hs, He, (inQuietHours_wall_clock s e (t + offset) Rs Re). cbv zeta.
  rewrite Hcur'.
  replace (if e <? s then (s <=? e) || (e <? e) else (s <=? e) && (e <? e)) with false;
    [reflexivity|].
  destruct (Z.ltb_spec e s); lia.
Qed.

Lemma retry_instant_outside_quiet_hours_witness :
  exists q,
    checkQuietHours example_env example_night
      {| contact := example_contact true; state := None; location_timezone := None |}
    = Returned q /\
    retryAfter q = Some (example_morning + 500) /\
    example_night < example_morning + 500 < example_night + MS_PER_DAY /\
    checkQuietHours example_env (example_morning + 500)
      {| contact := example_contact true; state := None; location_timezone := None |}
    = Returned check_passed.
Proof.
  eexists. split; [vm_compute; reflexivity|]. split; [reflexivity|].
  apply (retry_instant_outside_quiet_hours example_env example_night
           {| contact := example_contact true; state := None; location_timezone := None |}
           {| approved := false; reasons := [quiet_reason];
              retryAfter := Some (example_morning + 500) |}
           (example_morning + 500) 1260 480).
  - reflexivity.
  - reflexivity.
  - lia.
  - lia.
  - vm_compute. reflexivity.
  - reflexivity.
  - reflexivity.
Defined.

(** *** Status webhooks *)

(** X12: [updateMessageStatus] fails on every call, before it reads a row: the
    server rejects the UPDATE for the two types of its first parameter, so
    the function throws whether or not a row has the id, whatever the status
    and whatever tenant the connection carries; no row, no campaign counter
    and no log line is written. *)
Theorem updateMessageStatus_always_rejected session now telnyxMessageId status
    errorMessage w :
  deduce_parameter_types update_status_parameters []
  = Thrown "inconsistent types deduced for parameter $1" /\
  updateMessageStatus session now telnyxMessageId status errorMessage w
  = (Thrown "inconsistent types deduced for parameter $1", w).
Proof.
  assert (Htypes : deduce_parameter_types update_status_parameters []
                   = Thrown "inconsistent types deduced for parameter $1")
    by (vm_compute; reflexivity).
  split; [exact Htypes|].
  unfold updateMessageStatus, bind, lift. rewrite Htypes. reflexivity.
Qed.

(** X13: none of the four handlers of status events changes the store: for
    'message.sent', 'message.finalized', 'message.delivered' and
    'message.failed' the handler throws the error of the rejected UPDATE and
    leaves every table as it was, so the status, the error title and the
    delivery time that the event carries are lost. *)
Theorem status_handlers_change_nothing session now payload_id to_status error_title
    error_detail w :
  handleMessageSent session now payload_id w
  = (Thrown "inconsistent types deduced for parameter $1", w) /\
  handleMessageFinalized session now payload_id to_status error_title w
  = (Thrown "inconsistent types deduced for parameter $1", w) /\
  handleMessageDelivered session now payload_id w
  = (Thrown "inconsistent types deduced for parameter $1", w) /\
  handleMessageFailed session now payload_id error_title error_detail w
  = (Thrown "inconsistent types deduced for parameter $1", w).
Proof.
  assert (Htypes : deduce_parameter_types update_status_parameters []
                   = Thrown "inconsistent types deduced for parameter $1")
    by (vm_compute; reflexivity).
  unfold handleMessageSent, handleMessageFinalized, handleMessageDelivered,
    handleMessageFailed, updateMessageStatus, bind, lift.
  rewrite Htypes. repeat split.
Qed.

(** X14: [updateCampaignStats], called with a status string that is not an
    inherited name, adds one to the counter of the status - [sent_count] for
    'sent', [delivered_count] for 'delivered', [failed_count] for 'failed' -
    on the campaign of the tenant with the given id, and changes nothing for
    any other status; the other campaigns, the other columns and the other
    tables stay as they were. *)
Theorem updateCampaignStats_counts tenantId campaignId status w :
  mem_string status inherited_names = false ->
  exists w',
    updateCampaignStats tenantId campaignId (JsString status) w = (Returned tt, w') /\
    messages w' = messages w /\
    contacts w' = contacts w /\
    forall i c, nth_error (campaigns w) i = Some c ->
      exists c', nth_error (campaigns w') i = Some c' /\
        if Nat.eqb (Campaign.tenant_id c) tenantId && Nat.eqb (Campaign.id c) campaignId
        then Campaign.sent_count c'
             = Campaign.sent_count c + (if String.eqb status "sent" then 1 else 0) /\
             Campaign.delivered_count c'
             = Campaign.delivered_count c + (if String.eqb status "delivered" then 1 else 0) /\
             Campaign.failed_count c'
             = Campaign.failed_count c + (if String.eqb status "failed" then 1 else 0) /\
             Campaign.status c' = Campaign.status c /\
             Campaign.total_recipients c' = Campaign.total_recipients c
        else c' = c.
Proof.
  intros Hname. unfold updateCampaignStats, property, fieldMap, assoc.
  destruct (String.eqb_spec status "sent") as [-> | N1];
    [|destruct (String.eqb_spec status "delivered") as [-> | N2];
      [|destruct (String.eqb_spec status "failed") as [-> | N3]]].
  4: rewrite Hname.
  all: unfold modify, ret; eexists; (split; [reflexivity|]);
    (split; [reflexivity|]); (split; [reflexivity|]).
  all: intros i c Hi; cbn [campaigns update_campaigns with_campaigns];
    rewrite ?nth_error_map, Hi; cbn [option_map]; eexists; (split; [reflexivity|]).
  all: destruct (Nat.eqb (Campaign.tenant_id c) tenantId
                 && Nat.eqb (Campaign.id c) campaignId); [|reflexivity].
  all: cbn; repeat split; lia.
Qed.

Lemma updateCampaignStats_counts_witness :
  exists w',
    updateCampaignStats 7%nat 20%nat (JsString "delivered") example_campaign_store
    = (Returned tt, w') /\
    map Campaign.delivered_count (campaigns w') = [1] /\
    map Campaign.sent_count (campaigns w') = [1].
Proof.
  destruct (updateCampaignStats_counts 7%nat 20%nat "delivered" example_campaign_store
              eq_refl) as (w' & Hrun & _ & _ & Hc).
  exists w'. split; [exact Hrun|].
  destruct (Hc 0%nat example_campaign eq_refl) as (c' & Hn & Hs & Hd & _).
  assert (Hlen : List.length (campaigns w') = 1%nat).
  { vm_compute in Hrun. injection Hrun as <-. reflexivity. }
  destruct (campaigns w') as [|c0 [|c1 l]]; try discriminate.
  cbn in Hn. injection Hn as ->. cbn [map]. rewrite Hs, Hd. split; reflexivity.
Defined.

(** *** Campaign expansion, the whole processor *)

Lemma for_each_skips {A : Type} (l : list A) (body : A -> M unit) w :
  (forall x w0, In x l -> body x w0 = (Returned tt, w0)) ->
  for_each l body w = (Returned tt, w).
Proof.
  revert w. induction l as [|x l IH]; intros w H; [reflexivity|].
  cbn [for_each]. unfold bind. rewrite (H x w (or_introl eq_refl)).
  apply IH. intros y w0 Hy. apply H. now right.
Qed.

(** X16: a campaign job whose campaign id no campaign of the tenant has -
    even when another tenant has one - throws 'Campaign not found' after one
    log line: no campaign is stamped and nothing is queued. *)
Theorem campaign_not_found env now tenantId campaignId w :
  (forall c, In c (campaigns w) -> Campaign.id c = campaignId ->
             Campaign.tenant_id c <> tenantId) ->
  startCampaignWorker_processor env now tenantId campaignId w
  = (Thrown "Campaign not found",
     with_logger w (logger w ++ [(info, "Processing campaign")])).
Proof.
  intros H. unfold startCampaignWorker_processor, bind, log, modify, get.
  cbn [campaigns with_logger].
  destruct (find _ (campaigns w)) as [c|] eqn:E; [|reflexivity].
  apply find_some in E. destruct E as [Hin Hb].
  apply andb_true_iff in Hb. destruct Hb as [Ht Hi].
  apply Nat.eqb_eq in Ht. apply Nat.eqb_eq in Hi. now destruct (H c Hin Hi).
Qed.

Lemma campaign_not_found_witness :
  startCampaignWorker_processor example_env example_morning 9%nat 20%nat
    example_campaign_store
  = (Thrown "Campaign not found",
     with_logger example_campaign_store [(info, "Processing campaign")]).
Proof.
  apply (campaign_not_found example_env example_morning 9%nat 20%nat example_campaign_store).
  intros c [<-|[]] _. cbn. discriminate.
Defined.

(** X17: a campaign of kind email or both is expanded without a single job:
    the processor counts the recipients, stamps the campaign 'sending' and
    then 'sent' with that count and the current time, and queues no SMS -
    the loop only queues for the kind sms. *)
Theorem campaign_not_sms_queues_nothing env now tenantId campaignId w campaign :
  find (fun c => Nat.eqb (Campaign.tenant_id c) tenantId
                 && Nat.eqb (Campaign.id c) campaignId) (campaigns w) = Some campaign ->
  Campaign.type campaign <> campaign_sms ->
  exists w',
    startCampaignWorker_processor env now tenantId campaignId w
    = (Returned (Z.of_nat (List.length (recipientQuery w tenantId campaign))), w') /\
    smsQueue w' = smsQueue w /\
    messages w' = messages w /\
    forall i c, nth_error (campaigns w) i = Some c ->
      exists c', nth_error (campaigns w') i = Some c' /\
        if Nat.eqb (Campaign.tenant_id c) tenantId && Nat.eqb (Campaign.id c) campaignId
        then Campaign.status c' = "sent" /\
             Campaign.total_recipients c'
             = Z.of_nat (List.length (recipientQuery w tenantId campaign)) /\
             Campaign.started_at c' = Some now /\
             Campaign.completed_at c' = Some now
        else c' = c.
Proof.
  intros Hfind Htype.
  unfold startCampaignWorker_processor, bind, log at 1, modify at 1, get.
  cbn [campaigns with_logger]. rewrite Hfind.
  unfold log, modify.
  rewrite for_each_skips.
  2:{ intros x w0 _. destruct (Campaign.type campaign); try reflexivity.
      now destruct Htype. }
  eexists. split; [reflexivity|]. split; [reflexivity|]. split; [reflexivity|].
  intros i c Hi.
  cbn [campaigns update_campaigns with_campaigns with_logger].
  rewrite !nth_error_map, Hi. cbn [option_map].
  eexists. split; [reflexivity|].
  destruct (Nat.eqb (Campaign.tenant_id c) tenantId && Nat.eqb (Campaign.id c) campaignId)
    eqn:E; [|now rewrite E].
  cbn [stamp_sending Campaign.tenant_id Campaign.id]. rewrite E.
  repeat split.
Qed.

Lemma campaign_not_sms_queues_nothing_witness :
  exists w' c',
    startCampaignWorker_processor example_env example_morning 7%nat 21%nat
      example_shop_with_campaigns = (Returned 1, w') /\
    smsQueue w' = [] /\
    nth_error (campaigns w') 0 = Some c' /\
    Campaign.status c' = "sent" /\
    Campaign.total_recipients c' = 1.
Proof.
  destruct (campaign_not_sms_queues_nothing example_env example_morning 7%nat 21%nat
              example_shop_with_campaigns example_campaign_both eq_refl)
    as (w' & Hrun & Hq & _ & Hc).
  - discriminate.
  - destruct (Hc 0%nat example_campaign_both eq_refl) as (c' & Hn & Hs & Ht & _).
    exists w', c'. repeat split; assumption.
Defined.

(** One call of [queueSMSWithQuietHours] for a contact the tenant has, in a
    zone the runtime knows: it returns, leaves the store as it was, and
    queues at most one job, for the data it was given. *)
Lemma queueSMSWithQuietHours_step env now data w :
  quiet_end_parses (config env) = true ->
  (exists c, select_contact w (jd_tenantId data) (jd_contactId data) = Some c
             /\ knownZone env (resolve_timezone c) = true) ->
  exists r w',
    queueSMSWithQuietHours env now data w = (Returned r, w') /\
    contacts w' = contacts w /\ locations w' = locations w /\
    campaigns w' = campaigns w /\ messages w' = messages w /\
    (smsQueue w' = smsQueue w
     \/ exists job, smsQueue w' = (smsQueue w ++ [job])%list /\ job_data job = data).
Proof.
  intros Hparse (c & Hsel & Hzone).
  destruct (checkQuietHours_returns env now c Hzone Hparse) as (q & Hq).
  destruct (checkMessage_sms_found env now w _ _ c q Hsel Hq)
    as (evaluation & Hev & _ & Hc & _).
  pose proof Hev as Hev'. unfold checkMessage in Hev'. rewrite Hsel, Hq in Hev'.
  cbn [obind] in Hev'. injection Hev' as Hshape.
  unfold queueSMSWithQuietHours, bind, get, lift. rewrite Hev.
  destruct (cr_approved evaluation).
  - cbn [negb]. unfold queueSMS, bind, fresh_id, modify, log, ret.
    do 2 eexists. split; [reflexivity|]. repeat split. right. eexists. split; reflexivity.
  - cbn [negb]. rewrite <- Hshape. cbn [cr_checks quietHours cr_contact cr_reasons].
    destruct (approved q).
    + cbn [negb]. do 2 eexists. split; [reflexivity|]. repeat split. now left.
    + cbn [negb]. rewrite Hq. destruct (retryAfter q) as [t|].
      * unfold queueSMS, bind, fresh_id, modify, log, ret.
        do 2 eexists. split; [reflexivity|]. repeat split. right.
        eexists. split; reflexivity.
      * do 2 eexists. split; [reflexivity|]. repeat split. now left.
Qed.

Lemma select_contact_frame w w' tenantId contactId :
  contacts w' = contacts w -> locations w' = locations w ->
  select_contact w' tenantId contactId = select_contact w tenantId contactId.
Proof. unfold select_contact. now intros -> ->. Qed.

Lemma select_contact_member w tenantId c :
  In c (contacts w) -> Contact.tenant_id c = tenantId ->
  exists row, select_contact w tenantId (Contact.id c) = Some row.
Proof.
  intros Hin Ht. unfold select_contact.
  destruct (find_of_member
              (fun x => Nat.eqb (Contact.tenant_id x) tenantId
                        && Nat.eqb (Contact.id x) (Contact.id c))
              (contacts w) c Hin) as (y & -> & _).
  - now rewrite Ht, !Nat.eqb_refl.
  - eexists. reflexivity.
Qed.

(** The loop of the campaign processor over recipients that are contacts of
    the tenant, in zones the runtime knows. *)
Lemma campaign_loop env now tenantId campaignId campaign w0 recipients :
  quiet_end_parses (config env) = true ->
  (forall r, In r recipients -> In r (contacts w0) /\ Contact.tenant_id r = tenantId) ->
  (forall r c, In r recipients -> truthy_string (Contact.phone r) = true ->
               select_contact w0 tenantId (Contact.id r) = Some c ->
               knownZone env (resolve_timezone c) = true) ->
  forall w,
    contacts w = contacts w0 -> locations w = locations w0 ->
    exists w' jobs,
      for_each recipients (fun recipient =>
        match Campaign.type campaign, truthy_string (Contact.phone recipient) with
        | campaign_sms, true =>
            queueSMSWithQuietHours env now
              {| jd_tenantId := tenantId;
                 jd_contactId := Contact.id recipient;
                 jd_locationId := Contact.primary_location_id recipient;
                 jd_content := Campaign.sms_content campaign;
                 jd_campaignId := Some campaignId |} ;;;
            ret tt
        | _, _ => ret tt
        end) w = (Returned tt, w') /\
      contacts w' = contacts w0 /\ locations w' = locations w0 /\
      campaigns w' = campaigns w /\ messages w' = messages w /\
      smsQueue w' = (smsQueue w ++ jobs)%list /\
      (List.length jobs <= List.length recipients)%nat /\
      forall job, In job jobs ->
        jd_tenantId (job_data job) = tenantId /\
        jd_campaignId (job_data job) = Some campaignId /\
        jd_content (job_data job) = Campaign.sms_content campaign /\
        exists r, In r recipients /\ jd_contactId (job_data job) = Contact.id r
                  /\ truthy_string (Contact.phone r) = true.
Proof.
  intros Hparse. induction recipients as [|x l IH]; intros Hrec Hzone w Hc Hl.
  - exists w, []. cbn [for_each]. unfold ret. rewrite app_nil_r.
    split; [reflexivity|]. split; [exact Hc|]. split; [exact Hl|].
    split; [reflexivity|]. split; [reflexivity|]. split; [reflexivity|].
    split; [reflexivity|]. intros j [].
  - assert (Hrec' : forall r, In r l -> In r (contacts w0) /\ Contact.tenant_id r = tenantId)
      by (intros r Hr; apply Hrec; now right).
    assert (Hzone' : forall r c, In r l -> truthy_string (Contact.phone r) = true ->
                                 select_contact w0 tenantId (Contact.id r) = Some c ->
                                 knownZone env (resolve_timezone c) = true)
      by (intros r c Hr; apply Hzone; now right).
    assert (Hskip :
              forall body_x : M unit,
                body_x w = (Returned tt, w) ->
                exists w' jobs,
                  (let (o, w1) := body_x w in
                   match o with
                   | Returned _ =>
                       for_each l (fun recipient =>
                         match Campaign.type campaign,
                               truthy_string (Contact.phone recipient) with
                         | campaign_sms, true =>
                             queueSMSWithQuietHours env now
                               {| jd_tenantId := tenantId;
                                  jd_contactId := Contact.id recipient;
                                  jd_locationId := Contact.primary_location_id recipient;
                                  jd_content := Campaign.sms_content campaign;
                                  jd_campaignId := Some campaignId |} ;;;
                             ret tt
                         | _, _ => ret tt
                         end) w1
                   | Thrown e => (Thrown e, w1)
                   end) = (Returned tt, w') /\
                  contacts w' = contacts w0 /\ locations w' = locations w0 /\
                  campaigns w' = campaigns w /\ messages w' = messages w /\
                  smsQueue w' = (smsQueue w ++ jobs)%list /\
                  (List.length jobs <= List.length (x :: l))%nat /\
                  forall job, In job jobs ->
                    jd_tenantId (job_data job) = tenantId /\
                    jd_campaignId (job_data job) = Some campaignId /\
                    jd_content (job_data job) = Campaign.sms_content campaign /\
                    exists r, In r (x :: l) /\ jd_contactId (job_data job) = Contact.id r
                              /\ truthy_string (Contact.phone r) = true).
    { intros body_x Hbody. rewrite Hbody.
      destruct (IH Hrec' Hzone' w Hc Hl)
        as (w' & jobs & Hloop & Hc' & Hl' & Hcp' & Hm' & Hq' & Hlen & Hjobs).
      exists w', jobs. split; [exact Hloop|].
      split; [exact Hc'|]. split; [exact Hl'|]. split; [exact Hcp'|].
      split; [exact Hm'|]. split; [exact Hq'|]. split; [cbn [List.length]; lia|].
      intros j Hj. destruct (Hjobs j Hj) as (J1 & J2 & J3 & r0 & Hr0 & Hid).
      split; [exact J1|]. split; [exact J2|]. split; [exact J3|].
      exists r0. split; [now right | exact Hid]. }
    cbn [for_each]. unfold bind at 1.
    destruct (Campaign.type campaign) eqn:Ety;
      [destruct (truthy_string (Contact.phone x)) eqn:Eph | |];
      try (apply Hskip; reflexivity).
    destruct (Hrec x (or_introl eq_refl)) as [Hin Hten].
    rewrite <- Hc in Hin.
    destruct (queueSMSWithQuietHours_step env now
                {| jd_tenantId := tenantId; jd_contactId := Contact.id x;
                   jd_locationId := Contact.primary_location_id x;
                   jd_content := Campaign.sms_content campaign;
                   jd_campaignId := Some campaignId |} w Hparse)
      as (r & w1 & Hrun & Hc1 & Hl1 & Hcp1 & Hm1 & Hq1).
    { cbn [jd_tenantId jd_contactId].
      destruct (select_contact_member w tenantId x Hin Hten) as (row & Hrow).
      exists row. split; [exact Hrow|].
      apply (Hzone x row (or_introl eq_refl) Eph).
      rewrite <- (select_contact_frame w0 w tenantId (Contact.id x) Hc Hl). exact Hrow. }
    unfold bind at 1. rewrite Hrun. unfold ret at 1.
    destruct (IH Hrec' Hzone' w1) as (w' & jobs & Hloop & Hc' & Hl' & Hcp' & Hm' & Hq' & Hlen & Hjobs);
      [congruence | congruence |].
    destruct Hq1 as [Hsame | (job1 & Happ & Hdata)].
    + exists w', jobs. split; [exact Hloop|].
      split; [exact Hc'|]. split; [exact Hl'|]. split; [congruence|].
      split; [congruence|]. split; [congruence|]. split; [cbn [List.length]; lia|].
      intros j Hj. destruct (Hjobs j Hj) as (J1 & J2 & J3 & r0 & Hr0 & Hid).
      split; [exact J1|]. split; [exact J2|]. split; [exact J3|].
      exists r0. split; [now right | exact Hid].
    + exists w', (job1 :: jobs). split; [exact Hloop|].
      split; [exact Hc'|]. split; [exact Hl'|]. split; [congruence|].
      split; [congruence|].
      split; [rewrite Hq', Happ, <- app_assoc; reflexivity|].
      split; [cbn [List.length]; lia|].
      intros j [<-|Hj].
      * rewrite Hdata. cbn [jd_tenantId jd_campaignId jd_content jd_contactId].
        split; [reflexivity|]. split; [reflexivity|]. split; [reflexivity|].
        exists x. split; [now left | now split].
      * destruct (Hjobs j Hj) as (J1 & J2 & J3 & r0 & Hr0 & Hid).
        split; [exact J1|]. split; [exact J2|]. split; [exact J3|].
        exists r0. split; [now right | exact Hid].
Qed.

Lemma recipientQuery_members w tenantId campaign r :
  In r (recipientQuery w tenantId campaign) ->
  In r (contacts w) /\ Contact.tenant_id r = tenantId.
Proof.
  unfold recipientQuery. intros H. apply filter_In in H. destruct H as [Hin Hb].
  split; [exact Hin|].
  repeat (apply andb_true_iff in Hb; destruct Hb as [Hb _]).
  now apply Nat.eqb_eq in Hb.
Qed.

(** X18: with a window end that parses, and every recipient that has a phone
    in a zone the runtime knows, the expansion of a campaign runs to the end:
    it returns the number of recipients and stamps the campaign 'sent' with
    that number.  The SMS queue grows by at most one job per
    recipient; every new job carries the tenant, the campaign id and the
    campaign's SMS content, and is for a recipient with a phone;
    [total_recipients] counts every recipient, queued or not.  No [messages]
    row and no contact is written. *)
Theorem campaign_expansion_completes env now tenantId campaignId w campaign :
  find (fun c => Nat.eqb (Campaign.tenant_id c) tenantId
                 && Nat.eqb (Campaign.id c) campaignId) (campaigns w) = Some campaign ->
  quiet_end_parses (config env) = true ->
  (forall r c, In r (recipientQuery w tenantId campaign) ->
               truthy_string (Contact.phone r) = true ->
               select_contact w tenantId (Contact.id r) = Some c ->
               knownZone env (resolve_timezone c) = true) ->
  exists w' jobs,
    startCampaignWorker_processor env now tenantId campaignId w
    = (Returned (Z.of_nat (List.length (recipientQuery w tenantId campaign))), w') /\
    smsQueue w' = (smsQueue w ++ jobs)%list /\
    (List.length jobs <= List.length (recipientQuery w tenantId campaign))%nat /\
    (forall job, In job jobs ->
       jd_tenantId (job_data job) = tenantId /\
       jd_campaignId (job_data job) = Some campaignId /\
       jd_content (job_data job) = Campaign.sms_content campaign /\
       exists r, In r (recipientQuery w tenantId campaign)
                 /\ jd_contactId (job_data job) = Contact.id r
                 /\ truthy_string (Contact.phone r) = true) /\
    messages w' = messages w /\
    contacts w' = contacts w /\
    forall i c, nth_error (campaigns w) i = Some c ->
      exists c', nth_error (campaigns w') i = Some c' /\
        if Nat.eqb (Campaign.tenant_id c) tenantId && Nat.eqb (Campaign.id c) campaignId
        then Campaign.status c' = "sent" /\
             Campaign.total_recipients c'
             = Z.of_nat (List.length (recipientQuery w tenantId campaign)) /\
             Campaign.completed_at c' = Some now
        else c' = c.
Proof.
  intros Hfind Hparse Hzone.
  unfold startCampaignWorker_processor, bind at 1, log at 1, modify at 1.
  unfold bind at 1, get. cbn [campaigns with_logger]. rewrite Hfind.
  unfold bind at 1, log at 1, modify at 1. unfold bind at 1, modify at 1.
  set (w1 := update_campaigns _ _ _).
  unfold bind at 1.
  destruct (campaign_loop env now tenantId campaignId campaign w
              (recipientQuery w tenantId campaign) Hparse
              (recipientQuery_members w tenantId campaign) Hzone w1 eq_refl eq_refl)
    as (w' & jobs & Hloop & Hc' & Hl' & Hcp' & Hm' & Hq' & Hlen & Hjobs).
  change (recipientQuery (with_logger w _) tenantId campaign)
    with (recipientQuery w tenantId campaign).
  rewrite Hloop. unfold bind, modify, ret.
  exists (update_campaigns
            (fun c => Nat.eqb (Campaign.tenant_id c) tenantId
                      && Nat.eqb (Campaign.id c) campaignId) (stamp_sent now) w'), jobs.
  split; [reflexivity|].
  cbn [smsQueue messages contacts campaigns update_campaigns with_campaigns].
  split; [exact Hq'|]. split; [exact Hlen|]. split; [exact Hjobs|].
  split; [exact Hm'|]. split; [exact Hc'|].
  intros i c Hi. rewrite Hcp'. unfold w1.
  cbn [campaigns update_campaigns with_campaigns with_logger].
  rewrite !nth_error_map, Hi. cbn [option_map].
  eexists. split; [reflexivity|].
  destruct (Nat.eqb (Campaign.tenant_id c) tenantId && Nat.eqb (Campaign.id c) campaignId)
    eqn:E; [|now rewrite E].
  cbn [stamp_sending Campaign.tenant_id Campaign.id]. rewrite E.
  repeat split.
Qed.

Lemma campaign_expansion_completes_witness :
  exists w' jobs,
    startCampaignWorker_processor example_env example_morning 7%nat 22%nat
      example_shop_with_campaigns = (Returned 2, w') /\
    smsQueue w' = jobs /\
    (List.length jobs <= 2)%nat /\
    messages w' = [].
Proof.
  destruct (campaign_expansion_completes example_env example_morning 7%nat 22%nat
              example_shop_with_campaigns example_campaign_sms eq_refl eq_refl)
    as (w' & jobs & Hrun & Hq & Hlen & _ & Hm & _).
  - intros r c Hr Hphone Hc. vm_compute in Hr.
    destruct Hr as [<- | [<- | []]]; vm_compute in Hc; injection Hc as <-; reflexivity.
  - exists w', jobs. repeat split; assumption.
Defined.

(** *** Zones the runtime does not know *)

Lemma checkMessage_unknown_zone env now w tenantId contactId c :
  select_contact w tenantId contactId = Some c ->
  knownZone env (resolve_timezone c) = false ->
  checkMessage env now w tenantId contactId sms
  = Thrown (invalid_time_zone (resolve_timezone c)).
Proof.
  intros Hsel Hz. unfold checkMessage.
  rewrite Hsel, (checkQuietHours_unknown_zone _ _ _ Hz). reflexivity.
Qed.

Lemma queueSMSWithQuietHours_unknown_zone env now data w c :
  select_contact w (jd_tenantId data) (jd_contactId data) = Some c ->
  knownZone env (resolve_timezone c) = false ->
  queueSMSWithQuietHours env now data w
  = (Thrown (invalid_time_zone (resolve_timezone c)), w).
Proof.
  intros Hsel Hz. unfold queueSMSWithQuietHours, bind, get, lift.
  rewrite (checkMessage_unknown_zone _ _ _ _ _ _ Hsel Hz). reflexivity.
Qed.

(** X25: for a contact whose zone name the runtime does not know, no
    evaluation completes, whatever the consent and opt-out state of the
    contact and whatever the time: [queueSMSWithQuietHours] throws the
    RangeError of the zone, and so does the worker, which makes the queue
    retry the job; nothing is queued, written or sent. *)
Theorem unknown_zone_fails_dispatch env now job w c :
  select_contact w (jd_tenantId (job_data job)) (jd_contactId (job_data job)) = Some c ->
  knownZone env (resolve_timezone c) = false ->
  queueSMSWithQuietHours env now (job_data job) w
  = (Thrown (invalid_time_zone (resolve_timezone c)), w) /\
  startSMSWorker_processor env now job w
  = (Thrown (invalid_time_zone (resolve_timezone c)),
     with_logger w (logger w ++ [(info, "Processing SMS job")])).
Proof.
  intros Hsel Hz. split.
  - now apply queueSMSWithQuietHours_unknown_zone.
  - unfold startSMSWorker_processor, bind, log at 1, modify.
    unfold sendMessage, bind, get, lift.
    rewrite checkMessage_with_logger, (checkMessage_unknown_zone _ _ _ _ _ _ Hsel Hz).
    reflexivity.
Qed.

Lemma unknown_zone_fails_dispatch_witness :
  queueSMSWithQuietHours example_env example_morning (job_data example_old_zone_job)
                         example_old_zone_shop
  = (Thrown "RangeError: Invalid time zone specified: US/Pacific-New",
     example_old_zone_shop) /\
  startSMSWorker_processor example_env example_morning example_old_zone_job
                           example_old_zone_shop
  = (Thrown "RangeError: Invalid time zone specified: US/Pacific-New",
     with_logger example_old_zone_shop
       (logger example_old_zone_shop ++ [(info, "Processing SMS job")])).
Proof.
  apply (unknown_zone_fails_dispatch example_env example_morning example_old_zone_job
           example_old_zone_shop
           {| contact := example_contact_old_zone; state := None;
              location_timezone := None |}).
  - reflexivity.
  - reflexivity.
Defined.

Lemma for_each_app {A : Type} (l1 l2 : list A) (body : A -> M unit) w :
  for_each (l1 ++ l2) body w
  = match for_each l1 body w with
    | (Returned _, w1) => for_each l2 body w1
    | (Thrown e, w1) => (Thrown e, w1)
    end.
Proof.
  revert w. induction l1 as [|x l1 IH]; intros w; [reflexivity|].
  cbn [app for_each]. unfold bind.
  destruct (body x w) as [[[]|e] w1]; [apply IH | reflexivity].
Qed.

(** X26: a campaign of kind sms with a recipient that has a phone and a zone
    name the runtime does not know is not expanded to the end.  The
    recipients before it are handled, then the processor throws the
    RangeError of the zone: the campaign stays 'sending' with the full count
    of recipients and is never stamped 'sent', and the recipients after it
    are not queued. *)
Theorem unknown_zone_stalls_campaign env now tenantId campaignId w campaign
    before x after c :
  find (fun c => Nat.eqb (Campaign.tenant_id c) tenantId
                 && Nat.eqb (Campaign.id c) campaignId) (campaigns w) = Some campaign ->
  Campaign.type campaign = campaign_sms ->
  quiet_end_parses (config env) = true ->
  recipientQuery w tenantId campaign = (before ++ x :: after)%list ->
  (forall r c, In r before -> truthy_string (Contact.phone r) = true ->
               select_contact w tenantId (Contact.id r) = Some c ->
               knownZone env (resolve_timezone c) = true) ->
  truthy_string (Contact.phone x) = true ->
  select_contact w tenantId (Contact.id x) = Some c ->
  knownZone env (resolve_timezone c) = false ->
  exists w' jobs,
    startCampaignWorker_processor env now tenantId campaignId w
    = (Thrown (invalid_time_zone (resolve_timezone c)), w') /\
    smsQueue w' = (smsQueue w ++ jobs)%list /\
    (List.length jobs <= List.length before)%nat /\
    (forall job, In job jobs ->
       exists r, In r before /\ jd_contactId (job_data job) = Contact.id r) /\
    messages w' = messages w /\
    forall i c0, nth_error (campaigns w) i = Some c0 ->
      exists c', nth_error (campaigns w') i = Some c' /\
        if Nat.eqb (Campaign.tenant_id c0) tenantId && Nat.eqb (Campaign.id c0) campaignId
        then Campaign.status c' = "sending" /\
             Campaign.total_recipients c'
             = Z.of_nat (List.length (before ++ x :: after)) /\
             Campaign.completed_at c' = Campaign.completed_at c0
        else c' = c0.
Proof.
  intros Hfind Hty Hparse Hrec Hzone Hphone Hsel Hz.
  assert (Hmembers : forall r, In r before ->
                               In r (contacts w) /\ Contact.tenant_id r = tenantId).
  { intros r Hr. apply (recipientQuery_members w tenantId campaign).
    rewrite Hrec. apply in_or_app. now left. }
  unfold startCampaignWorker_processor, bind at 1, log at 1, modify at 1.
  unfold bind at 1, get. cbn [campaigns with_logger]. rewrite Hfind.
  unfold bind at 1, log at 1, modify at 1. unfold bind at 1, modify at 1.
  set (w1 := update_campaigns _ _ _).
  unfold bind at 1.
  change (recipientQuery (with_logger w _) tenantId campaign)
    with (recipientQuery w tenantId campaign).
  rewrite Hrec, for_each_app.
  destruct (campaign_loop env now tenantId campaignId campaign w before Hparse
              Hmembers Hzone w1 eq_refl eq_refl)
    as (w2 & jobs & Hloop & Hc2 & Hl2 & Hcp2 & Hm2 & Hq2 & Hlen & Hjobs).
  rewrite Hloop. cbn [for_each]. unfold bind at 1. rewrite Hty, Hphone.
  unfold bind at 1.
  rewrite (queueSMSWithQuietHours_unknown_zone env now _ w2 c);
    [| cbn [jd_tenantId jd_contactId];
       rewrite (select_contact_frame w w2 tenantId (Contact.id x) Hc2 Hl2); exact Hsel
     | exact Hz].
  exists w2, jobs. split; [reflexivity|].
  split; [exact Hq2|]. split; [exact Hlen|].
  split.
  { intros job Hjob. destruct (Hjobs job Hjob) as (_ & _ & _ & r & Hr & Hid & _).
    exists r. now split. }
  split; [exact Hm2|].
  intros i c0 Hi. rewrite Hcp2. unfold w1.
  cbn [campaigns update_campaigns with_campaigns with_logger].
  rewrite nth_error_map, Hi. cbn [option_map].
  eexists. split; [reflexivity|].
  destruct (Nat.eqb (Campaign.tenant_id c0) tenantId && Nat.eqb (Campaign.id c0) campaignId);
    [|reflexivity].
  cbn [stamp_sending Campaign.status Campaign.total_recipients Campaign.completed_at].
  rewrite <- Hrec. repeat split.
Qed.

Lemma unknown_zone_stalls_campaign_witness :
  exists w' jobs,
    startCampaignWorker_processor example_env example_morning 7%nat 22%nat
                                  example_old_zone_shop
    = (Thrown "RangeError: Invalid time zone specified: US/Pacific-New", w') /\
    smsQueue w' = jobs /\
    (List.length jobs <= 1)%nat /\
    map Campaign.status (campaigns w') = ["scheduled"; "sending"].
Proof.
  destruct (unknown_zone_stalls_campaign example_env example_morning 7%nat 22%nat
              example_old_zone_shop example_campaign_sms
              [example_contact true] example_contact_old_zone
              [example_contact_without_phone]
              {| contact := example_contact_old_zone; state := None;
                 location_timezone := None |}
              eq_refl eq_refl eq_refl eq_refl)
    as (w' & jobs & Hrun & Hq & Hlen & _ & _ & Hc).
  - intros r c [<- | []] _ Hc. vm_compute in Hc. injection Hc as <-. reflexivity.
  - reflexivity.
  - reflexivity.
  - reflexivity.
  - exists w', jobs. split; [exact Hrun|]. split; [exact Hq|]. split; [exact Hlen|].
    destruct (Hc 0%nat example_campaign_both eq_refl) as (c0 & H0 & E0).
    destruct (Hc 1%nat example_campaign_sms eq_refl) as (c1 & H1 & E1 & _).
    cbn in E0. subst c0.
    assert (Hlen2 : List.length (campaigns w') = 2%nat).
    { vm_compute in Hrun. injection Hrun as <-. reflexivity. }
    destruct (campaigns w') as [|a [|b [|d l]]]; try discriminate.
    cbn in H0, H1. injection H0 as ->. injection H1 as ->.
    cbn [map]. rewrite E1. reflexivity.
Defined.

(** ** Inbound messages *)

Lemma normalizePhone_of_normalized (s : string) :
  normalizePhone (normalizePhone s) = normalizePhone s.
Proof.
  unfold normalizePhone.
  destruct (String.length (strip_non_digits s) =? 10)%nat eqn:E.
  - change (strip_non_digits ("+" ++ "1" ++ strip_non_digits s))
      with (String "1"%char (strip_non_digits (strip_non_digits s))).
    rewrite strip_non_digits_idem. cbn [String.length].
    apply Nat.eqb_eq in E. rewrite E. reflexivity.
  - change (strip_non_digits ("+" ++ strip_non_digits s))
      with (strip_non_digits (strip_non_digits s)).
    rewrite strip_non_digits_idem, E. reflexivity.
Qed.

Lemma find_none_of_all {A : Type} (p : A -> bool) (l : list A) :
  (forall x, In x l -> p x = false) -> find p l = None.
Proof.
  induction l as [|x l IH]; intros H; [reflexivity|].
  cbn [find]. rewrite (H x (or_introl eq_refl)).
  apply IH. intros y Hy. apply H. now right.
Qed.

(** What [handleInbound] does when the lookup of the destination number
    gives no row. *)
Lemma handleInbound_no_location session env now from to text telnyxMessageId w :
  find (fun l => session_sees session (Location.tenant_id l)
                 && option_string_eqb (Location.sms_phone_number l) (normalizePhone to))
       (locations w) = None ->
  handleInbound session env now from to text telnyxMessageId w
  = (Returned (InboundRejected "Unknown destination number"),
     with_logger w
       (logger w ++ [(info, "Inbound SMS received");
                     (warn, "Inbound SMS to unknown number")])).
Proof.
  intros Hnone.
  unfold handleInbound, bind, get, log, modify, ret.
  cbn [locations with_logger logger].
  rewrite Hnone, with_logger_twice. cbn [logger with_logger].
  rewrite <- app_assoc. reflexivity.
Qed.

(** X19: a message to a number that no location owns is dropped, whatever
    its text: [handleInbound] returns the error 'Unknown destination number'
    and changes nothing but the log - a STOP sent to such a number is neither
    stored nor recorded as an opt-out. *)
Theorem handleInbound_unknown_destination session env now from to text telnyxMessageId w :
  (forall l, In l (locations w) ->
             Location.sms_phone_number l <> Some (normalizePhone to)) ->
  handleInbound session env now from to text telnyxMessageId w
  = (Returned (InboundRejected "Unknown destination number"),
     with_logger w
       (logger w ++ [(info, "Inbound SMS received");
                     (warn, "Inbound SMS to unknown number")])).
Proof.
  intros Hnone. apply handleInbound_no_location, find_none_of_all.
  intros l Hl. specialize (Hnone l Hl).
  apply andb_false_iff. right.
  unfold option_string_eqb. destruct (Location.sms_phone_number l) as [p|]; [|reflexivity].
  apply String.eqb_neq. congruence.
Qed.

Lemma handleInbound_unknown_destination_witness :
  handleInbound (Some 7%nat) example_env example_morning "(415) 555-1212" "619-555-0199"
                "STOP" (Some "in-1") example_shop
  = (Returned (InboundRejected "Unknown destination number"),
     with_logger example_shop
       (logger example_shop ++ [(info, "Inbound SMS received");
                                (warn, "Inbound SMS to unknown number")])).
Proof.
  apply handleInbound_unknown_destination.
  intros l [<- | []]. vm_compute. discriminate.
Defined.

(** X15: the destination number is looked up on a connection that sets no
    tenant.  When that connection does not carry the tenant of the location
    that owns the number - it carries another tenant from an earlier query,
    or none - the policy on [locations] hides the row: the message is
    answered 'Unknown destination number' although the number is in use, and
    a STOP it carries is neither stored nor recorded as an opt-out. *)
Theorem handleInbound_needs_tenant_on_connection session env now from to text
    telnyxMessageId w :
  (forall l, In l (locations w) ->
             Location.sms_phone_number l = Some (normalizePhone to) ->
             session <> Some (Location.tenant_id l)) ->
  handleInbound session env now from to text telnyxMessageId w
  = (Returned (InboundRejected "Unknown destination number"),
     with_logger w
       (logger w ++ [(info, "Inbound SMS received");
                     (warn, "Inbound SMS to unknown number")])).
Proof.
  intros Hhidden. apply handleInbound_no_location, find_none_of_all.
  intros l Hl. specialize (Hhidden l Hl).
  destruct (option_string_eqb (Location.sms_phone_number l) (normalizePhone to)) eqn:Ephone;
    [|apply andb_false_r].
  apply andb_false_iff. left.
  unfold option_string_eqb in Ephone.
  destruct (Location.sms_phone_number l) as [p|]; [|discriminate].
  apply String.eqb_eq in Ephone. subst p. specialize (Hhidden eq_refl).
  unfold session_sees, option_uuid_eqb. destruct session as [t|]; [|reflexivity].
  apply Nat.eqb_neq. congruence.
Qed.

Lemma handleInbound_needs_tenant_on_connection_witness :
  In example_location (locations example_shop) /\
  Location.sms_phone_number example_location = Some (normalizePhone "619-555-0100") /\
  handleInbound (Some 9%nat) example_env example_morning "(415) 555-1212" "619-555-0100"
                "STOP" (Some "in-1") example_shop
  = (Returned (InboundRejected "Unknown destination number"),
     with_logger example_shop
       (logger example_shop ++ [(info, "Inbound SMS received");
                                (warn, "Inbound SMS to unknown number")])).
Proof.
  split; [now left|]. split; [reflexivity|].
  apply handleInbound_needs_tenant_on_connection.
  intros l [<- | []] _. discriminate.
Defined.

Lemma sendOptOutConfirmation_run env tenantId to from w :
  sendOptOutConfirmation env tenantId to from w
  = (Returned tt,
     with_logger w
       (logger w ++
        [match telnyx_create env
                 {| tp_to := to; tp_text := opt_out_confirmation_text;
                    tp_from := Some from; tp_messaging_profile_id := None |} with
         | Returned _ => (info, "Opt-out confirmation sent")
         | Thrown _ => (error, "Failed to send opt-out confirmation")
         end])).
Proof.
  unfold sendOptOutConfirmation, try_catch, bind, lift, log, modify.
  destruct (telnyx_create env _); reflexivity.
Qed.

Lemma sendOptInConfirmation_run env tenantId to from w :
  sendOptInConfirmation env tenantId to from w
  = (Returned tt,
     with_logger w
       (logger w ++
        [match telnyx_create env
                 {| tp_to := to; tp_text := opt_in_confirmation_text;
                    tp_from := Some from; tp_messaging_profile_id := None |} with
         | Returned _ => (info, "Opt-in confirmation sent")
         | Thrown _ => (error, "Failed to send opt-in confirmation")
         end])).
Proof.
  unfold sendOptInConfirmation, try_catch, bind, lift, log, modify.
  destruct (telnyx_create env _); reflexivity.
Qed.

(** What [handleInbound] leaves behind for an opt-out keyword, when the
    lookup on the connection finds the location of the destination number. *)
Lemma handleInbound_opt_out_run session env now from to text telnyxMessageId w l :
  find (fun l => session_sees session (Location.tenant_id l)
                 && option_string_eqb (Location.sms_phone_number l) (normalizePhone to))
       (locations w) = Some l ->
  isOptOutMessage (config env) text = true ->
  exists w',
    handleInbound session env now from to text telnyxMessageId w
    = (Returned (InboundKeyword OptOutLog.opt_out (next_id w)), w') /\
    contacts w' =
      match contacts_by_phone w (Location.tenant_id l) (normalizePhone from) with
      | first :: _ =>
          map (fun c => if Nat.eqb (Contact.tenant_id c) (Location.tenant_id l)
                           && Nat.eqb (Contact.id c) (Contact.id first)
                        then set_opted_out sms now c else c) (contacts w)
      | [] => contacts w
      end /\
    locations w' = locations w /\
    messages w' =
      (messages w ++
       [inbound_row (next_id w) (Location.tenant_id l)
          match contacts_by_phone w (Location.tenant_id l) (normalizePhone from) with
          | first :: _ => Some (Contact.id first)
          | [] => None
          end
          (Location.id l) (normalizePhone to) (normalizePhone from) text
          telnyxMessageId now])%list /\
    opt_out_log w' =
      (opt_out_log w ++
       [{| OptOutLog.tenant_id := Location.tenant_id l;
           OptOutLog.contact_id :=
             match contacts_by_phone w (Location.tenant_id l) (normalizePhone from) with
             | first :: _ => Some (Contact.id first)
             | [] => None
             end;
           OptOutLog.channel := sms; OptOutLog.address := normalizePhone from;
           OptOutLog.action := OptOutLog.opt_out; OptOutLog.method := "keyword_reply";
           OptOutLog.source_message_id := Some (next_id w);
           OptOutLog.created_at := now |}])%list /\
    global_opt_outs w'
    = global_opt_outs (insert_global_opt_out (normalizePhone from)
                                             (Location.tenant_id l) now w) /\
    smsQueue w' = smsQueue w.
Proof.
  intros Hfind Hkw.
  unfold handleInbound, bind, get, fresh_id, log, modify, ret.
  cbn [locations with_logger logger].
  rewrite Hfind, Hkw.
  match goal with
  | |- context [processOptOut ?a ?b ?c sms ?e ?f ?W] =>
      destruct (processOptOut_sms_run a b c e f W)
        as (w1 & Hrun & Hcs & Hls & Hms & Hlog & Hg & Hq & _);
      rewrite Hrun
  end.
  rewrite sendOptOutConfirmation_run.
  rewrite normalizePhone_of_normalized in Hcs, Hlog, Hg.
  unfold contacts_by_phone in Hcs, Hlog.
  cbn [contacts locations messages opt_out_log global_opt_outs smsQueue next_id
       with_logger with_messages with_next_id] in Hcs, Hls, Hms, Hlog, Hq.
  eexists. split; [reflexivity|].
  cbn [contacts locations messages opt_out_log global_opt_outs smsQueue
       with_logger].
  split; [exact Hcs|]. split; [exact Hls|]. split; [exact Hms|].
  split; [exact Hlog|]. split; [|exact Hq].
  rewrite Hg. apply insert_global_opt_out_only_list. reflexivity.
Qed.

(** X20: an opt-out keyword sent to the number of a location, on a
    connection that carries the tenant of that location, is stored as an
    inbound row and recorded as an opt-out whatever the provider answers to
    the confirmation: the audit log gains a row that points at the stored
    message, the phone is on the global opt-out list, the first contact of
    the tenant with that phone is flagged, and the confirmation itself leaves
    no [messages] row and no queue job. *)
Theorem handleInbound_opt_out_keyword session env now from to text telnyxMessageId w l :
  find (fun l => session_sees session (Location.tenant_id l)
                 && option_string_eqb (Location.sms_phone_number l) (normalizePhone to))
       (locations w) = Some l ->
  isOptOutMessage (config env) text = true ->
  exists w' contactId,
    session = Some (Location.tenant_id l) /\
    handleInbound session env now from to text telnyxMessageId w
    = (Returned (InboundKeyword OptOutLog.opt_out (next_id w)), w') /\
    messages w' =
      (messages w ++
       [inbound_row (next_id w) (Location.tenant_id l) contactId
          (Location.id l) (normalizePhone to) (normalizePhone from) text
          telnyxMessageId now])%list /\
    opt_out_log w' =
      (opt_out_log w ++
       [{| OptOutLog.tenant_id := Location.tenant_id l;
           OptOutLog.contact_id := contactId;
           OptOutLog.channel := sms; OptOutLog.address := normalizePhone from;
           OptOutLog.action := OptOutLog.opt_out; OptOutLog.method := "keyword_reply";
           OptOutLog.source_message_id := Some (next_id w);
           OptOutLog.created_at := now |}])%list /\
    (exists g, In g (global_opt_outs w') /\ GlobalOptOut.phone g = normalizePhone from) /\
    (forall first rest,
       contacts_by_phone w (Location.tenant_id l) (normalizePhone from) = first :: rest ->
       contactId = Some (Contact.id first) /\
       List.length (contacts w') = List.length (contacts w) /\
       forall c, In c (contacts w') ->
                 Contact.tenant_id c = Location.tenant_id l ->
                 Contact.id c = Contact.id first ->
                 Contact.sms_opted_out c = Some true /\
                 Contact.sms_opted_out_at c = Some now) /\
    (contacts_by_phone w (Location.tenant_id l) (normalizePhone from) = [] ->
     contactId = None /\ contacts w' = contacts w) /\
    smsQueue w' = smsQueue w.
Proof.
  intros Hfind Hkw.
  destruct (handleInbound_opt_out_run session env now from to text telnyxMessageId w l
              Hfind Hkw)
    as (w' & Hrun & Hcs & _ & Hms & Hlog & Hg & Hq).
  exists w'. eexists. split.
  { apply find_some in Hfind. destruct Hfind as [_ Hb].
    apply andb_true_iff in Hb. destruct Hb as [Hb _].
    unfold session_sees, option_uuid_eqb in Hb. destruct session as [t|]; [|discriminate].
    apply Nat.eqb_eq in Hb. now subst t. }
  split; [exact Hrun|]. split; [exact Hms|]. split; [exact Hlog|].
  split; [|split; [|split; [|exact Hq]]].
  - rewrite Hg. apply insert_global_opt_out_listed.
  - intros first rest Hfound. rewrite Hfound in Hcs |- *.
    split; [reflexivity|]. split; [rewrite Hcs; apply length_map|].
    intros c Hin Ht Hi. rewrite Hcs in Hin. apply in_map_iff in Hin.
    destruct Hin as (c0 & <- & _).
    destruct (Nat.eqb (Contact.tenant_id c0) (Location.tenant_id l)
              && Nat.eqb (Contact.id c0) (Contact.id first)) eqn:E.
    + split; reflexivity.
    + apply andb_false_iff in E. destruct E as [E | E]; apply Nat.eqb_neq in E; contradiction.
  - intros Hnone. rewrite Hnone in Hcs |- *. split; [reflexivity | exact Hcs].
Qed.

Lemma handleInbound_opt_out_keyword_witness :
  exists w' contactId,
    Some 7%nat = Some (Location.tenant_id example_location) /\
    handleInbound (Some 7%nat) failing_env example_morning "(415) 555-1212" "619-555-0100"
                  " stop " (Some "in-1") example_shop
    = (Returned (InboundKeyword OptOutLog.opt_out (next_id example_shop)), w') /\
    messages w' =
      (messages example_shop ++
       [inbound_row (next_id example_shop) (Location.tenant_id example_location) contactId
          (Location.id example_location) (normalizePhone "619-555-0100")
          (normalizePhone "(415) 555-1212") " stop " (Some "in-1") example_morning])%list /\
    opt_out_log w' =
      (opt_out_log example_shop ++
       [{| OptOutLog.tenant_id := Location.tenant_id example_location;
           OptOutLog.contact_id := contactId;
           OptOutLog.channel := sms;
           OptOutLog.address := normalizePhone "(415) 555-1212";
           OptOutLog.action := OptOutLog.opt_out; OptOutLog.method := "keyword_reply";
           OptOutLog.source_message_id := Some (next_id example_shop);
           OptOutLog.created_at := example_morning |}])%list /\
    (exists g, In g (global_opt_outs w')
               /\ GlobalOptOut.phone g = normalizePhone "(415) 555-1212") /\
    (forall first rest,
       contacts_by_phone example_shop (Location.tenant_id example_location)
                         (normalizePhone "(415) 555-1212") = first :: rest ->
       contactId = Some (Contact.id first) /\
       List.length (contacts w') = List.length (contacts example_shop) /\
       forall c, In c (contacts w') ->
                 Contact.tenant_id c = Location.tenant_id example_location ->
                 Contact.id c = Contact.id first ->
                 Contact.sms_opted_out c = Some true /\
                 Contact.sms_opted_out_at c = Some example_morning) /\
    (contacts_by_phone example_shop (Location.tenant_id example_location)
                       (normalizePhone "(415) 555-1212") = [] ->
     contactId = None /\ contacts w' = contacts example_shop) /\
    smsQueue w' = smsQueue example_shop.
Proof.
  apply (handleInbound_opt_out_keyword (Some 7%nat) failing_env example_morning
           "(415) 555-1212" "619-555-0100" " stop " (Some "in-1") example_shop
           example_location).
  - vm_compute. reflexivity.
  - vm_compute. reflexivity.
Defined.

(** X21: an opt-in keyword from a phone that matches no contact of the
    tenant, on a connection that carries the tenant of the destination
    number, is answered like a successful opt-in: [handleInbound] returns the
    action 'opt_in' and sends the confirmation text, although [processOptIn]
    found no contact and changed nothing - no contact, no audit row, and a
    phone on the global opt-out list stays there. *)
Theorem handleInbound_opt_in_unknown_contact session env now from to text telnyxMessageId
    w l :
  find (fun l => session_sees session (Location.tenant_id l)
                 && option_string_eqb (Location.sms_phone_number l) (normalizePhone to))
       (locations w) = Some l ->
  isOptOutMessage (config env) text = false ->
  isOptInMessage (config env) text = true ->
  contacts_by_phone w (Location.tenant_id l) (normalizePhone from) = [] ->
  exists w',
    handleInbound session env now from to text telnyxMessageId w
    = (Returned (InboundKeyword OptOutLog.opt_in (next_id w)), w') /\
    contacts w' = contacts w /\
    opt_out_log w' = opt_out_log w /\
    global_opt_outs w' = global_opt_outs w /\
    messages w' =
      (messages w ++
       [inbound_row (next_id w) (Location.tenant_id l) None
          (Location.id l) (normalizePhone to) (normalizePhone from) text
          telnyxMessageId now])%list /\
    logger w' =
      (logger w ++
       [(info, "Inbound SMS received");
        match telnyx_create env
                {| tp_to := normalizePhone from; tp_text := opt_in_confirmation_text;
                   tp_from := Some (normalizePhone to);
                   tp_messaging_profile_id := None |} with
        | Returned _ => (info, "Opt-in confirmation sent")
        | Thrown _ => (error, "Failed to send opt-in confirmation")
        end])%list.
Proof.
  intros Hfind Hout Hin Hnone.
  unfold handleInbound, bind, get, fresh_id, log, modify, ret.
  cbn [locations with_logger logger].
  rewrite Hfind, Hout, Hin.
  unfold processOptIn, bind, get, ret.
  rewrite normalizePhone_of_normalized.
  unfold contacts_by_phone in *.
  cbn [contacts with_logger with_messages with_next_id].
  rewrite Hnone.
  rewrite sendOptInConfirmation_run.
  eexists. split; [reflexivity|].
  cbn [contacts opt_out_log global_opt_outs messages logger
       with_logger with_messages with_next_id].
  rewrite <- app_assoc. repeat split.
Qed.

Lemma handleInbound_opt_in_unknown_contact_witness :
  exists w',
    handleInbound (Some 7%nat) example_env example_morning "+1 415 555 9999" "619-555-0100"
                  "Start" None example_shop
    = (Returned (InboundKeyword OptOutLog.opt_in (next_id example_shop)), w') /\
    contacts w' = contacts example_shop /\
    opt_out_log w' = opt_out_log example_shop /\
    global_opt_outs w' = global_opt_outs example_shop /\
    messages w' =
      (messages example_shop ++
       [inbound_row (next_id example_shop) (Location.tenant_id example_location) None
          (Location.id example_location) (normalizePhone "619-555-0100")
          (normalizePhone "+1 415 555 9999") "Start" None example_morning])%list /\
    logger w' =
      (logger example_shop ++
       [(info, "Inbound SMS received");
        match telnyx_create example_env
                {| tp_to := normalizePhone "+1 415 555 9999";
                   tp_text := opt_in_confirmation_text;
                   tp_from := Some (normalizePhone "619-555-0100");
                   tp_messaging_profile_id := None |} with
        | Returned _ => (info, "Opt-in confirmation sent")
        | Thrown _ => (error, "Failed to send opt-in confirmation")
        end])%list.
Proof.
  apply (handleInbound_opt_in_unknown_contact (Some 7%nat) example_env example_morning
           "+1 415 555 9999" "619-555-0100" "Start" None example_shop example_location).
  - vm_compute. reflexivity.
  - vm_compute. reflexivity.
  - vm_compute. reflexivity.
  - vm_compute. reflexivity.
Defined.

(** X22: after a STOP reply from the phone of a contact has been handled - on
    a connection that carries the tenant of the destination number - every
    later send job for that contact, in a zone the runtime knows, is
    finalized as blocked with the reason 'Contact has opted out of SMS', at
    any time of day; the job writes no [messages] row and queues nothing. *)
Theorem stop_reply_blocks_later_sends session env now now' from to text telnyxMessageId
    w l first rest r w1 job :
  find (fun l => session_sees session (Location.tenant_id l)
                 && option_string_eqb (Location.sms_phone_number l) (normalizePhone to))
       (locations w) = Some l ->
  isOptOutMessage (config env) text = true ->
  contacts_by_phone w (Location.tenant_id l) (normalizePhone from) = first :: rest ->
  handleInbound session env now from to text telnyxMessageId w = (r, w1) ->
  (forall c, select_contact w1 (Location.tenant_id l) (Contact.id first) = Some c ->
             knownZone env (resolve_timezone c) = true) ->
  quiet_end_parses (config env) = true ->
  jd_tenantId (job_data job) = Location.tenant_id l ->
  jd_contactId (job_data job) = Contact.id first ->
  exists reasons w2,
    startSMSWorker_processor env now' job w1 = (Returned (SendBlocked reasons), w2) /\
    In "Contact has opted out of SMS" reasons /\
    messages w2 = messages w1 /\
    smsQueue w2 = smsQueue w.
Proof.
  intros Hfind Hkw Hfound Hrun Hzone Hparse Ht Hid.
  destruct (handleInbound_opt_out_run session env now from to text telnyxMessageId w l
              Hfind Hkw)
    as (w1' & Hrun' & Hcs & Hls & _ & _ & _ & Hqs).
  rewrite Hrun' in Hrun. injection Hrun as _ <-.
  rewrite Hfound in Hcs.
  destruct (contacts_by_phone_member _ _ _ _ _ Hfound) as (Hin & Hten & _).
  set (tenantId := Location.tenant_id l) in *.
  set (p := fun c => Nat.eqb (Contact.tenant_id c) tenantId
                     && Nat.eqb (Contact.id c) (Contact.id first)).
  set (g := fun c => if p c then set_opted_out sms now c else c).
  assert (Hpg : forall x, p (g x) = p x).
  { intros x. unfold g. destruct (p x) eqn:E; [|exact E]. exact E. }
  destruct (find_of_member p (contacts w) first Hin) as (y & Hy & Hpy).
  { unfold p. now rewrite Hten, !Nat.eqb_refl. }
  assert (Hsel : exists c, select_contact w1' tenantId (Contact.id first) = Some c
                           /\ Contact.sms_opted_out (contact c) = Some true).
  { unfold select_contact. rewrite Hcs, Hls.
    change (find _ (map _ (contacts w))) with (find p (map g (contacts w))).
    rewrite (find_map_preserve p g _ Hpg), Hy. cbn [option_map].
    eexists. split; [reflexivity|]. cbn [contact]. unfold g. rewrite Hpy. reflexivity. }
  destruct Hsel as (c & Hsel & Hflag).
  destruct (checkQuietHours_returns env now' c (Hzone c Hsel) Hparse) as (q & Hq).
  destruct (sms_reasons_not_approved env now' w1' tenantId (Contact.id first) c q
              "Contact has opted out of SMS" Hsel Hq)
    as (evaluation & Hev & Hn & Hr).
  { unfold sms_reasons. apply in_or_app. right. apply in_or_app. left.
    unfold checkOptOut. rewrite Hflag. now left. }
  exists (cr_reasons evaluation). eexists. split.
  - apply worker_not_approved; [rewrite Ht, Hid; exact Hev | exact Hn].
  - split; [exact Hr|]. cbn [messages smsQueue with_logger]. now split.
Qed.

Lemma stop_reply_blocks_later_sends_witness :
  exists reasons w2,
    startSMSWorker_processor example_env example_morning example_job
      (snd (handleInbound (Some 7%nat) example_env example_night "(415) 555-1212"
                          "619-555-0100" "STOP" (Some "in-1") example_shop))
    = (Returned (SendBlocked reasons), w2) /\
    In "Contact has opted out of SMS" reasons /\
    messages w2
    = messages (snd (handleInbound (Some 7%nat) example_env example_night "(415) 555-1212"
                                   "619-555-0100" "STOP" (Some "in-1") example_shop)) /\
    smsQueue w2 = smsQueue example_shop.
Proof.
  apply (stop_reply_blocks_later_sends (Some 7%nat) example_env example_night
           example_morning "(415) 555-1212" "619-555-0100" "STOP" (Some "in-1")
           example_shop example_location (example_contact true) []
           (fst (handleInbound (Some 7%nat) example_env example_night "(415) 555-1212"
                               "619-555-0100" "STOP" (Some "in-1") example_shop))).
  - vm_compute. reflexivity.
  - vm_compute. reflexivity.
  - vm_compute. reflexivity.
  - apply surjective_pairing.
  - intros c Hc. vm_compute in Hc. injection Hc as <-. reflexivity.
  - vm_compute. reflexivity.
  - reflexivity.
  - reflexivity.
Defined.

(** X23: the three usual spellings of a US number - the ten-digit national
    number, the same with a leading 1, and the same with +1 - normalize to
    one string, +1 followed by the ten digits, so that a contact stored
    under one is found under the others. *)
Theorem normalizePhone_us_forms (s : string) :
  String.length (strip_non_digits s) = 10%nat ->
  normalizePhone s = "+1" ++ strip_non_digits s /\
  normalizePhone ("1" ++ s) = "+1" ++ strip_non_digits s /\
  normalizePhone ("+1" ++ s) = "+1" ++ strip_non_digits s.
Proof.
  intros H. unfold normalizePhone.
  change (strip_non_digits ("+1" ++ s)) with (String "1"%char (strip_non_digits s)).
  change (strip_non_digits ("1" ++ s)) with (String "1"%char (strip_non_digits s)).
  cbn [String.length]. rewrite H. cbn [Nat.eqb].
  repeat split.
Qed.

Lemma normalizePhone_us_forms_witness :
  normalizePhone "(415) 555-1212" = "+1" ++ strip_non_digits "(415) 555-1212" /\
  normalizePhone ("1" ++ "(415) 555-1212") = "+1" ++ strip_non_digits "(415) 555-1212" /\
  normalizePhone ("+1" ++ "(415) 555-1212") = "+1" ++ strip_non_digits "(415) 555-1212".
Proof.
  apply normalizePhone_us_forms. reflexivity.
Defined.

(** ** The content scan *)

Lemma prefix_app (t s b : string) :
  String.prefix t s = true -> String.prefix t (s ++ b) = true.
Proof.
  revert s. induction t as [|c t IH]; intros s H; [destruct (s ++ b); reflexivity|].
  destruct s as [|d s]; [discriminate|].
  cbn [String.prefix append] in *.
  destruct (Ascii.ascii_dec c d); [now apply IH | discriminate].
Qed.

Lemma includes_app_r (s b t : string) :
  includes s t = true -> includes (s ++ b) t = true.
Proof.
  induction s as [|c s IH]; intros H.
  - cbn [includes] in H. rewrite orb_false_r in H.
    destruct t as [|d t]; [|discriminate].
    destruct b; reflexivity.
  - cbn [includes append] in *. apply orb_true_iff in H. apply orb_true_iff.
    destruct H as [H | H].
    + left. exact (prefix_app t (String c s) b H).
    + right. now apply IH.
Qed.

Lemma includes_app_l (a s t : string) :
  includes s t = true -> includes (a ++ s) t = true.
Proof.
  intros H. induction a as [|c a IH]; [exact H|].
  cbn [append includes]. rewrite IH. apply orb_true_r.
Qed.

Lemma toLowerCase_app (a b : string) :
  toLowerCase (a ++ b) = toLowerCase a ++ toLowerCase b.
Proof.
  induction a as [|c a IH]; [reflexivity|].
  cbn [append toLowerCase]. now rewrite IH.
Qed.

(** X24: the content scan matches its terms anywhere in the text: every
    issue reported for a text is reported for any longer text that contains
    it, so a flagged wording cannot be hidden by what surrounds it (and a
    term is found inside longer words as well). *)
Theorem scanContent_issues_kept_in_context (content before after : string)
    (state state' : option string) (issue : string) :
  In issue (scanContent content state) ->
  In issue (scanContent (before ++ content ++ after) state').
Proof.
  unfold scanContent. rewrite !toLowerCase_app.
  assert (Hkeep : forall terms term,
            In term (filter (includes (toLowerCase content)) terms) ->
            In term (filter (includes (toLowerCase before ++ toLowerCase content
                                       ++ toLowerCase after)) terms)).
  { intros terms term Hin. apply filter_In in Hin. destruct Hin as [Hin Hinc].
    apply filter_In. split; [exact Hin|].
    apply includes_app_l, includes_app_r. exact Hinc. }
  intros Hin. apply in_app_or in Hin. apply in_or_app.
  destruct Hin as [Hin | Hin]; [left | right];
    apply in_map_iff in Hin; destruct Hin as (term & <- & Hin);
    apply in_map_iff; exists term; (split; [reflexivity | now apply Hkeep]).
Qed.

Lemma scanContent_issues_kept_in_context_witness :
  In ("Potential health claim detected: " ++ dquote ++ "treat" ++ dquote)
     (scanContent ("Spa re" ++ "TREAT" ++ "s this week") (Some "CA")).
Proof.
  apply (scanContent_issues_kept_in_context "TREAT" "Spa re" "s this week" None).
  vm_compute. left. reflexivity.
Defined.
